(** * SF_Orchestrator: the dynamic-schema ingestion and maintenance engine

    A shallow embedding of [DatabaseManager], [get_column_type] and the crawl
    ledger statements of [ScreamingFrogWrapper] (the "main copy.py" module),
    together with the properties of the engine stated over it.

    Conventions of the embedding.
    - A Python [str] is a [string]; its characters are bytes, and [lower]
      acts on the letters A-Z only.
    - [pathlib.Path] is read with the POSIX flavour: [/] is the only
      separator.
    - SQLite is an explicit store: a finite map from table names to tables,
      a table being its declared columns and its rows.  A connection carries
      the committed store and the store seen by the open transaction.
    - A method of a class is a function on the object's state that returns
      either a value or the exception it raises, with the state it leaves. *)

From Stdlib Require Import String Ascii List ZArith Lia Bool.
From stdpp Require Import base option gmap strings list fin_maps pretty.

Import ListNotations.
Local Open Scope string_scope.
Local Open Scope Z_scope.

(** ** Python strings *)

Module PyStr.

Definition is_upper (c : ascii) : bool :=
  let n := nat_of_ascii c in (Nat.leb 65 n && Nat.leb n 90)%bool.

Definition lower_char (c : ascii) : ascii :=
  if is_upper c then ascii_of_nat (nat_of_ascii c + 32) else c.

(** [s.lower()] *)
Fixpoint lower (s : string) : string :=
  match s with
  | EmptyString => EmptyString
  | String c s' => String (lower_char c) (lower s')
  end.

(** [s.replace(a, b)] for one-character [a] and [b] *)
Fixpoint replace (a b : ascii) (s : string) : string :=
  match s with
  | EmptyString => EmptyString
  | String c s' => String (if Ascii.eqb c a then b else c) (replace a b s')
  end.

(** [s.startswith(p)] *)
Fixpoint startswith (s p : string) {struct p} : bool :=
  match p, s with
  | EmptyString, _ => true
  | String a p', String b s' => Ascii.eqb a b && startswith s' p'
  | String _ _, EmptyString => false
  end.

(** [s.endswith(suf)]: some tail of [s] is [suf]. *)
Fixpoint endswith (s suf : string) : bool :=
  if String.eqb s suf then true
  else match s with
       | EmptyString => false
       | String _ s' => endswith s' suf
       end.

(** [sub in s]: [sub] starts some tail of [s]. *)
Fixpoint contains (s sub : string) : bool :=
  if startswith s sub then true
  else match s with
       | EmptyString => false
       | String _ s' => contains s' sub
       end.

(** The characters [str.isspace] accepts below 128. *)
Definition is_space (c : ascii) : bool :=
  let n := nat_of_ascii c in
  ((Nat.leb 9 n && Nat.leb n 13) || (Nat.leb 28 n && Nat.leb n 32))%bool.

Fixpoint lstrip (s : string) : string :=
  match s with
  | EmptyString => EmptyString
  | String c s' => if is_space c then lstrip s' else s
  end.

Fixpoint rstrip (s : string) : string :=
  match s with
  | EmptyString => EmptyString
  | String c s' =>
      match rstrip s' with
      | EmptyString => if is_space c then EmptyString else String c EmptyString
      | r => String c r
      end
  end.

(** [s.strip()] *)
Definition strip (s : string) : string := rstrip (lstrip s).

(** The first word of [s] once leading blanks are gone. *)
Fixpoint take_word (s : string) : string :=
  match s with
  | EmptyString => EmptyString
  | String c s' => if is_space c then EmptyString else String c (take_word s')
  end.

(** [s.split()[0]]; [None] stands for the [IndexError] of an empty split. *)
Definition first_word (s : string) : option string :=
  match lstrip s with
  | EmptyString => None
  | w => Some (take_word w)
  end.

(** Every character of [s] satisfies [P]. *)
Fixpoint all_chars (P : ascii -> bool) (s : string) : bool :=
  match s with
  | EmptyString => true
  | String c s' => P c && all_chars P s'
  end.

(** What a cleaned name is made of: no capital, blank, hyphen or slash. *)
Definition tidy (c : ascii) : bool :=
  negb (is_upper c) && negb (Ascii.eqb c " ") && negb (Ascii.eqb c "-")
  && negb (Ascii.eqb c "/").

Definition not_slash (c : ascii) : bool := negb (Ascii.eqb c "/").

(** [", ".join(l)] and friends *)
Fixpoint join (sep : string) (l : list string) : string :=
  match l with
  | [] => EmptyString
  | [x] => x
  | x :: l' => x +:+ sep +:+ join sep l'
  end.

End PyStr.

(** ** [pathlib.Path(p).stem] *)

Module PyPath.

(** Split at [/]; [cur] is the component being read. *)
Fixpoint split_slash (cur : string) (s : string) : list string :=
  match s with
  | EmptyString => [cur]
  | String c s' =>
      if Ascii.eqb c "/" then cur :: split_slash EmptyString s'
      else split_slash (cur +:+ String c EmptyString) s'
  end.

(** The parts [Path] keeps: empty and [.] components are dropped. *)
Definition parts (p : string) : list string :=
  filter (fun c => c ≠ EmptyString ∧ c ≠ ".") (split_slash EmptyString p).

(** [Path(p).name] *)
Definition name (p : string) : string := List.last (parts p) EmptyString.

(** [s.rfind(".")], [None] for -1 *)
Fixpoint rfind_dot (s : string) : option nat :=
  match s with
  | EmptyString => None
  | String c s' =>
      match rfind_dot s' with
      | Some i => Some (S i)
      | None => if Ascii.eqb c "." then Some O else None
      end
  end.

(** [Path(p).stem]: the name up to its last dot, when that dot is neither
    the first nor the last character. *)
Definition stem_of_name (n : string) : string :=
  match rfind_dot n with
  | Some i =>
      if (Nat.ltb 0 i && Nat.ltb i (String.length n - 1))%bool
      then String.substring 0 i n else n
  | None => n
  end.

Definition stem (p : string) : string := stem_of_name (name p).

End PyPath.

(** ** Column typing *)

(** The sample values a frame cell can hold. *)
Inductive pyval : Type :=
| PyNone
| PyNaN
| PyNaT
| PyBool (b : bool)
| PyInt (n : Z)
| PyFloat (bits : Z)
| PyStr (s : string)
| PyDatetime (t : Z)
| PyTimestamp (t : Z)
| PyNumpyInt (n : Z).

(** [pd.isna(v)] *)
Definition isna (v : pyval) : bool :=
  match v with
  | PyNone | PyNaN | PyNaT => true
  | _ => false
  end.

(** [isinstance(v, (int, float))]; [bool] is a subclass of [int], a NumPy
    integer is not. *)
Definition is_int_or_float (v : pyval) : bool :=
  match v with
  | PyBool _ | PyInt _ | PyFloat _ | PyNaN => true
  | _ => false
  end.

(** [isinstance(v, (datetime, pd.Timestamp))] *)
Definition is_datetime (v : pyval) : bool :=
  match v with
  | PyDatetime _ | PyTimestamp _ | PyNaT => true
  | _ => false
  end.

Definition numeric_indicators : list string :=
  ["_ms"; "_bytes"; "_length"; "_size"; "_count"; "_number"; "_code"].

Definition timestamp_indicators : list string :=
  ["_date"; "_time"; "timestamp"; "last_modified"].

Definition get_column_type (column_name : string) (sample_value : pyval) : string :=
  if existsb (fun ind => PyStr.endswith (PyStr.lower column_name) ind) numeric_indicators
  then "REAL"
  else if existsb (fun ind => PyStr.contains (PyStr.lower column_name) ind) timestamp_indicators
  then "TIMESTAMP"
  else if isna sample_value then "TEXT"
  else if is_int_or_float sample_value then "REAL"
  else if is_datetime sample_value then "TIMESTAMP"
  else "TEXT".

(** ** Exceptions and the state-and-exception monad of a method body *)

Inductive exn : Type :=
| NameError (name : string)
| UnboundLocalError (name : string)
| IndexError
| EmptyDataError
| AttributeError (msg : string)
| ProgrammingError (msg : string)
| OperationalError (msg : string)
| IntegrityError (msg : string).

(** [str(e)] *)
Definition exn_str (e : exn) : string :=
  match e with
  | NameError n => "name '" +:+ n +:+ "' is not defined"
  | UnboundLocalError n =>
      "cannot access local variable '" +:+ n +:+ "' where it is not associated with a value"
  | IndexError => "list index out of range"
  | EmptyDataError => "No columns to parse from file"
  | AttributeError msg => msg
  | ProgrammingError msg => msg
  | OperationalError msg => msg
  | IntegrityError msg => msg
  end.

(** [isinstance(e, sqlite3.Error)] *)
Definition is_sqlite_error (e : exn) : bool :=
  match e with
  | OperationalError _ | IntegrityError _ | ProgrammingError _ => true
  | _ => false
  end.

(** [isinstance(e, sqlite3.OperationalError)] *)
Definition is_operational_error (e : exn) : bool :=
  match e with
  | OperationalError _ => true
  | _ => false
  end.

Inductive outcome (A : Type) : Type :=
| Returned (a : A)
| Raised (e : exn).
Arguments Returned {A} a.
Arguments Raised {A} e.

(** A computation over a state [S]: the state survives an exception, as the
    attributes of a Python object do. *)
Definition M (S A : Type) : Type := S -> outcome A * S.

Definition ret {S A} (a : A) : M S A := fun s => (Returned a, s).

Definition bind {S A B} (m : M S A) (k : A -> M S B) : M S B :=
  fun s => match m s with
           | (Returned a, s') => k a s'
           | (Raised e, s') => (Raised e, s')
           end.

Definition raise {S A} (e : exn) : M S A := fun s => (Raised e, s).

(** [try: m  except <those e with catches e>: h e] *)
Definition try_except {S A} (m : M S A) (catches : exn -> bool) (h : exn -> M S A) : M S A :=
  fun s => match m s with
           | (Returned a, s') => (Returned a, s')
           | (Raised e, s') => if catches e then h e s' else (Raised e, s')
           end.

Definition gets {S A} (f : S -> A) : M S A := fun s => (Returned (f s), s).
Definition modify {S} (f : S -> S) : M S unit := fun s => (Returned tt, f s).

(** [try: x = m; k x  except Exception as e: ...], split where the local
    [x] gets bound: an exception of [m] reaches the handler [h], which finds
    [x] unbound; [k] runs with [x] bound and brings its own handler. *)
Definition try_bind {S A B} (m : M S A) (k : A -> M S B) (h : exn -> M S B) : M S B :=
  fun s => match m s with
           | (Returned a, s') => k a s'
           | (Raised e, s') => h e s'
           end.

Declare Scope py_scope.
Delimit Scope py_scope with py.
Notation "x <- m ;; k" := (bind m (fun x => k))
  (at level 100, m at next level, right associativity) : py_scope.
Notation "m ;;; k" := (bind m (fun _ => k))
  (at level 100, right associativity) : py_scope.

(** [for x in l: body x] *)
Fixpoint for_each {S A} (l : list A) (body : A -> M S unit) : M S unit :=
  match l with
  | [] => ret tt
  | x :: l' => bind (body x) (fun _ => for_each l' body)
  end.

(** ** The SQLite store *)

(** What the embedding leaves to the engine: which column definitions the
    SQL parser refuses, and the column type pandas declares for the cells of
    a frame column when [to_sql] has to create the table itself. *)
Class SqlEngine : Type := {
  sql_rejects : string -> bool;
  pandas_sql_type : list pyval -> string
}.

(** The engine that refuses no definition. *)
Definition plain_engine : SqlEngine :=
  {| sql_rejects := fun _ => false; pandas_sql_type := fun _ => "TEXT" |}.

Abbreviation row := (gmap string pyval).

Record table : Type := Table {
  t_columns : list (string * string);   (* name, declared type, in order *)
  t_rows : list row
}.

Abbreviation store := (gmap string table).

Module Sqlite.

Definition column_names (tb : table) : list string := (t_columns tb).*1.

(** Column names are compared without regard to case. *)
Definition has_column (tb : table) (n : string) : bool :=
  existsb (fun c => String.eqb (PyStr.lower c) (PyStr.lower n)) (column_names tb).

Fixpoint drop_word (s : string) : string :=
  match s with
  | EmptyString => EmptyString
  | String c s' => if PyStr.is_space c then s else drop_word s'
  end.

(** What follows the column name in a definition. *)
Definition col_decl (def : string) : string :=
  PyStr.lstrip (drop_word (PyStr.lstrip def)).

(** Append the column a definition declares. *)
Definition add_column `{SqlEngine} (def : string) (tb : table) : outcome table :=
  if sql_rejects def then Raised (OperationalError ("syntax error in column definition: " +:+ def))
  else match PyStr.first_word def with
       | None => Raised (OperationalError "incomplete input")
       | Some n =>
           if has_column tb n
           then Raised (OperationalError ("duplicate column name: " +:+ n))
           else Returned (Table (t_columns tb ++ [(n, col_decl def)]) (t_rows tb))
       end.

Fixpoint add_columns `{SqlEngine} (defs : list string) (tb : table) : outcome table :=
  match defs with
  | [] => Returned tb
  | d :: defs' =>
      match add_column d tb with
      | Returned tb' => add_columns defs' tb'
      | Raised e => Raised e
      end
  end.

Definition row_id (r : row) : Z :=
  match r !! "id" with
  | Some (PyInt n) => n
  | _ => 0
  end.

(** The next rowid: one more than the largest in use. *)
Definition next_rowid (rows : list row) : Z :=
  1 + fold_right Z.max 0 (row_id <$> rows).

Definition set_fields (fields : list (string * pyval)) (r : row) : row :=
  fold_left (fun acc '(k, v) => <[k := v]> acc) fields r.

Definition unknown_column (tb : table) (fields : list (string * pyval)) : option string :=
  List.find (fun n => negb (has_column tb n)) (fields.*1).

(** [crawl_date < cutoff] on a row; a NULL or non-temporal cell is not
    less than anything. *)
Definition older_than (cutoff : Z) (r : row) : bool :=
  match r !! "crawl_date" with
  | Some (PyDatetime t) | Some (PyTimestamp t) => t <? cutoff
  | _ => false
  end.

(** The statements the program sends to the engine. *)
Inductive stmt : Type :=
| Begin
| PragmaTableInfo (t : string)
| SelectSqliteMaster
| CreateTable (if_not_exists : bool) (t : string) (defs : list string)
| AlterTableAddColumn (t : string) (def : string)
| InsertInto (t : string) (fields : list (string * pyval))
| UpdateWhereId (t : string) (fields : list (string * pyval)) (id : Z)
| DeleteWhereCrawlDateBefore (t : string) (cutoff : Z)
| Vacuum
| Analyze
| PragmaOptimize.

(** A connection with its cursor.  [committed] is what a rollback returns
    to; [pending] is what statements read and write.  [journal] lists the
    statements executed so far, each with whether the engine accepted it. *)
Record connection : Type := Connection {
  committed : store;
  pending : store;
  in_txn : bool;
  lastrowid : Z;
  rowcount : Z;
  journal : list (stmt * bool)
}.

Definition fresh_connection (s : store) : connection :=
  Connection s s false 0 (-1) [].

(** INSERT, UPDATE and DELETE open a transaction when none is open. *)
Definition dml (f : store -> store) (last count : Z) (c : connection) : connection :=
  Connection (committed c) (f (pending c)) true last count (journal c).

(** CREATE and ALTER do not: outside a transaction they are committed at
    once. *)
Definition ddl (f : store -> store) (c : connection) : connection :=
  let p := f (pending c) in
  Connection (if in_txn c then committed c else p) p (in_txn c)
             (lastrowid c) (rowcount c) (journal c).

Definition no_such_table {A} (t : string) : outcome A :=
  Raised (OperationalError ("no such table: " +:+ t)).

(** The id a new row gets: the one it names, when free, else the next. *)
Definition rowid_for (tb : table) (fields : list (string * pyval)) : outcome Z :=
  match set_fields fields (∅ : row) !! "id" with
  | Some (PyInt n) =>
      if existsb (fun r => row_id r =? n) (t_rows tb)
      then Raised (IntegrityError "UNIQUE constraint failed: id")
      else Returned n
  | _ => Returned (next_rowid (t_rows tb))
  end.

(** What a statement does to the connection when the engine accepts it. *)
Definition effect `{SqlEngine} (q : stmt) (c : connection) : outcome connection :=
  match q with
  | Begin =>
      if in_txn c
      then Raised (OperationalError "cannot start a transaction within a transaction")
      else Returned (Connection (committed c) (pending c) true
                                (lastrowid c) (rowcount c) (journal c))
  | PragmaTableInfo _ | SelectSqliteMaster | Analyze | PragmaOptimize => Returned c
  | Vacuum =>
      if in_txn c
      then Raised (OperationalError "cannot VACUUM from within a transaction")
      else Returned c
  | CreateTable if_not_exists t defs =>
      match pending c !! t with
      | Some _ =>
          if if_not_exists then Returned c
          else Raised (OperationalError ("table " +:+ t +:+ " already exists"))
      | None =>
          match add_columns defs (Table [] []) with
          | Returned tb => Returned (ddl (fun s => <[t := tb]> s) c)
          | Raised e => Raised e
          end
      end
  | AlterTableAddColumn t def =>
      match pending c !! t with
      | None => no_such_table t
      | Some tb =>
          match add_column def tb with
          | Returned tb' => Returned (ddl (fun s => <[t := tb']> s) c)
          | Raised e => Raised e
          end
      end
  | InsertInto t fields =>
      match pending c !! t with
      | None => no_such_table t
      | Some tb =>
          match unknown_column tb fields with
          | Some n =>
              Raised (OperationalError ("table " +:+ t +:+ " has no column named " +:+ n))
          | None =>
              match rowid_for tb fields with
              | Returned id =>
                  let r := <["id" := PyInt id]> (set_fields fields ∅) in
                  Returned (dml (fun s => <[t := Table (t_columns tb) (t_rows tb ++ [r])]> s)
                                id 1 c)
              | Raised e => Raised e
              end
          end
      end
  | UpdateWhereId t fields id =>
      match pending c !! t with
      | None => no_such_table t
      | Some tb =>
          match unknown_column tb (("id", PyInt id) :: fields) with
          | Some n => Raised (OperationalError ("no such column: " +:+ n))
          | None =>
              let hit r := row_id r =? id in
              let rows' := (fun r => if hit r then set_fields fields r else r) <$> t_rows tb in
              Returned (dml (fun s => <[t := Table (t_columns tb) rows']> s)
                            (lastrowid c)
                            (Z.of_nat (length (List.filter hit (t_rows tb)))) c)
          end
      end
  | DeleteWhereCrawlDateBefore t cutoff =>
      match pending c !! t with
      | None => no_such_table t
      | Some tb =>
          if has_column tb "crawl_date"
          then
            let keep r := negb (older_than cutoff r) in
            Returned (dml (fun s => <[t := Table (t_columns tb) (List.filter keep (t_rows tb))]> s)
                          (lastrowid c)
                          (Z.of_nat (length (List.filter (older_than cutoff) (t_rows tb)))) c)
          else Raised (OperationalError "no such column: crawl_date")
      end
  end.

Definition record (q : stmt) (ok : bool) (c : connection) : connection :=
  Connection (committed c) (pending c) (in_txn c) (lastrowid c) (rowcount c)
             (journal c ++ [(q, ok)]).

(** [cursor.execute(q)] *)
Definition execute `{SqlEngine} (q : stmt) : M connection unit :=
  fun c => match effect q c with
           | Returned c' => (Returned tt, record q true c')
           | Raised e => (Raised e, record q false c)
           end.

(** [conn.commit()] *)
Definition commit : M connection unit :=
  modify (fun c => Connection (pending c) (pending c) false
                              (lastrowid c) (rowcount c) (journal c)).

(** [conn.rollback()] *)
Definition rollback : M connection unit :=
  modify (fun c => Connection (committed c) (committed c) false
                              (lastrowid c) (rowcount c) (journal c)).

(** [PRAGMA table_info(t)] followed by reading the name of every row;
    a table that does not exist has no rows. *)
Definition table_info `{SqlEngine} (t : string) : M connection (list string) :=
  bind (execute (PragmaTableInfo t))
       (fun _ => gets (fun c => match pending c !! t with
                                | Some tb => column_names tb
                                | None => []
                                end)).

(** The text [sqlite_master.sql] holds for a table. *)
Definition table_sql (t : string) (tb : table) : string :=
  "CREATE TABLE " +:+ t +:+ " ("
    +:+ PyStr.join ", " ((fun '(n, d) => n +:+ " " +:+ d) <$> t_columns tb) +:+ ")".

(** [SELECT name, sql FROM sqlite_master WHERE type='table'] *)
Definition sqlite_master `{SqlEngine} : M connection (list (string * string)) :=
  bind (execute SelectSqliteMaster)
       (fun _ => gets (fun c => (fun '(t, tb) => (t, table_sql t tb))
                                  <$> map_to_list (pending c))).

End Sqlite.

(** ** Data frames *)

Record DataFrame : Type := Frame {
  df_columns : list string;          (* the labels, left to right *)
  df_rows : list (list pyval)        (* one list of cells per row *)
}.

Module Pandas.

Fixpoint index_of (l : list string) (x : string) : option nat :=
  match l with
  | [] => None
  | y :: l' => if String.eqb y x then Some O else S <$> index_of l' x
  end.

(** [df.empty]: no rows or no columns *)
Definition empty (df : DataFrame) : bool :=
  match df_columns df, df_rows df with
  | _ :: _, _ :: _ => false
  | _, _ => true
  end.

(** [len(df)] *)
Definition len (df : DataFrame) : Z := Z.of_nat (length (df_rows df)).

(** [(df.iloc[0] if not df.empty else pd.Series()).get(col)]; the labels
    are taken to be distinct, the first match is read. *)
Definition sample (df : DataFrame) (col : string) : pyval :=
  if empty df then PyNone
  else match df_rows df, index_of (df_columns df) col with
       | r :: _, Some i => nth i r PyNone
       | _, _ => PyNone
       end.

(** [df[label] = v] for a scalar [v] *)
Definition assign (label : string) (v : pyval) (df : DataFrame) : DataFrame :=
  match index_of (df_columns df) label with
  | Some i => Frame (df_columns df) ((fun r => <[i := v]> r) <$> df_rows df)
  | None =>
      Frame (df_columns df ++ [label])%list ((fun r => (r ++ [v])%list) <$> df_rows df)
  end.

(** The cells of the column at position [i] *)
Definition cells (df : DataFrame) (i : nat) : list pyval :=
  (fun r => nth i r PyNone) <$> df_rows df.

(** [df.to_sql(table_name, conn, if_exists='append', index=False)]: the
    table is created from the frame when it is missing, the rows are
    inserted in order, and the transaction is committed, or rolled back
    when a statement fails. *)
Definition to_sql `{SqlEngine} (table_name : string) (df : DataFrame)
  : M Sqlite.connection unit :=
  (known <- gets (fun c => Sqlite.pending c !! table_name) ;;
   (match known with
    | Some _ => ret tt
    | None =>
        Sqlite.execute
          (Sqlite.CreateTable false table_name
             (imap (fun i col => col +:+ " " +:+ pandas_sql_type (cells df i))
                   (df_columns df)))
    end) ;;;
   try_except
     (for_each (df_rows df)
        (fun r => Sqlite.execute (Sqlite.InsertInto table_name (zip (df_columns df) r))) ;;;
      Sqlite.commit)
     (fun _ => true)
     (fun e => Sqlite.rollback ;;; raise e))%py.

End Pandas.

(** ** Name resolution in the module *)

(** The names bound at the top level of the module. *)
Definition module_globals : list string :=
  ["os"; "subprocess"; "argparse"; "sqlite3"; "pd"; "datetime"; "timedelta";
   "time"; "logging"; "Path"; "sys"; "traceback"; "shutil";
   "DEFAULT_CONFIG_DIR"; "OUTPUT_DIR"; "LOG_DIR";
   "setup_logging"; "get_column_type"; "DatabaseManager";
   "ScreamingFrogWrapper"; "main"].

(** The builtins the module uses. *)
Definition builtin_names : list string :=
  ["any"; "isinstance"; "int"; "float"; "str"; "len"; "set"; "list"; "open";
   "Exception"; "EnvironmentError"; "FileNotFoundError"].

(** Evaluating a free name inside a function body: the locals, then the
    module globals, then the builtins.  The attributes of an enclosing class
    are not searched. *)
Definition load_name {S} (locals : list string) (name : string) : M S unit :=
  if existsb (String.eqb name) (locals ++ module_globals ++ builtin_names)%list
  then ret tt
  else raise (NameError name).

(** ** [class DatabaseManager] *)

Module DatabaseManager.

Import Sqlite.

(** [self.conn] with [self.cursor]: not yet opened, open, or closed. *)
Inductive handle : Type :=
| NoConnection
| Open (c : connection)
| Closed (c : connection).

Record state : Type := State {
  db_path : string;
  conn : handle;
  table_schemas : gmap string string
}.

Definition set_conn (h : handle) (self : state) : state :=
  State (db_path self) h (table_schemas self).

(** A statement through [self.cursor] or [self.conn]. *)
Definition cursor {A} (m : M connection A) : M state A :=
  fun self =>
    match conn self with
    | NoConnection =>
        (Raised (AttributeError "'NoneType' object has no attribute 'execute'"), self)
    | Closed _ =>
        (Raised (ProgrammingError "Cannot operate on a closed database."), self)
    | Open c => match m c with (r, c') => (r, set_conn (Open c') self) end
    end.

(** [column_exists(cursor, table, column)], an attribute of the class. *)
Definition column_exists `{SqlEngine} (table column : string) : M connection bool :=
  (names <- table_info table ;;
   ret (existsb (fun n => String.eqb n column) names))%py.

Definition crawl_metadata_columns : list string :=
  ["id INTEGER PRIMARY KEY"; "url TEXT NOT NULL"; "crawl_date TIMESTAMP";
   "config_used TEXT"; "crawl_status TEXT"; "total_urls INTEGER";
   "completion_time INTEGER"; "error_message TEXT"].

(** [setup_database]; [opened] is what [sqlite3.connect] gives. *)
Definition setup_database `{SqlEngine} (opened : outcome connection) : M state unit :=
  try_except
    ((match opened with
      | Returned c => modify (set_conn (Open c))
      | Raised e => raise e
      end) ;;;
     cursor (execute (CreateTable true "crawl_metadata" crawl_metadata_columns)) ;;;
     load_name ["self"] "column_exists" ;;;
     present <- cursor (column_exists "crawl_metadata" "command_executed") ;;
     (if negb present
      then cursor (execute (AlterTableAddColumn "crawl_metadata" "command_executed TEXT"))
      else ret tt) ;;;
     cursor commit)%py
    is_sqlite_error
    (fun e => raise e).

(** [__init__]: the object as the constructor leaves it, and whether the
    constructor returned. *)
Definition __init__ `{SqlEngine} (path : string) (opened : outcome connection)
  : outcome unit * state :=
  setup_database opened (State path NoConnection ∅).

Definition _create_base_tables `{SqlEngine} : M state unit :=
  (cursor (execute (CreateTable true "schema_version"
             ["version INTEGER PRIMARY KEY";
              "updated_at TIMESTAMP DEFAULT CURRENT_TIMESTAMP"])) ;;;
   cursor (execute (CreateTable true "table_schemas"
             ["table_name TEXT PRIMARY KEY"; "columns JSON";
              "created_at TIMESTAMP DEFAULT CURRENT_TIMESTAMP";
              "updated_at TIMESTAMP DEFAULT CURRENT_TIMESTAMP"])) ;;;
   cursor (execute (CreateTable true "maintenance_log"
             ["id INTEGER PRIMARY KEY"; "operation TEXT"; "details TEXT";
              "started_at TIMESTAMP"; "completed_at TIMESTAMP"; "status TEXT";
              "error_message TEXT"])) ;;;
   cursor commit)%py.

Definition _load_existing_schemas `{SqlEngine} : M state unit :=
  (tables <- cursor sqlite_master ;;
   for_each tables
     (fun '(table_name, sql) =>
        if String.eqb sql "" then ret tt
        else modify (fun self =>
               State (db_path self) (conn self)
                     (<[table_name := sql]> (table_schemas self)))))%py.

(** [col.replace(' ', '_').replace('-', '_').lower()] *)
Definition clean (col : string) : string :=
  PyStr.lower (PyStr.replace "-" "_" (PyStr.replace " " "_" col)).

Definition metadata_columns : list string :=
  ["crawl_id INTEGER"; "processed_at TIMESTAMP DEFAULT CURRENT_TIMESTAMP";
   "source_file TEXT"].

(** The column definitions built for a frame, metadata columns last. *)
Definition column_definitions (df : DataFrame) : list string :=
  (((fun col => clean col +:+ " " +:+ get_column_type col (Pandas.sample df col))
     <$> df_columns df) ++ metadata_columns)%list.

(** One turn of the "add missing columns" loop. *)
Definition add_if_missing `{SqlEngine} (table_name : string) (current_columns : list string)
    (col_def : string) : M state unit :=
  match PyStr.first_word col_def with
  | None => raise IndexError
  | Some col_name =>
      if existsb (String.eqb col_name) current_columns then ret tt
      else try_except
             (cursor (execute (AlterTableAddColumn table_name col_def)))
             is_operational_error
             (fun _ => ret tt)
  end.

Definition ensure_table_for_dataframe `{SqlEngine} (table_name : string) (df : DataFrame)
  : M state unit :=
  (let columns := column_definitions df in
   schemas <- gets table_schemas ;;
   (match schemas !! table_name with
    | Some _ =>
        current_columns <- cursor (table_info table_name) ;;
        for_each columns (add_if_missing table_name current_columns)
    | None =>
        cursor (execute (CreateTable false table_name ("id INTEGER PRIMARY KEY" :: columns)))
    end) ;;;
   cursor commit)%py.

(** The [except Exception] clause shared by the two maintenance methods;
    [log_id] is [None] when the local was never bound. *)
Definition maintenance_failed `{SqlEngine} (prefix : string) (now : Z) (log_id : option Z)
    (e : exn) : M state unit :=
  (cursor rollback ;;;
   let error_msg := prefix +:+ exn_str e in
   match log_id with
   | None => raise (UnboundLocalError "log_id")
   | Some id =>
       if id =? 0 then ret tt
       else
         cursor (execute (UpdateWhereId "maintenance_log"
                            [("status", PyStr "failed"); ("error_message", PyStr error_msg);
                             ("completed_at", PyTimestamp now)] id)) ;;;
         cursor commit
   end)%py.

Definition log_start `{SqlEngine} (operation details : string) (now : Z) : M state Z :=
  (cursor (execute Begin) ;;;
   cursor (execute (InsertInto "maintenance_log"
                      [("operation", PyStr operation); ("details", PyStr details);
                       ("started_at", PyTimestamp now); ("status", PyStr "in_progress")])) ;;;
   cursor (gets lastrowid))%py.

Definition log_completed `{SqlEngine} (now : Z) (log_id : Z) : M state unit :=
  (cursor (execute (UpdateWhereId "maintenance_log"
                      [("status", PyStr "completed"); ("completed_at", PyTimestamp now)]
                      log_id)) ;;;
   cursor commit)%py.

(** [optimize_database]; [now] is the clock. *)
Definition optimize_database `{SqlEngine} (now : Z) : M state unit :=
  try_bind
    (log_start "optimize" "Regular database optimization" now)
    (fun log_id =>
       try_except
         (cursor (execute Vacuum) ;;;
          cursor (execute Analyze) ;;;
          cursor (execute PragmaOptimize) ;;;
          log_completed now log_id)%py
         (fun _ => true)
         (maintenance_failed "Database optimization failed: " now (Some log_id)))
    (maintenance_failed "Database optimization failed: " now None).

(** [timedelta(days=d)] in seconds *)
Definition days (d : Z) : Z := d * 86400.

Definition tables_to_clean : list string := ["crawl_results"; "crawl_metadata"].

Definition cleanup_old_records `{SqlEngine} (days_to_keep : Z) (now : Z) : M state unit :=
  try_bind
    (log_start "cleanup"
       ("Removing records older than " +:+ pretty days_to_keep +:+ " days") now)
    (fun log_id =>
       try_except
         (let cutoff_date := now - days days_to_keep in
          for_each tables_to_clean
            (fun table =>
               schemas <- gets table_schemas ;;
               match schemas !! table with
               | Some _ => cursor (execute (DeleteWhereCrawlDateBefore table cutoff_date))
               | None => ret tt
               end) ;;;
          log_completed now log_id)%py
         (fun _ => true)
         (maintenance_failed "Cleanup failed: " now (Some log_id)))
    (maintenance_failed "Cleanup failed: " now None).

(** The stem, lower-cased, with blanks and hyphens replaced. *)
Definition cleaned_stem (csv_file : string) : string :=
  PyStr.replace "-" "_" (PyStr.replace " " "_" (PyStr.lower (PyPath.stem csv_file))).

Definition _determine_table_name (csv_file : string) (df : DataFrame) : string :=
  let base_name := PyStr.lower (PyPath.stem csv_file) in
  let clean_name := PyStr.replace "-" "_" (PyStr.replace " " "_" base_name) in
  if negb (PyStr.startswith clean_name "sf_") then "sf_" +:+ clean_name
  else clean_name.

(** The frame [process_screaming_frog_csv] hands on: cleaned labels and
    the three metadata columns. *)
Definition tagged (csv_file : string) (df0 : DataFrame) (crawl_id now : Z) : DataFrame :=
  Pandas.assign "processed_at" (PyTimestamp now)
    (Pandas.assign "source_file" (PyStr csv_file)
       (Pandas.assign "crawl_id" (PyInt crawl_id)
          (Frame ((fun col => clean (PyStr.strip col)) <$> df_columns df0)
                 (df_rows df0)))).

(** [process_screaming_frog_csv]; [read] is what [pd.read_csv(csv_file)]
    gives, [now] the clock. *)
Definition process_screaming_frog_csv `{SqlEngine} (csv_file : string)
    (read : outcome DataFrame) (crawl_id : Z) (now : Z) : M state Z :=
  (match read with
   | Raised e => raise e
   | Returned df0 =>
       let df1 := Frame ((fun col => clean (PyStr.strip col)) <$> df_columns df0)
                        (df_rows df0) in
       let df := Pandas.assign "processed_at" (PyTimestamp now)
                   (Pandas.assign "source_file" (PyStr csv_file)
                      (Pandas.assign "crawl_id" (PyInt crawl_id) df1)) in
       let table_name := _determine_table_name csv_file df in
       ensure_table_for_dataframe table_name df ;;;
       cursor (Pandas.to_sql table_name df) ;;;
       ret (Pandas.len df)
   end)%py.

Definition close : M state unit :=
  modify (fun self => match conn self with
                      | Open c => set_conn (Closed c) self
                      | _ => self
                      end).

End DatabaseManager.

(** ** Schema growth *)

Module Schema.

Import Sqlite.

(** A column [col] that [tb] did not have and that one of the [requested]
    definitions declares. *)
Definition new_column (requested : list string) (tb : table) (col : string * string) : Prop :=
  has_column tb col.1 = false
  /\ exists def, In def requested /\ PyStr.first_word def = Some col.1
                /\ col.2 = col_decl def.

(** From [s] to [s']: every table of [s] is still there with the same
    rows and the same columns in the same places, followed, for table [t]
    only, by new columns taken from [requested]. *)
Definition grows (t : string) (requested : list string) (s s' : store) : Prop :=
  forall name tb,
    s !! name = Some tb ->
    exists added,
      s' !! name = Some (Table (t_columns tb ++ added) (t_rows tb))
      /\ (name <> t -> added = [])
      /\ Forall (new_column requested tb) added.

(** From [s] to [s']: every table keeps its rows, and a table that was
    not there has none. *)
Definition rows_kept (s s' : store) : Prop :=
  (forall name tb, s !! name = Some tb ->
                   exists tb', s' !! name = Some tb' /\ t_rows tb' = t_rows tb)
  /\ (forall name tb', s' !! name = Some tb' -> s !! name = None -> t_rows tb' = []).

Definition manager_rows_kept (self self' : DatabaseManager.state) : Prop :=
  forall c, DatabaseManager.conn self = DatabaseManager.Open c ->
  exists c', DatabaseManager.conn self' = DatabaseManager.Open c'
             /\ rows_kept (pending c) (pending c').

(** The same, between the stores two states of a manager see. *)
Definition manager_grows (t : string) (requested : list string)
    (self self' : DatabaseManager.state) : Prop :=
  forall c, DatabaseManager.conn self = DatabaseManager.Open c ->
  exists c', DatabaseManager.conn self' = DatabaseManager.Open c'
             /\ grows t requested (pending c) (pending c').

(** Nothing is left to add for definition [def]: the engine refuses it, or
    the table already has a column of that name. *)
Definition settled `{SqlEngine} (tb : table) (def : string) : Prop :=
sql_rejects def = true
\/ exists n, PyStr.first_word def = Some n /\ has_column tb n = true.

(** The connection after one turn of the "add missing columns" loop. *)
Definition reconcile_step `{SqlEngine} (t : string) (cur : list string) (c : connection)
    (def : string) : connection :=
match PyStr.first_word def with
| Some n =>
    if existsb (String.eqb n) cur then c
    else snd (execute (AlterTableAddColumn t def) c)
| None => c
end.

(** The connection after the whole loop. *)
Definition reconcile_loop `{SqlEngine} (t : string) (cur : list string) (defs : list string)
    (c : connection) : connection :=
fold_left (reconcile_step t cur) defs c.

(** The successful ALTER statements of a journal. *)
Definition alters_done (j : list (stmt * bool)) : list (stmt * bool) :=
  List.filter (fun e => match e with
                        | (AlterTableAddColumn _ _, true) => true
                        | _ => false
                        end) j.

(** The PRAGMA table_info queries of a journal. *)
Definition pragmas (j : list (stmt * bool)) : list (stmt * bool) :=
  List.filter (fun e => match e with
                        | (PragmaTableInfo _, _) => true
                        | _ => false
                        end) j.

End Schema.

(** ** The life of a [DatabaseManager] *)

Module Lifetime.

Import Sqlite DatabaseManager.

(** The functions and methods the module defines. *)
Inductive routine : Type :=
| r_setup_logging
| r_get_column_type
| r_dm_init
| r_dm_column_exists
| r_dm_setup_database
| r_dm_create_base_tables
| r_dm_load_existing_schemas
| r_dm_ensure_table_for_dataframe
| r_dm_optimize_database
| r_dm_cleanup_old_records
| r_dm_process_screaming_frog_csv
| r_dm_determine_table_name
| r_dm_close
| r_sf_init
| r_sf_verify_screaming_frog_installation
| r_sf_get_column_names
| r_sf_setup_database
| r_sf_build_crawl_command
| r_sf_process_crawl_results
| r_sf_run_crawl
| r_sf_update_crawl_failure
| r_main.

(** The routines of the module each body calls.  ([setup_database] of
    [DatabaseManager] names [column_exists] as a free name, not as an
    attribute of [self]; [main] also names [run_scheduled_crawls], which
    the module does not define.) *)
Definition calls (r : routine) : list routine :=
match r with
| r_dm_init => [r_dm_setup_database]
| r_dm_ensure_table_for_dataframe => [r_get_column_type]
| r_dm_process_screaming_frog_csv =>
    [r_dm_determine_table_name; r_dm_ensure_table_for_dataframe]
| r_sf_init => [r_sf_verify_screaming_frog_installation; r_sf_setup_database]
| r_sf_build_crawl_command => [r_sf_get_column_names]
| r_sf_run_crawl =>
    [r_sf_build_crawl_command; r_sf_process_crawl_results; r_sf_update_crawl_failure]
| r_main => [r_setup_logging; r_sf_init; r_sf_run_crawl]
| _ => []
end.

(** A call a client of the object can make, with its arguments and what
    the environment answers. *)
Inductive call : Type :=
| call_setup_database (opened : outcome connection)
| call_create_base_tables
| call_ensure_table_for_dataframe (table_name : string) (df : DataFrame)
| call_optimize_database (now : Z)
| call_cleanup_old_records (days_to_keep now : Z)
| call_process_screaming_frog_csv (csv_file : string) (read : outcome DataFrame)
    (crawl_id now : Z)
| call_determine_table_name (csv_file : string) (df : DataFrame)
| call_close.

(** The object after a call, whether the call returned or raised. *)
Definition after `{SqlEngine} (k : call) (self : state) : state :=
  match k with
  | call_setup_database opened => snd (setup_database opened self)
  | call_create_base_tables => snd (_create_base_tables self)
  | call_ensure_table_for_dataframe t df => snd (ensure_table_for_dataframe t df self)
  | call_optimize_database now => snd (optimize_database now self)
  | call_cleanup_old_records d now => snd (cleanup_old_records d now self)
  | call_process_screaming_frog_csv f read id now =>
      snd (process_screaming_frog_csv f read id now self)
  | call_determine_table_name _ _ => self
  | call_close => snd (close self)
  end.

Definition lifetime `{SqlEngine} (calls : list call) (self : state) : state :=
  fold_left (fun s k => after k s) calls self.

(** The schema cache is the same after as before. *)
Definition same_schemas (self self' : state) : Prop :=
  table_schemas self' = table_schemas self.

(** [ensure_table_for_dataframe] with the existing-table branch removed. *)
Definition create_only `{SqlEngine} (table_name : string) (df : DataFrame) : M state unit :=
  (cursor (execute (CreateTable false table_name
                      ("id INTEGER PRIMARY KEY" :: column_definitions df))) ;;;
   cursor commit)%py.

(** [cleanup_old_records] with the DELETE loop removed. *)
Definition cleanup_without_delete `{SqlEngine} (days_to_keep now : Z) : M state unit :=
  try_bind
    (log_start "cleanup"
       ("Removing records older than " +:+ pretty days_to_keep +:+ " days") now)
    (fun log_id =>
       try_except (log_completed now log_id) (fun _ => true)
                  (maintenance_failed "Cleanup failed: " now (Some log_id)))
    (maintenance_failed "Cleanup failed: " now None).

End Lifetime.

(** ** The crawl ledger of [class ScreamingFrogWrapper] *)

Module ScreamingFrogWrapper.

Import Sqlite.

Definition crawl_metadata_columns : list string :=
  (DatabaseManager.crawl_metadata_columns ++ ["command_executed TEXT"])%list.

(** The FOREIGN KEY clause declares no column. *)
Definition crawl_results_columns : list string :=
  ["id INTEGER PRIMARY KEY"; "crawl_id INTEGER"; "url TEXT"; "status_code INTEGER";
   "title TEXT"; "meta_description TEXT"; "h1 TEXT"; "content_type TEXT";
   "word_count INTEGER"; "crawl_depth INTEGER"; "load_time REAL"].

(** [setup_database], on the connection [sqlite3.connect] gave. *)
Definition setup_database `{SqlEngine} : M connection unit :=
  (execute (CreateTable true "crawl_metadata" crawl_metadata_columns) ;;;
   execute (CreateTable true "crawl_results" crawl_results_columns) ;;;
   commit)%py.

(** [run_crawl], "Record crawl start in database": the INSERT of the
    started record, the commit, and the id read back. *)
Definition record_crawl_start `{SqlEngine} (url : string) (config_file : option string)
    (cmd_str : string) (now : Z) : M connection Z :=
  (execute (InsertInto "crawl_metadata"
              [("url", PyStr url); ("crawl_date", PyDatetime now);
               ("config_used", PyStr (default "default" config_file));
               ("crawl_status", PyStr "started"); ("command_executed", PyStr cmd_str)]) ;;;
   commit ;;;
   gets lastrowid)%py.

(** [run_crawl], "Update crawl status": the UPDATE to completed and the
    commit. *)
Definition record_crawl_completed `{SqlEngine} (crawl_id : Z) (completion_time : Z)
  : M connection unit :=
  (execute (UpdateWhereId "crawl_metadata"
              [("crawl_status", PyStr "completed");
               ("completion_time", PyInt completion_time)] crawl_id) ;;;
   commit)%py.

(** [_update_crawl_failure]; [crawl_id] is [None] until the start has been
    recorded, [completion_time] is [int(time.time() - start_time)]. *)
Definition _update_crawl_failure `{SqlEngine} (crawl_id : option Z) (error_msg : string)
    (completion_time : Z) : M connection unit :=
  match crawl_id with
  | None => ret tt
  | Some id =>
      if id =? 0 then ret tt
      else try_except
             (execute (UpdateWhereId "crawl_metadata"
                         [("crawl_status", PyStr "failed");
                          ("completion_time", PyInt completion_time);
                          ("error_message", PyStr error_msg)] id) ;;;
              commit)%py
             is_sqlite_error
             (fun _ => ret tt)
  end.

(** The rows of [crawl_metadata] with a given id. *)
Definition crawl_records (c : connection) (crawl_id : Z) : list row :=
  match pending c !! "crawl_metadata" with
  | Some tb => List.filter (fun r => row_id r =? crawl_id) (t_rows tb)
  | None => []
  end.

(** What a close does to one row: the fields are written when the id is
    the one named, whatever the row held. *)
Definition close_row (fields : list (string * pyval)) (crawl_id : Z) (r : row) : row :=
  if row_id r =? crawl_id then set_fields fields r else r.

(** The three crawl columns a close writes, with [id]. *)
Definition has_close_columns (tb : table) : bool :=
  forallb (has_column tb) ["id"; "crawl_status"; "completion_time"; "error_message"].

(** A ledger with one crawl, started and then completed after 5 seconds. *)
Definition closed_ledger : connection :=
  let E := plain_engine in
  let c0 := snd (setup_database (fresh_connection ∅)) in
  let c1 := snd (record_crawl_start "http://a.example" None "cli" 1000 c0) in
  snd (record_crawl_completed 1 5 c1).

(** A [crawl_metadata] table holding one record, completed in 5 seconds. *)
Definition one_completed_record : table :=
Table [("id", "INTEGER PRIMARY KEY"); ("url", "TEXT NOT NULL"); ("crawl_date", "TIMESTAMP");
       ("config_used", "TEXT"); ("crawl_status", "TEXT"); ("total_urls", "INTEGER");
       ("completion_time", "INTEGER"); ("error_message", "TEXT");
       ("command_executed", "TEXT")]
      [<["id" := PyInt 1]>
         (<["url" := PyStr "http://a.example"]>
            (<["crawl_status" := PyStr "completed"]>
               (<["completion_time" := PyInt 5]> ∅)))].

(** [crawl_status] is completed or failed. *)
Definition terminal (r : row) : bool :=
  match r !! "crawl_status" with
  | Some (PyStr st) => String.eqb st "completed" || String.eqb st "failed"
  | _ => false
  end.

End ScreamingFrogWrapper.

(** ** Observations and a concrete store *)

Module Observe.

Import Sqlite DatabaseManager.

(** A row as the list of its cells. *)
Definition cells_of (r : row) : list (string * pyval) := map_to_list r.

(** The rows of table [t] as the manager's statements see them, each as the
    list of its cells. *)
Definition live_rows (self : state) (t : string) : list (list (string * pyval)) :=
match conn self with
| Open c => match pending c !! t with Some tb => cells_of <$> t_rows tb | None => [] end
| _ => []
end.

(** The rows of table [t] as committed. *)
Definition stored_rows (self : state) (t : string) : list (list (string * pyval)) :=
match conn self with
| Open c => match committed c !! t with Some tb => cells_of <$> t_rows tb | None => [] end
| _ => []
end.

(** One column of table [t], live and committed. *)
Definition live_column (self : state) (t k : string) : list (option pyval) :=
match conn self with
| Open c => match pending c !! t with
            | Some tb => (fun r : row => r !! k) <$> t_rows tb
            | None => []
            end
| _ => []
end.

Definition stored_column (self : state) (t k : string) : list (option pyval) :=
match conn self with
| Open c => match committed c !! t with
            | Some tb => (fun r : row => r !! k) <$> t_rows tb
            | None => []
            end
| _ => []
end.

(** Which live rows of [t] are older than [cutoff]. *)
Definition live_older_than (cutoff : Z) (self : state) (t : string) : list bool :=
match conn self with
| Open c => match pending c !! t with
            | Some tb => older_than cutoff <$> t_rows tb
            | None => []
            end
| _ => []
end.

(** The column names of table [t], [None] when there is no such table. *)
Definition live_columns (self : state) (t : string) : option (list string) :=
  match conn self with
  | Open c => column_names <$> pending c !! t
  | _ => None
  end.

(** The statements executed since the journal had [n] entries. *)
Definition journal_since (n : nat) (self : state) : list (stmt * bool) :=
  match conn self with
  | Open c => drop n (journal c)
  | _ => []
  end.

Definition journal_length (self : state) : nat :=
  match conn self with
  | Open c => length (journal c)
  | _ => O
  end.

Definition field (k : string) (r : row) : option pyval := r !! k.

End Observe.

Module Scenario.

Import Sqlite DatabaseManager.

Definition today : Z := days 1000.

(** Three crawls, started 400, 40 and 10 days ago, each with one result
    row that refers to it. *)
Definition ledger : connection :=
  let E := plain_engine in
  let c0 := snd (ScreamingFrogWrapper.setup_database (fresh_connection ∅)) in
  let c1 := snd (ScreamingFrogWrapper.record_crawl_start
                   "http://a.example" None "cli --crawl http://a.example"
                   (today - days 400) c0) in
  let c2 := snd (ScreamingFrogWrapper.record_crawl_start
                   "http://b.example" None "cli --crawl http://b.example"
                   (today - days 40) c1) in
  let c3 := snd (ScreamingFrogWrapper.record_crawl_start
                   "http://c.example" None "cli --crawl http://c.example"
                   (today - days 10) c2) in
  snd (Pandas.to_sql "crawl_results"
         (Frame ["crawl_id"; "url"]
                [[PyInt 1; PyStr "http://a.example/1"];
                 [PyInt 2; PyStr "http://b.example/1"];
                 [PyInt 3; PyStr "http://c.example/1"]]) c3).

(** A manager on that store, with the maintenance tables in place and the
    schema cache as the constructor leaves it. *)
Definition manager : state :=
  snd (@_create_base_tables plain_engine
         (State "screaming_frog_results.db" (Open ledger) ∅)).

(** The same manager after a direct call of [_load_existing_schemas]. *)
Definition manager_with_cache : state :=
  snd (@_load_existing_schemas plain_engine manager).

(** A manager on an empty database file. *)
Definition fresh_manager : state :=
  State "screaming_frog_results.db" (Open (fresh_connection ∅)) ∅.

Definition pages : DataFrame :=
  Frame ["URL"; "Status Code"; "Response Time ms"]
        [[PyStr "http://x"; PyInt 200; PyInt 123]].

(** A header and no data row. *)
Definition empty_batch : DataFrame := Frame ["URL"; "Status Code"] [].

(** A manager whose database holds a bare [sf_internal_all] table and
    whose cache was loaded by a direct call of [_load_existing_schemas]. *)
Definition registered_manager : state :=
  let E := plain_engine in
  snd (_load_existing_schemas
         (snd (cursor (execute (CreateTable false "sf_internal_all"
                                  ["id INTEGER PRIMARY KEY"]))
                      fresh_manager))).

End Scenario.

(** ** [class ScreamingFrogWrapper]: building and running a crawl *)

Module CrawlRun.

Import Sqlite.

(** What a crawl can raise besides the exceptions of the database layer. *)
Inductive crawl_exn : Type :=
| EnvironmentError (msg : string)
| FileNotFoundError (msg : string)
| CalledProcessError (returncode : Z) (stdout stderr : string)
| PlainException (msg : string)
| Inner (e : exn).

(** [str(e)] *)
Definition crawl_exn_str (e : crawl_exn) : string :=
  match e with
  | EnvironmentError msg | FileNotFoundError msg | PlainException msg => msg
  | CalledProcessError code _ _ =>
      "Command returned non-zero exit status " +:+ pretty code +:+ "."
  | Inner e => exn_str e
  end.

Inductive result (A : Type) : Type :=
| Done (a : A)
| Failed (e : crawl_exn).
Arguments Done {A} a.
Arguments Failed {A} e.

(** What the world outside the program answers during one crawl. *)
Record crawl_env : Type := CrawlEnv {
  mkdir_raises : option crawl_exn;
                                  (* output_dir.mkdir(parents=True, exist_ok=True) *)
  which_cli : option string;      (* shutil.which("ScreamingFrogSEOSpiderCli.exe") *)
  config_exists : bool;           (* Path(config_file).exists() *)
  reopened : bool;                (* whether get_column_names can open the database *)
  started_at : Z;                 (* datetime.now() when the start is recorded *)
  process_raises : option crawl_exn;
                                  (* subprocess.run: None when the exit status is 0 *)
  found_files : list (string * outcome DataFrame);
                                  (* the glob, each path with what read_csv gives *)
  completed_after : Z;            (* int(time.time() - start_time) on completion *)
  failed_after : Z;               (* the same in _update_crawl_failure *)
  traceback_text : string         (* traceback.format_exc() *)
}.

Definition newline : string := String "010" EmptyString.

(** [if s:] on an optional string *)
Definition truthy (s : option string) : option string :=
  match s with
  | Some EmptyString | None => None
  | Some s' => Some s'
  end.

Fixpoint leading_slashes (s : string) : nat :=
  match s with
  | String c s' => if Ascii.eqb c "/" then S (leading_slashes s') else O
  | EmptyString => O
  end.

(** [str(Path(p))]: the parts joined by one slash after the root; exactly
    two leading slashes are kept, any other number is one. *)
Definition path_str (p : string) : string :=
  let root := match leading_slashes p with
              | O => EmptyString
              | 2%nat => "//"
              | _ => "/"
              end in
  match root, PyPath.parts p with
  | EmptyString, [] => "."
  | _, ps => root +:+ PyStr.join "/" ps
  end.

(** [str(self.output_dir)] *)
Definition output_dir : string := "output".

(** [_verify_screaming_frog_installation] *)
Definition _verify_screaming_frog_installation (env : crawl_env) : result unit :=
  match truthy (which_cli env) with
  | None => Failed (EnvironmentError "Screaming Frog CLI not found in PATH")
  | Some _ => Done tt
  end.

(** [__init__]: the output directory, the check of the installation, then
    [setup_database] on what [sqlite3.connect] gives. *)
Definition __init__ `{SqlEngine} (env : crawl_env) (opened : outcome connection)
  : result connection :=
  match mkdir_raises env with
  | Some e => Failed e
  | None =>
      match _verify_screaming_frog_installation env with
      | Failed e => Failed e
      | Done _ =>
          match opened with
          | Raised e => Failed (Inner e)
          | Returned c =>
              match ScreamingFrogWrapper.setup_database c with
              | (Returned _, c') => Done c'
              | (Raised e, _) => Failed (Inner e)
              end
          end
      end
  end.

(** [get_column_names]: the columns of [crawl_results] as a second
    connection to the same file sees them, [[]] on any sqlite3 error. *)
Definition get_column_names (env : crawl_env) (c : connection) : list string :=
  if reopened env
  then match committed c !! "crawl_results" with
       | Some tb => column_names tb
       | None => []
       end
  else [].

Definition default_export_tabs : string := "Internal:All,External:All,Response Codes:All".

Definition export_tabs (columns : list string) : string :=
  match columns with
  | [] => default_export_tabs
  | _ => PyStr.join "," ((fun col => col +:+ ":All") <$> columns)
  end.

Definition default_command (cli url tabs : string) : list string :=
  [cli; "--crawl"; url; "--headless"; "--save-crawl"; "--create-sitemap";
   "--create-images-sitemap"; "--use-pagespeed"; "--timestamped-output";
   "--output-folder"; output_dir; "--export-tabs"; tabs;
   "--bulk-export"; "All Inlinks,All Outlinks,Response Codes:All"].

Definition config_command (cli config url : string) : list string :=
  [cli; "--config"; path_str config; "--crawl"; url; "--output-folder"; output_dir].

Definition build_crawl_command (env : crawl_env) (url : string) (config_file : option string)
    (c : connection) : result (list string) :=
  match truthy (which_cli env) with
  | None =>
      Failed (FileNotFoundError
                "Screaming Frog CLI not found. Ensure it's installed and in your PATH.")
  | Some sf_cli_path =>
      let columns := get_column_names env c in
      match truthy config_file with
      | Some config =>
          if config_exists env then Done (config_command sf_cli_path config url)
          else Done (default_command sf_cli_path url (export_tabs columns))
      | None => Done (default_command sf_cli_path url (export_tabs columns))
      end
  end.

(** An entry of [output_files]: a [str] or a [Path]. *)
Inductive pyfile : Type :=
| FileStr (s : string)
| FilePath (s : string).

(** One turn of the loop of [process_crawl_results].  The Excel export that
    follows [to_sql] inside the [try] touches no state and whatever it
    raises is caught with the rest. *)
Definition process_one_file `{SqlEngine} (file : pyfile) (read : outcome DataFrame)
  : M connection unit :=
  match file with
  | FilePath _ => raise (AttributeError "Path object has no attribute 'endswith'")
  | FileStr s =>
      if PyStr.endswith s ".csv"
      then try_except
             (match read with
              | Raised e => raise e
              | Returned df => Pandas.to_sql "crawl_results" df
              end)
             (fun _ => true)
             (fun _ => ret tt)
      else ret tt
  end.

Definition process_crawl_results `{SqlEngine} (crawl_id : Z)
    (output_files : list (pyfile * outcome DataFrame)) : M connection unit :=
  for_each output_files (fun '(file, read) => process_one_file file read).

(** The message the two [except] clauses of [run_crawl] build. *)
Definition failure_message (env : crawl_env) (e : crawl_exn) : string :=
  match e with
  | CalledProcessError code out err =>
      "Screaming Frog process failed with return code " +:+ pretty code +:+ newline
        +:+ "Stdout: " +:+ out +:+ newline +:+ "Stderr: " +:+ err
  | _ => "Error during crawl: " +:+ crawl_exn_str e +:+ newline +:+ traceback_text env
  end.

(** The two [except] clauses of [run_crawl]: the failure is recorded, then
    the exception is raised again; what [_update_crawl_failure] does not
    catch replaces it. *)
Definition crawl_failed `{SqlEngine} (env : crawl_env) (crawl_id : option Z)
    (e : crawl_exn) (c : connection) : result unit * connection :=
  match ScreamingFrogWrapper._update_crawl_failure crawl_id (failure_message env e)
          (failed_after env) c with
  | (Returned _, c') => (Failed e, c')
  | (Raised e', c') => (Failed (Inner e'), c')
  end.

(** [run_crawl]; the files of the glob are [Path] objects. *)
Definition run_crawl `{SqlEngine} (env : crawl_env) (url : string)
    (config_file : option string) (c : connection) : result unit * connection :=
  match build_crawl_command env url config_file c with
  | Failed e => crawl_failed env None e c
  | Done cmd =>
      let cmd_str := PyStr.join " " cmd in
      match ScreamingFrogWrapper.record_crawl_start url (truthy config_file) cmd_str
              (started_at env) c with
      | (Raised e, c1) => crawl_failed env None (Inner e) c1
      | (Returned crawl_id, c1) =>
          match process_raises env with
          | Some e => crawl_failed env (Some crawl_id) e c1
          | None =>
              match found_files env with
              | [] =>
                  crawl_failed env (Some crawl_id)
                    (PlainException "No output files found after crawl") c1
              | files =>
                  match process_crawl_results crawl_id
                          ((fun '(p, read) => (FilePath p, read)) <$> files) c1 with
                  | (Raised e, c2) => crawl_failed env (Some crawl_id) (Inner e) c2
                  | (Returned _, c2) =>
                      match ScreamingFrogWrapper.record_crawl_completed crawl_id
                              (completed_after env) c2 with
                      | (Returned _, c3) => (Done tt, c3)
                      | (Raised e, c3) => crawl_failed env (Some crawl_id) (Inner e) c3
                      end
                  end
              end
          end
      end
  end.

(** The command line of [main]. *)
Record args : Type := Args {
  arg_url : option string;
  arg_config : option string;
  arg_schedule : option string;
  arg_run_now : bool
}.

(** How [main] ends: it reaches its last line, or [sys.exit(1)]. *)
Inductive exit : Type :=
| Completed
| SysExit (code : Z).

(** [s.split(',')[0]] *)
Fixpoint first_field (s : string) : string :=
  match s with
  | String c s' => if Ascii.eqb c "," then EmptyString else String c (first_field s')
  | EmptyString => EmptyString
  end.

Definition is_empty (s : string) : bool :=
  match s with EmptyString => true | _ => false end.

(** A line of the schedule file that names a URL to crawl: not blank and
    no comment. *)
Definition crawlable (line : string) : bool :=
  negb (is_empty (PyStr.strip line)) && negb (PyStr.startswith line "#").

(** The loop of [main] over the lines of the schedule file; [env_at i] is
    the world of the crawl number [i]. *)
Fixpoint crawl_schedule `{SqlEngine} (env_at : nat -> crawl_env) (i : nat)
    (config_file : option string) (lines : list string) (c : connection)
  : result unit * connection :=
  match lines with
  | [] => (Done tt, c)
  | line :: rest =>
      if crawlable line
      then
        let url := PyStr.strip (first_field (PyStr.strip line)) in
        match run_crawl (env_at i) url config_file c with
        | (Done _, c') => crawl_schedule env_at (S i) config_file rest c'
        | (Failed e, c') => (Failed e, c')
        end
      else crawl_schedule env_at i config_file rest c
  end.

(** The [try] block of [main], which follows the set-up of logging and the
    parsing of the command line; [ScreamingFrogWrapper] has no method
    [run_scheduled_crawls]. *)
Definition main_body `{SqlEngine} (init_env : crawl_env) (env_at : nat -> crawl_env)
    (a : args) (opened : outcome connection) (schedule_file : result (list string))
  : result unit * option connection :=
  match __init__ init_env opened with
  | Failed e => (Failed e, None)
  | Done c =>
      match truthy (arg_url a), truthy (arg_schedule a) with
      | Some url, _ =>
          let '(r, c') := run_crawl (env_at O) url (arg_config a) c in (r, Some c')
      | None, Some _ =>
          if arg_run_now a
          then match schedule_file with
               | Failed e => (Failed e, Some c)
               | Done lines =>
                   let '(r, c') := crawl_schedule env_at O (arg_config a) lines c in
                   (r, Some c')
               end
          else (Failed (Inner (AttributeError
                 "'ScreamingFrogWrapper' object has no attribute 'run_scheduled_crawls'")),
                Some c)
      | None, None => (Done tt, Some c)
      end
  end.

(** [main]: any exception of the block ends the program with status 1. *)
Definition main `{SqlEngine} (init_env : crawl_env) (env_at : nat -> crawl_env)
    (a : args) (opened : outcome connection) (schedule_file : result (list string))
  : exit * option connection :=
  match main_body init_env env_at a opened schedule_file with
  | (Done _, c) => (Completed, c)
  | (Failed _, c) => (SysExit 1, c)
  end.

(** The columns the INSERT of the started record names, and those with
    the ones a failure writes. *)
Definition has_start_columns (tb : table) : bool :=
  forallb (has_column tb)
    ["url"; "crawl_date"; "config_used"; "crawl_status"; "command_executed"].

Definition ledger_ready (tb : table) : bool :=
  has_start_columns tb && ScreamingFrogWrapper.has_close_columns tb.

(** The row the INSERT of the started record stores under rowid [id]. *)
Definition started_row (url : string) (config_file : option string) (cmd_str : string)
    (now id : Z) : row :=
  <["id" := PyInt id]>
    (set_fields [("url", PyStr url); ("crawl_date", PyDatetime now);
                 ("config_used", PyStr (default "default" config_file));
                 ("crawl_status", PyStr "started"); ("command_executed", PyStr cmd_str)] ∅).

(** A world in which the crawler is installed, exits with status 0 and
    leaves one CSV file. *)
Definition good_crawl : crawl_env :=
  CrawlEnv None (Some "ScreamingFrogSEOSpiderCli.exe") false true 2000 None
           [("output/internal_all.csv", Returned (Frame ["Address"] [[PyStr "http://b.example/"]]))]
           7 8 "Traceback (most recent call last)".

(** The exception a crawl ends with once its start is recorded. *)
Definition crawl_error (env : crawl_env) : crawl_exn :=
  match process_raises env with
  | Some e => e
  | None =>
      match found_files env with
      | [] => PlainException "No output files found after crawl"
      | _ => Inner (AttributeError "Path object has no attribute 'endswith'")
      end
  end.

Definition is_str (entry : pyfile * outcome DataFrame) : bool :=
  match entry with
  | (FileStr _, _) => true
  | (FilePath _, _) => false
  end.

(** Every row of the frame has one cell per label. *)
Definition rectangular (df : DataFrame) : bool :=
  forallb (fun r => Nat.eqb (length r) (length (df_columns df))) (df_rows df).

(** The frame has a label that is no column of [tb]. *)
Definition foreign (tb : table) (df : DataFrame) : bool :=
  existsb (fun col => negb (has_column tb col)) (df_columns df).

(** An entry [process_crawl_results] cannot store in [tb]: a [str] whose
    frame, when the file can be read, has a label the table lacks. *)
Definition unstorable (tb : table) (entry : pyfile * outcome DataFrame) : bool :=
  match entry with
  | (FileStr _, Returned df) => rectangular df && foreign tb df
  | (FileStr _, Raised _) => true
  | (FilePath _, _) => false
  end.

(** A [crawl_results] table with two of its columns and no row, and an
    export of the crawler as [run_crawl] would hand it over were its files
    strings. *)
Definition small_results : table := Table [("id", "INTEGER PRIMARY KEY"); ("url", "TEXT")] [].

Definition one_export : list (pyfile * outcome DataFrame) :=
  [(FileStr "output/internal_all.csv",
    Returned (Frame ["Address"; "Status Code"] [[PyStr "http://b.example/"; PyInt 200]]))].

(** Three command lines: one URL to crawl, nothing to do, and a schedule
    to run at once; and a schedule file without a URL. *)
Definition crawl_one : args := Args (Some "http://b.example") None None false.
Definition no_action : args := Args None None None false.
Definition run_schedule : args := Args None None (Some "schedule.txt") true.

Definition newline_only : string := String "010" EmptyString.
Definition idle_schedule : list string := ["# nightly" +:+ newline_only; newline_only].

(** The ledger table as the constructor of [DatabaseManager] leaves it on
    a new database: created, and never given [command_executed]. *)
Definition manager_ledger : table :=
  Table [("id", "INTEGER PRIMARY KEY"); ("url", "TEXT NOT NULL"); ("crawl_date", "TIMESTAMP");
         ("config_used", "TEXT"); ("crawl_status", "TEXT"); ("total_urls", "INTEGER");
         ("completion_time", "INTEGER"); ("error_message", "TEXT")] [].

(** The ledger table as [setup_database] creates it. *)
Definition fresh_ledger : table :=
  Table (t_columns ScreamingFrogWrapper.one_completed_record) [].

(** The tables [setup_database] makes sure of. *)
Definition ledger_tables : list string := ["crawl_metadata"; "crawl_results"].

(** [a] directly followed by [b] in [l] *)
Definition adjacent (a b : string) (l : list string) : Prop :=
  exists l1 l2, l = (l1 ++ a :: b :: l2)%list.

End CrawlRun.

(** ** Tables the program creates when they are missing *)

Module BaseTables.

(** The tables [DatabaseManager._create_base_tables] makes sure of. *)
Definition base_tables : list string := ["schema_version"; "table_schemas"; "maintenance_log"].

(** The engine refuses no column definition. *)
Definition lenient `{SqlEngine} : Prop := forall def, sql_rejects def = false.

(** From [s] to [s']: every table of [s] is there unchanged, the tables
    named in [made] exist, and no other table appeared. *)
Definition made_sure (made : list string) (s s' : store) : Prop :=
  (forall t tb, s !! t = Some tb -> s' !! t = Some tb)
  /\ Forall (fun t => is_Some (s' !! t)) made
  /\ (forall t, ~ In t made -> s' !! t = s !! t).

End BaseTables.

(** ** The table [ensure_table_for_dataframe] creates *)

Module CreatePath.

Import Sqlite DatabaseManager.

(** A character that is no white space once blanks are replaced. *)
Definition plain_char (c : ascii) : bool := negb (PyStr.is_space c) || Ascii.eqb c " ".

(** A label that yields one word: not empty, and no white space other
    than blanks. *)
Definition plain_label (col : string) : bool :=
  negb (CrawlRun.is_empty col) && PyStr.all_chars plain_char col.

(** No string occurs twice. *)
Fixpoint distinct (l : list string) : bool :=
  match l with
  | [] => true
  | x :: l' => negb (existsb (String.eqb x) l') && distinct l'
  end.

(** The columns of the table created for a frame: name and declaration,
    in order. *)
Definition created_columns (df : DataFrame) : list (string * string) :=
  (("id", "INTEGER PRIMARY KEY")
   :: ((fun col => (clean col, get_column_type col (Pandas.sample df col))) <$> df_columns df)
   ++ [("crawl_id", "INTEGER"); ("processed_at", "TIMESTAMP DEFAULT CURRENT_TIMESTAMP");
       ("source_file", "TEXT")])%list.

End CreatePath.

(** ** A manager whose cache knows a table *)

Module Registered.

Import Sqlite DatabaseManager.

(** The entries [_load_existing_schemas] reads from a store. *)
Definition master_rows (s : store) : list (string * string) :=
  (fun '(t, tb) => (t, table_sql t tb)) <$> map_to_list s.

(** What one turn of the loop of [_load_existing_schemas] does to the
    cache. *)
Definition register (m : gmap string string) (entry : string * string)
  : gmap string string := <[entry.1 := entry.2]> m.

(** A database with a bare [sf_pages] table, and a cache that knows it. *)
Definition bare_pages : table := Table [("id", "INTEGER PRIMARY KEY")] [].

Definition pages_connection : connection :=
  fresh_connection (<["sf_pages" := bare_pages]> ∅).

Definition pages_cache : gmap string string :=
  <["sf_pages" := "CREATE TABLE sf_pages (id INTEGER PRIMARY KEY)"]> ∅.

(** The rows of a table once the rows of a frame are inserted after
    them, one INSERT each, every new row under the next free id. *)
Fixpoint append_rows (labels : list string) (rows : list row) (cells : list (list pyval))
  : list row :=
  match cells with
  | [] => rows
  | r :: rest =>
      append_rows labels
        (rows ++ [<["id" := PyInt (next_rowid rows)]> (set_fields (zip labels r) ∅)])
        rest
  end.

(** A frame a manager with a loaded cache can store: every label is one
    word, none is [id], and every row has one cell per label. *)
Definition storable (df : DataFrame) : bool :=
  forallb CreatePath.plain_label (df_columns df)
  && negb (existsb (String.eqb "id") (df_columns df))
  && CrawlRun.rectangular df.

(** An export with two pages. *)
Definition two_pages : DataFrame :=
  Frame ["URL"; "Status Code"]
        [[PyStr "http://x/"; PyInt 200]; [PyStr "http://x/a"; PyInt 404]].

End Registered.

(** ** What the maintenance methods send *)

Module Maintenance.

Import Sqlite DatabaseManager.

(** The INSERT that logs the start of an operation. *)
Definition log_insert (operation details : string) (now : Z) : stmt :=
  InsertInto "maintenance_log"
    [("operation", PyStr operation); ("details", PyStr details);
     ("started_at", PyTimestamp now); ("status", PyStr "in_progress")].

(** The UPDATE of the handler. *)
Definition log_failed (error_msg : string) (now id : Z) : stmt :=
  UpdateWhereId "maintenance_log"
    [("status", PyStr "failed"); ("error_message", PyStr error_msg);
     ("completed_at", PyTimestamp now)] id.

Definition vacuum_refused : string :=
  "Database optimization failed: cannot VACUUM from within a transaction".

(** The statements one call of [optimize_database] can add to the
    journal. *)
Definition optimize_trace (now : Z) (j : list (stmt * bool)) : Prop :=
  let ins := log_insert "optimize" "Regular database optimization" now in
  j = [(Begin, false)]
  \/ j = [(Begin, true); (ins, false)]
  \/ j = [(Begin, true); (ins, true); (Vacuum, false)]
  \/ exists id ok,
       j = [(Begin, true); (ins, true); (Vacuum, false);
            (log_failed vacuum_refused now id, ok)].

(** The rows a DELETE with [cutoff] leaves. *)
Definition kept (cutoff : Z) (rows : list row) : list row :=
  List.filter (fun r => negb (older_than cutoff r)) rows.

(** Table [t] went from [o] to [o']: it is as it was or, for the tables
    [cleanup_old_records] names, it lost the rows older than [cutoff] and
    nothing else. *)
Definition trimmed (cutoff : Z) (t : string) (o o' : option table) : Prop :=
  o' = o
  \/ (In t tables_to_clean
      /\ exists tb, o = Some tb /\ o' = Some (Table (t_columns tb) (kept cutoff (t_rows tb)))).

(** From [c] to [c']: outside the log table, each store of [c'] holds for
    every table what a store of [c] held, trimmed at most. *)
Definition cleaned (cutoff : Z) (c c' : connection) : Prop :=
  forall t, t <> "maintenance_log" ->
    (trimmed cutoff t (committed c !! t) (committed c' !! t)
     \/ trimmed cutoff t (pending c !! t) (committed c' !! t))
    /\ (trimmed cutoff t (committed c !! t) (pending c' !! t)
        \/ trimmed cutoff t (pending c !! t) (pending c' !! t)).

Definition manager_cleaned (cutoff : Z) (self self' : state) : Prop :=
  forall c, conn self = Open c -> exists c', conn self' = Open c' /\ cleaned cutoff c c'.

(** The statements of [cleanup_old_records]. *)
Definition cleanup_statement (cutoff : Z) (q : stmt) : Prop :=
  match q with
  | Begin => True
  | InsertInto t _ | UpdateWhereId t _ _ => t = "maintenance_log"
  | DeleteWhereCrawlDateBefore t cutoff' => In t tables_to_clean /\ cutoff' = cutoff
  | _ => False
  end.

(** The columns of [maintenance_log] the two log statements name. *)
Definition has_log_columns (tb : table) : bool :=
  forallb (has_column tb)
    ["operation"; "details"; "started_at"; "status"; "id"; "completed_at"].

(** Table [t] can take the DELETE when the cache makes the loop send it:
    it exists and has a [crawl_date] column. *)
Definition deletable (sch : gmap string string) (s : store) (t : string) : Prop :=
  is_Some (sch !! t) -> exists tb, s !! t = Some tb /\ has_column tb "crawl_date" = true.

(** What the DELETE loop makes of table [t]: trimmed when the loop names
    it and the cache knows it, as it was otherwise. *)
Definition after_loop (sch : gmap string string) (cutoff : Z) (t : string)
    (o : option table) : option table :=
  match sch !! t with
  | Some _ =>
      if existsb (String.eqb t) tables_to_clean
      then (fun tb => Table (t_columns tb) (kept cutoff (t_rows tb))) <$> o
      else o
  | None => o
  end.

(** The log entry of a completed operation. *)
Definition completed_entry (operation details : string) (now id : Z) : row :=
  set_fields [("status", PyStr "completed"); ("completed_at", PyTimestamp now)]
    (<["id" := PyInt id]>
       (set_fields [("operation", PyStr operation); ("details", PyStr details);
                    ("started_at", PyTimestamp now); ("status", PyStr "in_progress")] ∅)).

(** A maintenance log without entries, and a cache that knows the
    ledger. *)
Definition empty_log : table :=
  Table [("id", "INTEGER PRIMARY KEY"); ("operation", "TEXT"); ("details", "TEXT");
         ("started_at", "TIMESTAMP"); ("completed_at", "TIMESTAMP"); ("status", "TEXT");
         ("error_message", "TEXT")] [].

Definition ledger_cache : gmap string string :=
  <["crawl_metadata" := "CREATE TABLE crawl_metadata (id INTEGER PRIMARY KEY, crawl_date TIMESTAMP)"]> ∅.

(** A cache that knows [crawl_results]. *)
Definition results_cache : gmap string string :=
  <["crawl_results" := "CREATE TABLE crawl_results (id INTEGER PRIMARY KEY, url TEXT)"]> ∅.

(** A ledger with a crawl of day 100 and a crawl of day 990. *)
Definition two_crawls : table :=
  Table [("id", "INTEGER PRIMARY KEY"); ("crawl_date", "TIMESTAMP")]
        [<["id" := PyInt 1]> (<["crawl_date" := PyDatetime (days 100)]> ∅);
         <["id" := PyInt 2]> (<["crawl_date" := PyDatetime (days 990)]> ∅)].

End Maintenance.


(** * Properties *)

(** ** Strings *)

Section PyStrFacts.

Import PyStr.

Lemma append_cons (c : ascii) (a b : string) : String c a +:+ b = String c (a +:+ b).
Proof. reflexivity. Qed.

Lemma append_nil_r (a : string) : a +:+ "" = a.
Proof. induction a as [|c a IH]; [reflexivity|]. now rewrite append_cons, IH. Qed.

Lemma append_assoc (a b c : string) : (a +:+ b) +:+ c = a +:+ (b +:+ c).
Proof. induction a as [|x a IH]; [reflexivity|]. now rewrite !append_cons, IH. Qed.

Lemma lower_app (a b : string) : lower (a +:+ b) = lower a +:+ lower b.
Proof. induction a as [|c a IH]; simpl; [reflexivity | now rewrite IH]. Qed.

Lemma endswith_refl (s : string) : endswith s s = true.
Proof. destruct s; cbn [endswith]; now rewrite String.eqb_refl. Qed.

Lemma endswith_app (a b : string) : endswith (a +:+ b) b = true.
Proof.
  induction a as [|c a IH].
  - apply endswith_refl.
  - change (String c a +:+ b) with (String c (a +:+ b)). cbn [endswith].
    destruct (String.eqb (String c (a +:+ b)) b); [reflexivity | exact IH].
Qed.

Lemma endswith_split (s suf : string) :
  endswith s suf = true -> exists pre, s = pre +:+ suf.
Proof.
  induction s as [|c s IH]; cbn [endswith].
  - destruct (String.eqb "" suf) eqn:E; [|discriminate].
    apply String.eqb_eq in E. subst. now exists "".
  - destruct (String.eqb (String c s) suf) eqn:E.
    + apply String.eqb_eq in E. subst. now exists "".
    + intros H. destruct (IH H) as [pre ->]. now exists (String c pre).
Qed.

Lemma all_chars_app (P : ascii -> bool) (a b : string) :
  all_chars P (a +:+ b) = all_chars P a && all_chars P b.
Proof. induction a as [|c a IH]; simpl; [reflexivity|]. now rewrite IH, andb_assoc. Qed.

Lemma all_chars_weaken (P Q : ascii -> bool) (s : string) :
  (forall c, P c = true -> Q c = true) -> all_chars P s = true -> all_chars Q s = true.
Proof.
  intros HPQ. induction s as [|c s IH]; simpl; [reflexivity|].
  intros [Hc Hs]%andb_prop. now rewrite (HPQ _ Hc), IH.
Qed.

Lemma tidy_not_slash (c : ascii) : tidy c = true -> not_slash c = true.
Proof. unfold tidy, not_slash. intros H. now apply andb_prop in H as [_ ->]. Qed.

Lemma clean_char_tidy (c : ascii) :
  not_slash c = true ->
  tidy (if Ascii.eqb (if Ascii.eqb (lower_char c) " " then "_"%char else lower_char c) "-"
        then "_"%char
        else if Ascii.eqb (lower_char c) " " then "_"%char else lower_char c) = true.
Proof. destruct c as [[] [] [] [] [] [] [] []]; vm_compute; congruence. Qed.

Lemma clean_tidy (s : string) :
  all_chars not_slash s = true ->
  all_chars tidy (replace "-" "_" (replace " " "_" (lower s))) = true.
Proof.
  induction s as [|c s IH]; simpl; [reflexivity|].
  intros [Hc Hs]%andb_prop. rewrite (IH Hs), andb_true_r.
  now apply clean_char_tidy.
Qed.

Lemma tidy_char_fixed (c : ascii) :
  tidy c = true ->
  lower_char c = c /\ Ascii.eqb c " " = false /\ Ascii.eqb c "-" = false.
Proof. destruct c as [[] [] [] [] [] [] [] []]; vm_compute; intuition congruence. Qed.

Lemma tidy_lower (s : string) : all_chars tidy s = true -> lower s = s.
Proof.
  induction s as [|c s IH]; simpl; [reflexivity|].
  intros [Hc Hs]%andb_prop. destruct (tidy_char_fixed c Hc) as (-> & _).
  now rewrite IH.
Qed.

Lemma tidy_replace (a b : ascii) (s : string) :
  tidy a = false -> all_chars tidy s = true -> replace a b s = s.
Proof.
  intros Ha. induction s as [|c s IH]; simpl; [reflexivity|].
  intros [Hc Hs]%andb_prop. rewrite (IH Hs).
  destruct (Ascii.eqb_spec c a) as [->|]; [congruence | reflexivity].
Qed.

Lemma all_chars_substring (P : ascii -> bool) (n : nat) (s : string) :
  all_chars P s = true -> all_chars P (String.substring 0 n s) = true.
Proof.
  revert n. induction s as [|c s IH]; intros [|n]; simpl; try reflexivity.
  intros [Hc Hs]%andb_prop. now rewrite Hc, IH.
Qed.

End PyStrFacts.

Section PyPathFacts.

Import PyStr PyPath.

Lemma split_slash_flat (cur s : string) :
  all_chars not_slash s = true -> split_slash cur s = [cur +:+ s].
Proof.
  revert cur. induction s as [|c s IH]; intros cur; simpl.
  - intros _. now rewrite append_nil_r.
  - intros [Hc Hs]%andb_prop. unfold not_slash in Hc.
    apply negb_true_iff in Hc. rewrite Hc, (IH _ Hs).
    now rewrite append_assoc.
Qed.

(** Every component is free of slashes. *)
Lemma split_slash_components (cur s : string) :
  all_chars not_slash cur = true ->
  Forall (fun c => all_chars not_slash c = true) (split_slash cur s).
Proof.
  revert cur. induction s as [|c s IH]; intros cur Hcur; simpl.
  - now constructor.
  - destruct (Ascii.eqb c "/") eqn:Hc.
    + constructor; [exact Hcur | now apply IH].
    + apply IH. rewrite all_chars_app, Hcur. simpl.
      unfold not_slash. now rewrite Hc.
Qed.

Lemma name_no_slash (p : string) : all_chars not_slash (name p) = true.
Proof.
  unfold name, parts.
  assert (H : Forall (fun c => all_chars not_slash c = true)
                (filter (fun c => c ≠ EmptyString ∧ c ≠ ".") (split_slash "" p))).
  { apply Forall_forall. intros x [_ Hx]%list_elem_of_filter.
    pose proof (split_slash_components "" p eq_refl) as HF.
    rewrite Forall_forall in HF. now apply HF. }
  induction H as [|x l Hx Hl IH]; [reflexivity|].
  destruct l; [exact Hx | exact IH].
Qed.

Lemma stem_of_name_keeps (P : ascii -> bool) (n : string) :
  all_chars P n = true -> all_chars P (stem_of_name n) = true.
Proof.
  intros H. unfold stem_of_name. destruct (rfind_dot n); [|exact H].
  destruct (_ && _); [now apply all_chars_substring | exact H].
Qed.

Lemma stem_no_slash (p : string) : all_chars not_slash (stem p) = true.
Proof. apply stem_of_name_keeps, name_no_slash. Qed.

(** A path without a slash that is neither empty nor [.] is its own name. *)
Lemma name_flat (s : string) :
  all_chars not_slash s = true -> s <> "" -> s <> "." -> name s = s.
Proof.
  intros Hs H1 H2. unfold name, parts. rewrite (split_slash_flat "" s Hs).
  simpl. rewrite filter_cons_True by (split; assumption). reflexivity.
Qed.

Lemma substring_prefix (n : nat) (s : string) :
  startswith s (String.substring 0 n s) = true.
Proof.
  revert n. induction s as [|c s IH]; intros [|n]; simpl; try reflexivity.
  now rewrite Ascii.eqb_refl, IH.
Qed.

Lemma prefix_refl (s : string) : startswith s s = true.
Proof.
  induction s as [|c s IH]; simpl; [reflexivity|].
  now rewrite Ascii.eqb_refl, IH.
Qed.

Lemma stem_of_name_prefix (n : string) : startswith n (stem_of_name n) = true.
Proof.
  unfold stem_of_name. destruct (rfind_dot n).
  - destruct (_ && _); [apply substring_prefix | apply prefix_refl].
  - apply prefix_refl.
Qed.

End PyPathFacts.

Example get_column_type_status_code : get_column_type "Status Code" PyNone = "TEXT".
Proof. reflexivity. Qed.

Example get_column_type_status_code' : get_column_type "status_code" PyNone = "REAL".
Proof. reflexivity. Qed.

Example stem_ex1 : PyPath.stem "out/Internal All.csv" = "Internal All".
Proof. reflexivity. Qed.

Example stem_ex2 : PyPath.stem "a/b/.hidden" = ".hidden".
Proof. reflexivity. Qed.

Example stem_ex3 : PyPath.stem "a.tar.gz" = "a.tar".
Proof. reflexivity. Qed.

(** ** Column typing (C6) *)

(** C6.  A column name that ends, whatever its letter case, with one of the
    numeric suffixes is typed REAL for every sample value, the missing ones
    included: the name is a prefix followed by a suffix whose lower-case
    form is in [numeric_indicators]. *)
Theorem get_column_type_numeric_suffix (pre suf : string) (sample_value : pyval) :
  In (PyStr.lower suf) numeric_indicators ->
  get_column_type (pre +:+ suf) sample_value = "REAL".
Proof.
  intros Hin. unfold get_column_type.
  replace (existsb _ numeric_indicators) with true; [reflexivity|].
  symmetry. apply existsb_exists. exists (PyStr.lower suf). split; [exact Hin|].
  rewrite lower_app. apply endswith_app.
Qed.

Lemma get_column_type_numeric_suffix_witness :
  In (PyStr.lower "_MS") numeric_indicators /\
  get_column_type ("Response Time" +:+ "_MS") PyNone = "REAL".
Proof.
  split; [simpl; tauto|].
  apply (get_column_type_numeric_suffix "Response Time" "_MS" PyNone). simpl; tauto.
Defined.

(** ** Table names (C8) *)

Section TableNamer.

Import PyStr PyPath DatabaseManager.

Lemma prefix_sf_inv (n : string) :
  startswith n "sf_" = true -> exists r, n = String "s" (String "f" (String "_" r)).
Proof.
  destruct n as [|c1 [|c2 [|c3 r]]]; cbn [startswith]; try discriminate.
  - now rewrite andb_false_r.
  - now rewrite !andb_false_r.
  - rewrite andb_true_r. intros [H1 [H2 H3]%andb_prop]%andb_prop.
    apply Ascii.eqb_eq in H1, H2, H3. subst. now exists r.
Qed.

Lemma rfind_dot_sf (r : string) :
  rfind_dot (String "s" (String "f" (String "_" r)))
  = (fun i => S (S (S i))) <$> rfind_dot r.
Proof. simpl. now destruct (rfind_dot r). Qed.

(** Stripping the extension keeps a leading [sf_]. *)
Lemma stem_of_name_keeps_sf (n : string) :
  startswith n "sf_" = true -> startswith (stem_of_name n) "sf_" = true.
Proof.
  intros H. destruct (prefix_sf_inv n H) as [r ->].
  unfold stem_of_name. rewrite rfind_dot_sf.
  destruct (rfind_dot r) as [i|]; simpl; [|reflexivity].
  now destruct (Nat.ltb _ _).
Qed.

Lemma determine_table_name_unfold (csv_file : string) (df : DataFrame) :
  _determine_table_name csv_file df
  = if startswith (cleaned_stem csv_file) "sf_" then cleaned_stem csv_file
    else "sf_" +:+ cleaned_stem csv_file.
Proof.
  unfold _determine_table_name, cleaned_stem.
  now destruct (startswith _ _).
Qed.

Lemma determine_table_name_sf (csv_file : string) (df : DataFrame) :
  startswith (_determine_table_name csv_file df) "sf_" = true.
Proof.
  rewrite determine_table_name_unfold.
  destruct (startswith (cleaned_stem csv_file) "sf_") eqn:E; [exact E|].
  reflexivity.
Qed.

Lemma determine_table_name_tidy (csv_file : string) (df : DataFrame) :
  all_chars tidy (_determine_table_name csv_file df) = true.
Proof.
  rewrite determine_table_name_unfold.
  assert (H : all_chars tidy (cleaned_stem csv_file) = true)
    by apply clean_tidy, stem_no_slash.
  destruct (startswith _ _); [exact H|].
  now rewrite all_chars_app, H.
Qed.

(** A tidy name that starts with [sf_] derives to its own stem: nothing
    is put in front of it. *)
Lemma determine_table_name_of_tidy (out : string) (df : DataFrame) :
  all_chars tidy out = true -> startswith out "sf_" = true ->
  _determine_table_name out df = stem_of_name out.
Proof.
  intros Ht Hp.
  assert (Hname : name out = out).
  { apply name_flat.
    - eapply all_chars_weaken; [apply tidy_not_slash | exact Ht].
    - intros ->. discriminate.
    - intros ->. discriminate. }
  assert (Hst : all_chars tidy (stem_of_name out) = true)
    by now apply stem_of_name_keeps.
  rewrite determine_table_name_unfold. unfold cleaned_stem, stem.
  rewrite Hname, (tidy_lower _ Hst).
  rewrite (tidy_replace " " "_" _ eq_refl Hst), (tidy_replace "-" "_" _ eq_refl Hst).
  now rewrite (stem_of_name_keeps_sf _ Hp).
Qed.

End TableNamer.


Example determine_table_name_ex1 :
  DatabaseManager._determine_table_name "output/Internal-All Links.csv" (Frame [] [])
  = "sf_internal_all_links".
Proof. reflexivity. Qed.

Example determine_table_name_ex2 :
  DatabaseManager._determine_table_name "sf_internal_all_links" (Frame [] [])
  = "sf_internal_all_links".
Proof. reflexivity. Qed.

Example determine_table_name_ex3 :
  DatabaseManager._determine_table_name "SF_Pages.v2.csv" (Frame [] []) = "sf_pages.v2"
  /\ DatabaseManager._determine_table_name "sf_pages.v2" (Frame [] []) = "sf_pages".
Proof. split; reflexivity. Qed.

(** ** Computations that keep a relation between the state before and after *)

Section Stable.

Context {S : Type} (R : relation S) `{!PreOrder R}.

(** [m] leaves every state [R]-related to the one it started from,
    whether it returns or raises. *)
Definition stable {A} (m : M S A) : Prop := forall s, R s (snd (m s)).

Lemma stable_ret {A} (a : A) : stable (ret a).
Proof. intros s. reflexivity. Qed.

Lemma stable_raise {A} (e : exn) : stable (@raise S A e).
Proof. intros s. reflexivity. Qed.

Lemma stable_gets {A} (f : S -> A) : stable (gets f).
Proof. intros s. reflexivity. Qed.

Lemma stable_bind {A B} (m : M S A) (k : A -> M S B) :
  stable m -> (forall a, stable (k a)) -> stable (bind m k).
Proof.
  intros Hm Hk s. unfold bind. specialize (Hm s).
  destruct (m s) as [[a|e] s']; simpl in *; [|exact Hm].
  etransitivity; [exact Hm | apply Hk].
Qed.

Lemma stable_try_except {A} (m : M S A) (catches : exn -> bool) (h : exn -> M S A) :
  stable m -> (forall e, stable (h e)) -> stable (try_except m catches h).
Proof.
  intros Hm Hh s. unfold try_except. specialize (Hm s).
  destruct (m s) as [[a|e] s']; simpl in *; [exact Hm|].
  destruct (catches e); [|exact Hm].
  etransitivity; [exact Hm | apply Hh].
Qed.

Lemma stable_try_bind {A B} (m : M S A) (k : A -> M S B) (h : exn -> M S B) :
  stable m -> (forall a, stable (k a)) -> (forall e, stable (h e)) ->
  stable (try_bind m k h).
Proof.
  intros Hm Hk Hh s. unfold try_bind. specialize (Hm s).
  destruct (m s) as [[a|e] s']; simpl in *;
    (etransitivity; [exact Hm | first [apply Hk | apply Hh]]).
Qed.

Lemma stable_for_each {A} (l : list A) (body : A -> M S unit) :
  (forall x, stable (body x)) -> stable (for_each l body).
Proof.
  intros Hb. induction l as [|x l IH]; simpl.
  - apply stable_ret.
  - apply stable_bind; [apply Hb | intros _; exact IH].
Qed.

Lemma stable_modify (f : S -> S) : (forall s, R s (f s)) -> stable (modify f).
Proof. intros Hf s. apply Hf. Qed.

Lemma stable_load_name (locals : list string) (name : string) :
  stable (@load_name S locals name).
Proof. unfold load_name. destruct (existsb _ _); [apply stable_ret | apply stable_raise]. Qed.

End Stable.

Create HintDb stable.
#[local] Hint Extern 0 (PreOrder _) => apply _ : stable.
#[local] Hint Resolve stable_ret stable_raise stable_gets stable_load_name : stable.

(** Take a computation apart along its binds, handlers and loops, leaving
    the steps no hint settles. *)
Ltac stable_steps :=
  repeat first
    [ solve [auto with stable]
    | apply stable_bind; [apply _| |intros ?]
    | apply stable_try_except; [apply _| |intros ?]
    | apply stable_try_bind; [apply _| |intros ?|intros ?]
    | apply stable_for_each; [apply _|intros ?] ].

(** ** Construction (C9) *)

Section Construction.

Context `{SqlEngine}.
Import Sqlite DatabaseManager.

Lemma init_outcome (path : string) (opened : outcome connection) :
  fst (__init__ path opened)
  = match opened with
    | Raised e => Raised e
    | Returned c =>
        match effect (CreateTable true "crawl_metadata" crawl_metadata_columns) c with
        | Returned _ => Raised (NameError "column_exists")
        | Raised e => Raised e
        end
    end.
Proof.
  unfold __init__, setup_database, try_except, bind, raise, modify, cursor, execute.
  destruct opened as [c|e]; cbn -[effect].
  - destruct (effect (CreateTable true "crawl_metadata" crawl_metadata_columns) c)
      as [c'|e]; cbn; [reflexivity|].
    now destruct (is_sqlite_error e).
  - now destruct (is_sqlite_error e).
Qed.

End Construction.

(** C9, as amended.  Constructing a [DatabaseManager] never completes.  When
    [sqlite3.connect] raises, or the engine refuses the CREATE TABLE script,
    that exception leaves the constructor; in every other case the free
    name [column_exists] raises [NameError], which the [except sqlite3.Error]
    clause does not catch. *)
Theorem init_never_completes `{SqlEngine} (path : string)
    (opened : outcome Sqlite.connection) :
  (exists e, fst (DatabaseManager.__init__ path opened) = Raised e)
  /\ fst (DatabaseManager.__init__ path opened)
     = match opened with
       | Raised e => Raised e
       | Returned c =>
           match Sqlite.effect
                   (Sqlite.CreateTable true "crawl_metadata"
                      DatabaseManager.crawl_metadata_columns) c with
           | Returned _ => Raised (NameError "column_exists")
           | Raised e => Raised e
           end
       end.
Proof.
  split; [|apply init_outcome].
  rewrite init_outcome. destruct opened as [c|e]; [|now exists e].
  destruct (Sqlite.effect _ c) as [c'|e]; eauto.
Qed.

(** C9 as stated fails: when the database file cannot be opened the
    constructor raises the sqlite3 error, not [NameError]. *)
Lemma init_connect_failure_not_NameError :
  fst (@DatabaseManager.__init__ plain_engine "screaming_frog_results.db"
         (Raised (OperationalError "unable to open database file")))
  = Raised (OperationalError "unable to open database file")
  /\ ~ (forall path opened,
          fst (@DatabaseManager.__init__ plain_engine path opened)
          = Raised (NameError "column_exists")).
Proof.
  split; [reflexivity|].
  intros Hall.
  specialize (Hall "screaming_frog_results.db"
                (Raised (OperationalError "unable to open database file"))).
  discriminate Hall.
Qed.

Example init_on_a_fresh_file :
  fst (@DatabaseManager.__init__ plain_engine "screaming_frog_results.db"
         (Returned (Sqlite.fresh_connection ∅)))
  = Raised (NameError "column_exists").
Proof. reflexivity. Qed.

(** ** The schema cache (C10) *)

Section SchemaCache.

Context `{SqlEngine}.
Import Sqlite DatabaseManager Lifetime.

#[local] Instance same_schemas_preorder : PreOrder same_schemas.
Proof.
  split; [intros s; reflexivity|].
  intros s1 s2 s3 H12 H23. unfold same_schemas in *. congruence.
Qed.

(** Statements go to the connection; the cache is out of their reach. *)
Lemma cursor_same_schemas {A} (m : M connection A) : stable same_schemas (cursor m).
Proof.
  intros s. unfold cursor.
  destruct (conn s); try reflexivity.
  destruct (m c). reflexivity.
Qed.

#[local] Hint Resolve cursor_same_schemas : stable.

Lemma set_conn_same_schemas (h : handle) (s : state) : same_schemas s (set_conn h s).
Proof. reflexivity. Qed.

Lemma setup_database_same_schemas (opened : outcome connection) :
  stable same_schemas (setup_database opened).
Proof.
  unfold setup_database. stable_steps.
  - destruct opened; [|stable_steps].
    apply stable_modify. intros s. apply set_conn_same_schemas.
  - destruct (negb _); stable_steps.
Qed.

Lemma create_base_tables_same_schemas : stable same_schemas _create_base_tables.
Proof. unfold _create_base_tables. stable_steps. Qed.

Lemma ensure_table_same_schemas (t : string) (df : DataFrame) :
  stable same_schemas (ensure_table_for_dataframe t df).
Proof.
  unfold ensure_table_for_dataframe. stable_steps.
  destruct (_ !! _); stable_steps.
  unfold add_if_missing. destruct (PyStr.first_word _); stable_steps.
  destruct (existsb _ _); stable_steps.
Qed.

#[local] Hint Resolve ensure_table_same_schemas : stable.

Lemma maintenance_failed_same_schemas (prefix : string) (now : Z) (log_id : option Z)
    (e : exn) :
  stable same_schemas (maintenance_failed prefix now log_id e).
Proof.
  unfold maintenance_failed. stable_steps.
  destruct log_id as [id|]; stable_steps.
  destruct (id =? 0); stable_steps.
Qed.

Lemma log_start_same_schemas (op details : string) (now : Z) :
  stable same_schemas (log_start op details now).
Proof. unfold log_start. stable_steps. Qed.

Lemma log_completed_same_schemas (now log_id : Z) :
  stable same_schemas (log_completed now log_id).
Proof. unfold log_completed. stable_steps. Qed.

#[local] Hint Resolve maintenance_failed_same_schemas log_start_same_schemas
  log_completed_same_schemas : stable.

Lemma optimize_database_same_schemas (now : Z) :
  stable same_schemas (optimize_database now).
Proof. unfold optimize_database. stable_steps. Qed.

Lemma cleanup_old_records_same_schemas (d now : Z) :
  stable same_schemas (cleanup_old_records d now).
Proof.
  unfold cleanup_old_records. cbv zeta. stable_steps.
  all: destruct (_ !! _); stable_steps.
Qed.

Lemma process_csv_same_schemas (f : string) (read : outcome DataFrame) (id now : Z) :
  stable same_schemas (process_screaming_frog_csv f read id now).
Proof.
  unfold process_screaming_frog_csv. destruct read; stable_steps.
Qed.

Lemma close_same_schemas : stable same_schemas close.
Proof. intros s. unfold close, modify. simpl. now destruct (conn s). Qed.

(** No call a client can make changes the cache. *)
Lemma after_same_schemas (k : call) (s : state) :
  table_schemas (after k s) = table_schemas s.
Proof.
  destruct k; simpl.
  - apply setup_database_same_schemas.
  - apply create_base_tables_same_schemas.
  - apply ensure_table_same_schemas.
  - apply optimize_database_same_schemas.
  - apply cleanup_old_records_same_schemas.
  - apply process_csv_same_schemas.
  - reflexivity.
  - apply close_same_schemas.
Qed.

Lemma lifetime_same_schemas (calls : list call) (s : state) :
  table_schemas (lifetime calls s) = table_schemas s.
Proof.
  revert s. induction calls as [|k calls IH]; intros s; [reflexivity|].
  change (lifetime (k :: calls) s) with (lifetime calls (after k s)).
  rewrite IH. apply after_same_schemas.
Qed.

Lemma init_schemas_empty (path : string) (opened : outcome connection) :
  table_schemas (snd (__init__ path opened)) = ∅.
Proof. unfold __init__. now rewrite setup_database_same_schemas. Qed.

(** With the name absent from the cache only the CREATE branch runs. *)
Lemma ensure_table_unregistered (t : string) (df : DataFrame) (s : state) :
  table_schemas s !! t = None ->
  ensure_table_for_dataframe t df s = create_only t df s.
Proof.
  intros Hn. unfold ensure_table_for_dataframe, create_only, bind at 1, gets.
  now rewrite Hn.
Qed.

Lemma delete_loop_skipped (cutoff : Z) (s : state) :
  table_schemas s = ∅ ->
  for_each tables_to_clean
    (fun table =>
       bind (gets table_schemas)
            (fun schemas =>
               match schemas !! table with
               | Some _ => cursor (execute (DeleteWhereCrawlDateBefore table cutoff))
               | None => ret tt
               end)) s
  = (Returned tt, s).
Proof.
  intros He. unfold tables_to_clean. cbn [for_each]. unfold bind, gets, ret.
  rewrite He, lookup_empty. cbn beta iota. now rewrite He, lookup_empty.
Qed.

Lemma cleanup_unregistered (d now : Z) (s : state) :
  table_schemas s = ∅ ->
  cleanup_old_records d now s = cleanup_without_delete d now s.
Proof.
  intros He. unfold cleanup_old_records, cleanup_without_delete, try_bind.
  pose proof (log_start_same_schemas "cleanup"
                ("Removing records older than " +:+ pretty d +:+ " days") now s) as Hs.
  destruct (log_start _ _ now s) as [[log_id|e] s1]; [|reflexivity].
  simpl in Hs. unfold same_schemas in Hs. rewrite He in Hs.
  unfold try_except, bind at 1. now rewrite (delete_loop_skipped _ s1 Hs).
Qed.

End SchemaCache.

(** [_load_existing_schemas] is what would fill the cache. *)
Example load_existing_schemas_populates :
  (map_to_list (DatabaseManager.table_schemas Scenario.manager)).*1 = []
  /\ (map_to_list (DatabaseManager.table_schemas Scenario.manager_with_cache)).*1
     = ["schema_version"; "crawl_metadata"; "crawl_results"; "maintenance_log";
        "table_schemas"].
Proof. vm_compute. split; reflexivity. Qed.

(** C10.  From construction on, whatever calls are made on the object and
    whether they return or raise, [table_schemas] stays empty: no function
    or method of the module calls [_load_existing_schemas].
    Hence [ensure_table_for_dataframe] always runs as its CREATE branch
    alone, and [cleanup_old_records] as if it had no DELETE loop. *)
Theorem table_schemas_stays_empty `{SqlEngine} (path : string)
    (opened : outcome Sqlite.connection) (calls : list Lifetime.call) :
  let self := Lifetime.lifetime calls (snd (DatabaseManager.__init__ path opened)) in
  DatabaseManager.table_schemas self = ∅
  /\ (forall r, ~ In Lifetime.r_dm_load_existing_schemas (Lifetime.calls r))
  /\ (forall t df,
        DatabaseManager.ensure_table_for_dataframe t df self = Lifetime.create_only t df self)
  /\ (forall d now,
        DatabaseManager.cleanup_old_records d now self
        = Lifetime.cleanup_without_delete d now self).
Proof.
  intros self.
  assert (He : DatabaseManager.table_schemas self = ∅).
  { unfold self. rewrite lifetime_same_schemas. apply init_schemas_empty. }
  split; [exact He|]. split; [|split].
  - intros r. destruct r; simpl; intuition discriminate.
  - intros t df. apply ensure_table_unregistered. now rewrite He, lookup_empty.
  - intros d now. now apply cleanup_unregistered.
Qed.

(** ** Schema growth (C7) *)

Section SchemaGrowth.

Context `{SqlEngine}.
Import Sqlite DatabaseManager Schema.

Lemma stable_for_each_in {S A} (R : relation S) `{!PreOrder R} (l : list A)
    (body : A -> M S unit) :
  (forall x, In x l -> stable R (body x)) -> stable R (for_each l body).
Proof.
  induction l as [|x l IH]; intros Hb; simpl.
  - auto with stable.
  - apply stable_bind; [assumption | apply Hb; now left | intros _].
    apply IH. intros y Hy. apply Hb. now right.
Qed.

Lemma has_column_app_false (tb : table) (extra : list (string * string)) (n : string) :
  has_column (Table (t_columns tb ++ extra) (t_rows tb)) n = false ->
  has_column tb n = false.
Proof.
  unfold has_column, column_names. simpl. rewrite fmap_app, existsb_app.
  now intros [-> _]%orb_false_elim.
Qed.

Lemma new_column_weaken (req : list string) (tb : table) (extra : list (string * string))
    (col : string * string) :
  new_column req (Table (t_columns tb ++ extra) (t_rows tb)) col ->
  new_column req tb col.
Proof. intros [Hc Hd]. split; [eapply has_column_app_false, Hc | exact Hd]. Qed.

#[local] Instance grows_preorder (t : string) (req : list string) : PreOrder (grows t req).
Proof.
  split.
  - intros s name tb Hl. exists []. rewrite app_nil_r. destruct tb; auto.
  - intros s1 s2 s3 H12 H23 name tb Hl.
    destruct (H12 _ _ Hl) as (a1 & Hl2 & Hn1 & Hf1).
    destruct (H23 _ _ Hl2) as (a2 & Hl3 & Hn2 & Hf2). simpl in *.
    exists (a1 ++ a2)%list. rewrite app_assoc. split; [exact Hl3|]. split.
    + intros Hne. now rewrite (Hn1 Hne), (Hn2 Hne).
    + apply Forall_app. split; [exact Hf1|].
      eapply Forall_impl; [exact Hf2|]. intros col. apply new_column_weaken.
Qed.

#[local] Instance manager_grows_preorder (t : string) (req : list string) :
  PreOrder (manager_grows t req).
Proof.
  split.
  - intros s c Hc. exists c. split; [exact Hc | reflexivity].
  - intros s1 s2 s3 H12 H23 c Hc.
    destruct (H12 _ Hc) as (c2 & Hc2 & Hg2).
    destruct (H23 _ Hc2) as (c3 & Hc3 & Hg3).
    exists c3. split; [exact Hc3 | etransitivity; eassumption].
Qed.

(** A statement that grows the store does so through the cursor. *)
Lemma cursor_grows {A} (t : string) (req : list string) (m : M connection A) :
  (forall c, grows t req (pending c) (pending (snd (m c)))) ->
  stable (manager_grows t req) (cursor m).
Proof.
  intros Hm s c Hc. unfold cursor. rewrite Hc.
  specialize (Hm c). destruct (m c) as [r c']. simpl in *.
  exists c'. split; [reflexivity | exact Hm].
Qed.

Lemma execute_pending (q : stmt) (c : connection) :
  pending (snd (execute q c))
  = match effect q c with
    | Returned c' => pending c'
    | Raised _ => pending c
    end.
Proof. unfold execute. now destruct (effect q c). Qed.

Lemma commit_grows (t : string) (req : list string) (c : connection) :
  grows t req (pending c) (pending (snd (commit c))).
Proof. simpl. reflexivity. Qed.

Lemma table_info_grows (t t' : string) (req : list string) (c : connection) :
  grows t req (pending c) (pending (snd (table_info t' c))).
Proof.
  unfold table_info, bind, gets.
  pose proof (execute_pending (PragmaTableInfo t') c) as E.
  destruct (execute (PragmaTableInfo t') c) as [[[]|e] c']; simpl in *;
    rewrite E; reflexivity.
Qed.

Lemma add_column_new (req : list string) (def : string) (tb tb' : table) :
  In def req -> add_column def tb = Returned tb' ->
  exists col, tb' = Table (t_columns tb ++ [col]) (t_rows tb) /\ new_column req tb col.
Proof.
  intros Hin. unfold add_column.
  destruct (sql_rejects def); [discriminate|].
  destruct (PyStr.first_word def) as [n|] eqn:Hw; [|discriminate].
  destruct (has_column tb n) eqn:Hc; [discriminate|].
  intros [= <-]. exists (n, col_decl def). split; [reflexivity|].
  split; [exact Hc|]. now exists def.
Qed.

Lemma alter_grows (t : string) (req : list string) (def : string) (c : connection) :
  In def req ->
  grows t req (pending c) (pending (snd (execute (AlterTableAddColumn t def) c))).
Proof.
  intros Hin. rewrite execute_pending. simpl.
  destruct (pending c !! t) as [tb|] eqn:Ht; [|reflexivity].
  destruct (add_column def tb) as [tb'|e] eqn:Ha; [|reflexivity].
  destruct (add_column_new req def tb tb' Hin Ha) as (col & -> & Hnew).
  intros name tb0 Hl. simpl.
  destruct (decide (name = t)) as [->|Hne].
  - rewrite Ht in Hl. injection Hl as <-.
    exists [col]. rewrite lookup_insert_eq. repeat split; [congruence|].
    now constructor.
  - exists []. rewrite lookup_insert_ne by congruence. rewrite app_nil_r.
    destruct tb0; auto.
Qed.

Lemma create_grows (t : string) (req defs : list string) (c : connection) :
  grows t req (pending c) (pending (snd (execute (CreateTable false t defs) c))).
Proof.
  rewrite execute_pending. simpl.
  destruct (pending c !! t) as [tb|] eqn:Ht; [reflexivity|].
  destruct (add_columns defs _) as [tb'|e]; [|reflexivity].
  intros name tb0 Hl. simpl. exists [].
  rewrite lookup_insert_ne by congruence. rewrite app_nil_r. destruct tb0; auto.
Qed.

Lemma add_if_missing_grows (t : string) (req cur : list string) (def : string) :
  In def req -> stable (manager_grows t req) (add_if_missing t cur def).
Proof.
  intros Hin. unfold add_if_missing.
  destruct (PyStr.first_word def); [|auto with stable].
  destruct (existsb _ cur); [auto with stable|].
  apply stable_try_except; [apply _| |intros ?; auto with stable].
  apply cursor_grows. intros c. now apply alter_grows.
Qed.

Lemma ensure_table_grows (t : string) (df : DataFrame) :
  stable (manager_grows t (column_definitions df)) (ensure_table_for_dataframe t df).
Proof.
  unfold ensure_table_for_dataframe. cbv zeta.
  apply stable_bind; [apply _ | auto with stable | intros schemas].
  apply stable_bind; [apply _ | | intros _].
  - destruct (schemas !! t).
    + apply stable_bind; [apply _ | | intros cur].
      * apply cursor_grows. intros c. apply table_info_grows.
      * apply stable_for_each_in; [apply _|].
        intros def Hin. now apply add_if_missing_grows.
    + apply cursor_grows. intros c. apply create_grows.
  - apply cursor_grows. intros c. apply commit_grows.
Qed.

End SchemaGrowth.


(** ** The reconciliation branch, run twice *)

Section Reconcile.

Context `{SqlEngine}.
Import Sqlite DatabaseManager Schema.

Lemma lstrip_app_nonempty (a b : string) :
  PyStr.lstrip b <> "" -> PyStr.lstrip (a +:+ b) <> "".
Proof.
  intros Hb. induction a as [|c a IH]; [exact Hb|].
  rewrite append_cons. simpl. destruct (PyStr.is_space c); [exact IH | discriminate].
Qed.

Lemma first_word_some (s : string) :
  PyStr.lstrip s <> "" -> exists n, PyStr.first_word s = Some n.
Proof.
  unfold PyStr.first_word. destruct (PyStr.lstrip s); [congruence | eauto].
Qed.

Lemma get_column_type_cases (col : string) (v : pyval) :
  get_column_type col v = "REAL" \/ get_column_type col v = "TIMESTAMP"
  \/ get_column_type col v = "TEXT".
Proof.
  unfold get_column_type.
  repeat match goal with |- context [if ?b then _ else _] => destruct b end; auto.
Qed.

(** [col_def.split()[0]] never raises on a definition built for a frame. *)
Lemma column_definitions_first_word (df : DataFrame) (def : string) :
  In def (column_definitions df) -> exists n, PyStr.first_word def = Some n.
Proof.
  unfold column_definitions. rewrite in_app_iff. intros [Hin|Hin].
  - apply list_elem_of_In, list_elem_of_fmap in Hin as (col & -> & _).
    apply first_word_some, lstrip_app_nonempty.
    destruct (get_column_type_cases col (Pandas.sample df col)) as [->|[->| ->]];
      discriminate.
  - simpl in Hin. destruct Hin as [<-|[<-|[<-|[]]]]; eexists; reflexivity.
Qed.

Lemma lower_eqb_refl (n : string) : String.eqb (PyStr.lower n) (PyStr.lower n) = true.
Proof. apply String.eqb_refl. Qed.

Lemma has_column_of_name (tb : table) (n : string) :
  In n (column_names tb) -> has_column tb n = true.
Proof.
  intros Hin. unfold has_column. apply existsb_exists. exists n.
  split; [exact Hin | apply lower_eqb_refl].
Qed.

Lemma has_column_app (tb : table) (extra : list (string * string)) (n : string) :
  has_column (Table (t_columns tb ++ extra) (t_rows tb)) n
  = has_column tb n || existsb (fun c => String.eqb (PyStr.lower c) (PyStr.lower n)) (extra.*1).
Proof. unfold has_column, column_names. simpl. now rewrite fmap_app, existsb_app. Qed.

Lemma settled_app (tb : table) (extra : list (string * string)) (def : string) :
  settled tb def -> settled (Table (t_columns tb ++ extra) (t_rows tb)) def.
Proof.
  intros [Hr|(n & Hw & Hc)]; [now left|]. right. exists n. split; [exact Hw|].
  now rewrite has_column_app, Hc.
Qed.

Lemma alter_error_is_operational (t def : string) (c : connection) (e : exn) :
  effect (AlterTableAddColumn t def) c = Raised e -> is_operational_error e = true.
Proof.
  simpl. destruct (pending c !! t) as [tb|]; [|now intros [= <-]].
  unfold add_column. destruct (sql_rejects def); [now intros [= <-]|].
  destruct (PyStr.first_word def) as [n|]; [|now intros [= <-]].
  destruct (has_column tb n); [now intros [= <-]|discriminate].
Qed.

(** On an open connection a turn of the loop returns, whatever the engine
    says. *)
Lemma add_if_missing_open (p : string) (c : connection) (sch : gmap string string)
    (t : string) (cur : list string) (def n : string) :
  PyStr.first_word def = Some n ->
  add_if_missing t cur def (State p (Open c) sch)
  = (Returned tt, State p (Open (reconcile_step t cur c def)) sch).
Proof.
  intros Hw. unfold add_if_missing, reconcile_step. rewrite Hw.
  destruct (existsb _ cur); [reflexivity|].
  unfold try_except, cursor, execute. cbn -[effect].
  destruct (effect (AlterTableAddColumn t def) c) as [c'|e] eqn:He; [reflexivity|].
  now rewrite (alter_error_is_operational _ _ _ _ He).
Qed.

Lemma for_each_add_if_missing_open (p : string) (sch : gmap string string) (t : string)
    (cur defs : list string) (c : connection) :
  Forall (fun def => exists n, PyStr.first_word def = Some n) defs ->
  for_each defs (add_if_missing t cur) (State p (Open c) sch)
  = (Returned tt, State p (Open (reconcile_loop t cur defs c)) sch).
Proof.
  intros Hw. revert c. induction Hw as [|def defs [n Hn] _ IH]; intros c; [reflexivity|].
  cbn [for_each]. unfold bind. rewrite (add_if_missing_open _ _ _ _ _ _ _ Hn).
  apply IH.
Qed.

(** [ensure_table_for_dataframe] on a table the cache knows, as a function
    of the connection. *)
Lemma ensure_table_registered (p : string) (c : connection) (sch : gmap string string)
    (t : string) (df : DataFrame) :
  is_Some (sch !! t) ->
  ensure_table_for_dataframe t df (State p (Open c) sch)
  = (Returned tt,
     State p (Open (snd (commit
                           (reconcile_loop t
                              (match pending c !! t with
                               | Some tb => column_names tb
                               | None => []
                               end)
                              (column_definitions df)
                              (record (PragmaTableInfo t) true c))))) sch).
Proof.
  intros [sql Hs]. unfold ensure_table_for_dataframe. cbv zeta.
  unfold bind at 1, gets. cbn [table_schemas]. rewrite Hs.
  unfold bind at 1. unfold bind at 1.
  unfold cursor at 1, table_info, bind, gets, execute.
  cbn -[for_each commit column_definitions reconcile_loop].
  change (set_conn (Open (record (PragmaTableInfo t) true c)) (State p (Open c) sch))
    with (State p (Open (record (PragmaTableInfo t) true c)) sch).
  rewrite for_each_add_if_missing_open.
  - reflexivity.
  - apply Forall_forall. intros def Hin. apply list_elem_of_In in Hin.
    eapply column_definitions_first_word, Hin.
Qed.

Lemma in_cur (n : string) (cur : list string) :
  existsb (String.eqb n) cur = true -> In n cur.
Proof. intros (x & Hx & ->%String.eqb_eq)%existsb_exists. exact Hx. Qed.

(** A turn of the loop leaves its definition settled and the table grown
    by at most one column. *)
Lemma reconcile_step_settles (t : string) (cur : list string) (c : connection)
    (tb : table) (def : string) :
  pending c !! t = Some tb ->
  (forall n, In n cur -> has_column tb n = true) ->
  (exists n, PyStr.first_word def = Some n) ->
  exists extra,
    pending (reconcile_step t cur c def) !! t
    = Some (Table (t_columns tb ++ extra) (t_rows tb))
    /\ settled (Table (t_columns tb ++ extra) (t_rows tb)) def.
Proof.
  intros Ht Hcur [n Hn]. unfold reconcile_step. rewrite Hn.
  destruct (existsb (String.eqb n) cur) eqn:Hin.
  - exists []. rewrite app_nil_r. destruct tb as [cols rows]. split; [exact Ht|].
    right. exists n. split; [exact Hn|]. apply Hcur, in_cur, Hin.
  - rewrite execute_pending. simpl. rewrite Ht. unfold add_column. rewrite Hn.
    destruct (sql_rejects def) eqn:Hr.
    + exists []. rewrite app_nil_r. destruct tb as [cols rows]. split; [exact Ht|].
      now left.
    + destruct (has_column tb n) eqn:Hc.
      * exists []. rewrite app_nil_r. destruct tb as [cols rows]. split; [exact Ht|].
        right. now exists n.
      * exists [(n, col_decl def)]. simpl. rewrite lookup_insert_eq. split; [reflexivity|].
        right. exists n. split; [exact Hn|].
        rewrite has_column_app. simpl. now rewrite lower_eqb_refl, orb_true_r.
Qed.

Lemma reconcile_loop_settles (t : string) (cur defs : list string) (c : connection)
    (tb : table) :
  pending c !! t = Some tb ->
  (forall n, In n cur -> has_column tb n = true) ->
  Forall (fun def => exists n, PyStr.first_word def = Some n) defs ->
  exists extra,
    pending (reconcile_loop t cur defs c) !! t
    = Some (Table (t_columns tb ++ extra) (t_rows tb))
    /\ Forall (settled (Table (t_columns tb ++ extra) (t_rows tb))) defs.
Proof.
  intros Ht Hcur Hw. revert c tb Ht Hcur.
  induction Hw as [|def defs Hn _ IH]; intros c tb Ht Hcur.
  - exists []. rewrite app_nil_r. destruct tb as [cols rows]. split; [exact Ht | constructor].
  - destruct (reconcile_step_settles t cur c tb def Ht Hcur Hn) as (e1 & Ht1 & Hs1).
    destruct (IH _ _ Ht1) as (e2 & Ht2 & Hs2).
    { intros n Hin. rewrite has_column_app. now rewrite (Hcur n Hin). }
    simpl in Ht2, Hs2. rewrite <- app_assoc in Ht2, Hs2.
    exists (e1 ++ e2)%list. split; [exact Ht2|].
    constructor; [|exact Hs2].
    rewrite app_assoc. now apply (settled_app (Table (t_columns tb ++ e1) (t_rows tb))).
Qed.

(** On a settled definition a turn of the loop changes nothing but the
    journal, where it leaves at most a refused ALTER. *)
Lemma reconcile_step_settled (t : string) (cur : list string) (c : connection)
    (tb : table) (def : string) :
  pending c !! t = Some tb ->
  settled tb def ->
  reconcile_step t cur c def = c
  \/ reconcile_step t cur c def = record (AlterTableAddColumn t def) false c.
Proof.
  intros Ht Hs. unfold reconcile_step.
  destruct (PyStr.first_word def) as [n|] eqn:Hn; [|now left].
  destruct (existsb (String.eqb n) cur); [now left|]. right.
  unfold execute. simpl. rewrite Ht. unfold add_column.
  destruct Hs as [->|(n' & Hn' & Hc)]; [reflexivity|].
  destruct (sql_rejects def); [reflexivity|].
  rewrite Hn. rewrite Hn in Hn'. injection Hn' as <-. now rewrite Hc.
Qed.

Lemma reconcile_loop_settled (t : string) (cur defs : list string) (c : connection)
    (tb : table) :
  pending c !! t = Some tb ->
  Forall (settled tb) defs ->
  pending (reconcile_loop t cur defs c) = pending c
  /\ committed (reconcile_loop t cur defs c) = committed c
  /\ exists J, journal (reconcile_loop t cur defs c) = (journal c ++ J)%list
               /\ Forall (fun e => snd e = false) J.
Proof.
  intros Ht Hs. revert c Ht. induction Hs as [|def defs Hd _ IH]; intros c Ht.
  - repeat split. exists []. now rewrite app_nil_r.
  - cbn [reconcile_loop fold_left].
    destruct (reconcile_step_settled t cur c tb def Ht Hd) as [-> | ->].
    + apply IH, Ht.
    + destruct (IH (record (AlterTableAddColumn t def) false c) Ht) as (Hp & Hc & J & HJ & HF).
      split; [exact Hp|]. split; [exact Hc|].
      exists ((AlterTableAddColumn t def, false) :: J). split.
      * unfold reconcile_loop in HJ. rewrite HJ. simpl. now rewrite <- app_assoc.
      * now constructor.
Qed.

(** The reconciliation branch is idempotent.  On a table that both the
    cache and the store know, a second call with the same frame returns,
    reads the live column set again and leaves the store as the first call
    left it: every ALTER it still sends is one the engine refuses. *)
Lemma ensure_registered_twice (p : string) (c : connection) (sch : gmap string string)
    (t : string) (df : DataFrame) (tb : table) :
  is_Some (sch !! t) ->
  pending c !! t = Some tb ->
  exists c1 c2 J,
    ensure_table_for_dataframe t df (State p (Open c) sch)
    = (Returned tt, State p (Open c1) sch)
    /\ ensure_table_for_dataframe t df (State p (Open c1) sch)
       = (Returned tt, State p (Open c2) sch)
    /\ pending c2 = pending c1
    /\ journal c2 = (journal c1 ++ (PragmaTableInfo t, true) :: J)%list
    /\ Forall (fun e => snd e = false) J
    /\ alters_done J = [].
Proof.
  intros Hs Ht.
  assert (Hw : Forall (fun def => exists n, PyStr.first_word def = Some n)
                 (column_definitions df)).
  { apply Forall_forall. intros def Hin. apply list_elem_of_In in Hin.
    eapply column_definitions_first_word, Hin. }
  pose proof (ensure_table_registered p c sch t df Hs) as E1. rewrite Ht in E1.
  destruct (reconcile_loop_settles t (column_names tb) (column_definitions df)
              (record (PragmaTableInfo t) true c) tb Ht (has_column_of_name tb) Hw)
    as (extra & Ht1 & Hset).
  set (tb1 := Table (t_columns tb ++ extra) (t_rows tb)) in *.
  set (c1 := snd (commit (reconcile_loop t (column_names tb) (column_definitions df)
                            (record (PragmaTableInfo t) true c)))) in *.
  assert (Hc1 : pending c1 !! t = Some tb1) by exact Ht1.
  pose proof (ensure_table_registered p c1 sch t df Hs) as E2. rewrite Hc1 in E2.
  destruct (reconcile_loop_settled t (column_names tb1) (column_definitions df)
              (record (PragmaTableInfo t) true c1) tb1 Hc1 Hset)
    as (Hp & _ & J & HJ & HF).
  exists c1, (snd (commit (reconcile_loop t (column_names tb1) (column_definitions df)
                             (record (PragmaTableInfo t) true c1)))), J.
  split; [exact E1|]. split; [exact E2|].
  split; [exact Hp|]. split.
  - simpl. rewrite HJ. simpl. now rewrite <- app_assoc.
  - split; [exact HF|].
    clear -HF. induction HF as [|[q ok] J Hq _ IH]; [reflexivity|].
    simpl in Hq. subst ok. simpl. now destruct q.
Qed.

End Reconcile.

(** ** Calling [ensure_table_for_dataframe] twice (C1) *)

(** A table that the store has and the cache has not: the CREATE branch
    runs, the engine refuses the statement, and the call raises without
    having read the live columns or touched the store. *)
Lemma ensure_existing_unregistered `{SqlEngine} (p : string) (c : Sqlite.connection)
    (sch : gmap string string) (t : string) (df : DataFrame) (tb : table) :
  sch !! t = None ->
  Sqlite.pending c !! t = Some tb ->
  DatabaseManager.ensure_table_for_dataframe t df
    (DatabaseManager.State p (DatabaseManager.Open c) sch)
  = (Raised (OperationalError ("table " +:+ t +:+ " already exists")),
     DatabaseManager.State p
       (DatabaseManager.Open
          (Sqlite.record
             (Sqlite.CreateTable false t
                ("id INTEGER PRIMARY KEY" :: DatabaseManager.column_definitions df))
             false c)) sch).
Proof.
  intros Hs Ht. rewrite ensure_table_unregistered by exact Hs.
  unfold Lifetime.create_only, bind, DatabaseManager.cursor, Sqlite.execute. simpl.
  now rewrite Ht.
Qed.


(** C1, evaluated.  On a manager over an empty database the first call for
    [sf_pages] creates the table; the second call with the same frame does
    not read the live column set: no PRAGMA table_info is ever executed, a
    second CREATE TABLE is sent, the engine refuses it and the call raises.
    The table keeps the columns the first call gave it. *)
Theorem ensure_table_twice_raises :
  let first := @DatabaseManager.ensure_table_for_dataframe plain_engine
                 "sf_pages" Scenario.pages Scenario.fresh_manager in
  let second := @DatabaseManager.ensure_table_for_dataframe plain_engine
                  "sf_pages" Scenario.pages (snd first) in
  fst first = Returned tt
  /\ fst second = Raised (OperationalError "table sf_pages already exists")
  /\ Schema.pragmas (Observe.journal_since 0 (snd second)) = []
  /\ Observe.journal_since (Observe.journal_length (snd first)) (snd second)
     = [(Sqlite.CreateTable false "sf_pages"
           ("id INTEGER PRIMARY KEY" :: DatabaseManager.column_definitions Scenario.pages),
         false)]
  /\ Observe.live_columns (snd second) "sf_pages"
     = Some ["id"; "url"; "status_code"; "response_time_ms"; "crawl_id";
             "processed_at"; "source_file"].
Proof. vm_compute. repeat split; reflexivity. Qed.

(** ** Empty batches (C4) *)

Section EmptyBatch.

Context `{SqlEngine}.
Import Sqlite DatabaseManager Schema.

#[local] Instance rows_kept_preorder : PreOrder rows_kept.
Proof.
  split.
  - intros s. split.
    + intros name tb Hl. now exists tb.
    + intros name tb' Hl Hn. congruence.
  - intros s1 s2 s3 [H12 N12] [H23 N23]. split.
    + intros name tb Hl. destruct (H12 _ _ Hl) as (tb2 & Hl2 & E2).
      destruct (H23 _ _ Hl2) as (tb3 & Hl3 & E3). exists tb3. split; congruence.
    + intros name tb3 Hl3 Hn1.
      destruct (s2 !! name) as [tb2|] eqn:Hl2.
      * destruct (H23 _ _ Hl2) as (tb3' & Hl3' & E3).
        rewrite Hl3 in Hl3'. injection Hl3' as <-.
        rewrite E3. eapply N12; eassumption.
      * eapply N23; eassumption.
Qed.

#[local] Instance manager_rows_kept_preorder : PreOrder manager_rows_kept.
Proof.
  split.
  - intros s c Hc. exists c. split; [exact Hc | reflexivity].
  - intros s1 s2 s3 H12 H23 c Hc.
    destruct (H12 _ Hc) as (c2 & Hc2 & Hg2).
    destruct (H23 _ Hc2) as (c3 & Hc3 & Hg3).
    exists c3. split; [exact Hc3 | etransitivity; eassumption].
Qed.

Lemma cursor_rows_kept {A} (m : M connection A) :
  (forall c, rows_kept (pending c) (pending (snd (m c)))) ->
  stable manager_rows_kept (cursor m).
Proof.
  intros Hm s c Hc. unfold cursor. rewrite Hc.
  specialize (Hm c). destruct (m c) as [r c']. simpl in *.
  exists c'. split; [reflexivity | exact Hm].
Qed.

Lemma add_column_rows (def : string) (tb tb' : table) :
  add_column def tb = Returned tb' -> t_rows tb' = t_rows tb.
Proof.
  unfold add_column. destruct (sql_rejects def); [discriminate|].
  destruct (PyStr.first_word def); [|discriminate].
  destruct (has_column tb s); [discriminate|]. now intros [= <-].
Qed.

Lemma add_columns_rows (defs : list string) (tb tb' : table) :
  add_columns defs tb = Returned tb' -> t_rows tb' = t_rows tb.
Proof.
  revert tb. induction defs as [|d defs IH]; intros tb; simpl.
  - now intros [= <-].
  - destruct (add_column d tb) as [tb1|e] eqn:Ha; [|discriminate].
    intros Hr. rewrite (IH _ Hr). eapply add_column_rows, Ha.
Qed.

Lemma insert_table_rows_kept (s : store) (t : string) (tb' : table) :
  t_rows tb' = match s !! t with Some tb => t_rows tb | None => [] end ->
  rows_kept s (<[t := tb']> s).
Proof.
  intros Hr. split.
  - intros name tb Hl. destruct (decide (name = t)) as [->|Hne].
    + exists tb'. rewrite lookup_insert_eq, Hl in *. now split.
    + exists tb. rewrite lookup_insert_ne by congruence. now split.
  - intros name tb1 Hl Hn. destruct (decide (name = t)) as [->|Hne].
    + rewrite lookup_insert_eq in Hl. injection Hl as <-. now rewrite Hn in Hr.
    + rewrite lookup_insert_ne in Hl by congruence. congruence.
Qed.

(** CREATE, ALTER and PRAGMA leave every row where it is. *)
Lemma ddl_rows_kept (q : stmt) (c : connection) :
  match q with
  | CreateTable _ _ _ | AlterTableAddColumn _ _ | PragmaTableInfo _ => True
  | _ => False
  end ->
  rows_kept (pending c) (pending (snd (execute q c))).
Proof.
  intros Hq. rewrite execute_pending.
  destruct q; try contradiction; simpl; try reflexivity.
  - destruct (pending c !! t) as [tb|] eqn:Ht.
    + destruct if_not_exists; reflexivity.
    + destruct (add_columns defs _) as [tb'|e] eqn:Ha; [|reflexivity].
      simpl. apply insert_table_rows_kept. rewrite Ht.
      now rewrite (add_columns_rows _ _ _ Ha).
  - destruct (pending c !! t) as [tb|] eqn:Ht; [|reflexivity].
    destruct (add_column def tb) as [tb'|e] eqn:Ha; [|reflexivity].
    simpl. apply insert_table_rows_kept. rewrite Ht. eapply add_column_rows, Ha.
Qed.

Lemma table_info_rows_kept (t : string) (c : connection) :
  rows_kept (pending c) (pending (snd (table_info t c))).
Proof.
  unfold table_info, bind, gets.
  pose proof (execute_pending (PragmaTableInfo t) c) as E.
  destruct (execute (PragmaTableInfo t) c) as [[[]|e] c']; simpl in *;
    rewrite E; reflexivity.
Qed.

Lemma ensure_table_rows_kept (t : string) (df : DataFrame) :
  stable manager_rows_kept (ensure_table_for_dataframe t df).
Proof.
  unfold ensure_table_for_dataframe. cbv zeta.
  apply stable_bind; [apply _ | auto with stable | intros schemas].
  apply stable_bind; [apply _ | | intros _].
  - destruct (schemas !! t).
    + apply stable_bind; [apply _ | | intros cur].
      * apply cursor_rows_kept. intros c. apply table_info_rows_kept.
      * apply stable_for_each; [apply _|]. intros def. unfold add_if_missing.
        destruct (PyStr.first_word def); [|auto with stable].
        destruct (existsb _ cur); [auto with stable|].
        apply stable_try_except; [apply _| |intros ?; auto with stable].
        apply cursor_rows_kept. intros c. now apply ddl_rows_kept.
    + apply cursor_rows_kept. intros c. now apply ddl_rows_kept.
  - apply cursor_rows_kept. intros c. simpl. reflexivity.
Qed.

(** [to_sql] of a frame without rows sends no INSERT. *)
Lemma to_sql_empty_rows_kept (t : string) (df : DataFrame) :
  df_rows df = [] -> stable manager_rows_kept (cursor (Pandas.to_sql t df)).
Proof.
  intros Hr. apply cursor_rows_kept. intros c.
  unfold Pandas.to_sql. rewrite Hr. unfold bind at 1, gets.
  destruct (pending c !! t) as [tb|] eqn:Ht.
  - simpl. reflexivity.
  - unfold bind.
    pose proof (ddl_rows_kept
                  (CreateTable false t
                     (imap (fun i col => col +:+ " " +:+ pandas_sql_type (Pandas.cells df i))
                           (df_columns df))) c I) as Hk.
    destruct (execute _ c) as [[[]|e] c']; simpl in *; exact Hk.
Qed.

Lemma assign_rows_nil (label : string) (v : pyval) (df : DataFrame) :
  df_rows df = [] -> df_rows (Pandas.assign label v df) = [].
Proof.
  intros Hr. unfold Pandas.assign.
  destruct (Pandas.index_of _ _); simpl; now rewrite Hr.
Qed.

Lemma tagged_rows_nil (csv_file : string) (cols : list string) (crawl_id now : Z) :
  df_rows (tagged csv_file (Frame cols []) crawl_id now) = [].
Proof. unfold tagged. now repeat apply assign_rows_nil. Qed.

Lemma process_csv_unfold (csv_file : string) (df0 : DataFrame) (crawl_id now : Z) :
  process_screaming_frog_csv csv_file (Returned df0) crawl_id now
  = (let df := tagged csv_file df0 crawl_id now in
     let table_name := _determine_table_name csv_file df in
     ensure_table_for_dataframe table_name df ;;;
     cursor (Pandas.to_sql table_name df) ;;;
     ret (Pandas.len df))%py.
Proof. reflexivity. Qed.

Lemma process_empty_rows_kept (csv_file : string) (cols : list string) (crawl_id now : Z) :
  stable manager_rows_kept
    (process_screaming_frog_csv csv_file (Returned (Frame cols [])) crawl_id now).
Proof.
  rewrite process_csv_unfold. cbv zeta.
  apply stable_bind; [apply _ | apply ensure_table_rows_kept | intros _].
  apply stable_bind; [apply _ | | intros _; auto with stable].
  apply to_sql_empty_rows_kept, tagged_rows_nil.
Qed.

Lemma process_empty_outcome (csv_file : string) (cols : list string) (crawl_id now : Z)
    (s : state) :
  let df := tagged csv_file (Frame cols []) crawl_id now in
  let t := _determine_table_name csv_file df in
  let r := process_screaming_frog_csv csv_file (Returned (Frame cols [])) crawl_id now s in
  (fst r = Returned 0 \/ exists e, fst r = Raised e)
  /\ (forall e, fst (ensure_table_for_dataframe t df s) = Raised e -> fst r = Raised e).
Proof.
  intros df t r. unfold r. rewrite process_csv_unfold. cbv zeta. fold df. fold t.
  unfold bind. destruct (ensure_table_for_dataframe t df s) as [[[]|e] s1]; simpl.
  - split; [|discriminate].
    destruct (cursor (Pandas.to_sql t df) s1) as [[[]|e] s2]; simpl; [|eauto].
    left. unfold ret, Pandas.len. simpl. unfold df. now rewrite tagged_rows_nil.
  - split; [eauto | now intros e' [= ->]].
Qed.

End EmptyBatch.

(** C4, as amended.  Ingesting a batch without data rows stores no row:
    every table keeps exactly its rows and a table created on the way is
    empty; the call returns 0 whenever it returns.  It is not free of
    schema work: [ensure_table_for_dataframe] runs for the header's columns
    all the same, and when that raises the ingestion raises with it. *)
Theorem empty_batch_stores_no_row `{SqlEngine} (path : string) (c : Sqlite.connection)
    (schemas : gmap string string) (csv_file : string) (cols : list string)
    (crawl_id now : Z) :
  let self := DatabaseManager.State path (DatabaseManager.Open c) schemas in
  let df := DatabaseManager.tagged csv_file (Frame cols []) crawl_id now in
  let t := DatabaseManager._determine_table_name csv_file df in
  let r := DatabaseManager.process_screaming_frog_csv csv_file (Returned (Frame cols []))
             crawl_id now self in
  (fst r = Returned 0 \/ exists e, fst r = Raised e)
  /\ (forall e, fst (DatabaseManager.ensure_table_for_dataframe t df self) = Raised e ->
                fst r = Raised e)
  /\ exists c', DatabaseManager.conn (snd r) = DatabaseManager.Open c'
                /\ Schema.rows_kept (Sqlite.pending c) (Sqlite.pending c').
Proof.
  intros self df t r.
  destruct (process_empty_outcome csv_file cols crawl_id now self) as [H1 H2].
  split; [exact H1|]. split; [exact H2|].
  exact (process_empty_rows_kept csv_file cols crawl_id now self c eq_refl).
Qed.

(** C4 as stated fails twice over.  On a manager over an empty database the
    ingestion of a header-only batch raises: the frame already carries the
    three metadata columns when [ensure_table_for_dataframe] appends them
    again, and the engine refuses a CREATE TABLE that names [crawl_id]
    twice.  Where the call does return 0, on a table the cache knows, it
    has added the header's columns to that table. *)
Lemma empty_batch_raises_or_alters :
  fst (@DatabaseManager.process_screaming_frog_csv plain_engine "out/Internal All.csv"
         (Returned Scenario.empty_batch) 1 Scenario.today Scenario.fresh_manager)
  = Raised (OperationalError "duplicate column name: crawl_id")
  /\ (let r := @DatabaseManager.process_screaming_frog_csv plain_engine
                 "out/Internal All.csv" (Returned Scenario.empty_batch) 1 Scenario.today
                 Scenario.registered_manager in
      Observe.live_columns Scenario.registered_manager "sf_internal_all" = Some ["id"]
      /\ fst r = Returned 0
      /\ Observe.live_columns (snd r) "sf_internal_all"
         = Some ["id"; "url"; "status_code"; "crawl_id"; "source_file"; "processed_at"])
  /\ ~ (forall (csv_file : string) (crawl_id now : Z) (self : DatabaseManager.state),
          let r := @DatabaseManager.process_screaming_frog_csv plain_engine csv_file
                     (Returned Scenario.empty_batch) crawl_id now self in
          fst r = Returned 0
          /\ forall t, Observe.live_columns (snd r) t = Observe.live_columns self t).
Proof.
  split; [vm_compute; reflexivity|].
  split; [vm_compute; repeat split; reflexivity|].
  intros Hall.
  destruct (Hall "out/Internal All.csv" 1 Scenario.today Scenario.fresh_manager) as [Hr _].
  vm_compute in Hr. discriminate Hr.
Qed.

(** ** Retention cleanup (C2) *)

(** C2, evaluated.  With crawl records dated 400, 40 and 10 days ago,
    [cleanup_old_records 30] returns normally and logs the run as completed,
    yet deletes nothing: the two records older than the cutoff and their
    result rows are all still there. *)
Theorem cleanup_deletes_nothing :
  let cutoff := Scenario.today - DatabaseManager.days 30 in
  let r := @DatabaseManager.cleanup_old_records plain_engine 30 Scenario.today
             Scenario.manager in
  Observe.live_older_than cutoff Scenario.manager "crawl_metadata" = [true; true; false]
  /\ fst r = Returned tt
  /\ Observe.live_rows (snd r) "crawl_metadata"
     = Observe.live_rows Scenario.manager "crawl_metadata"
  /\ Observe.stored_rows (snd r) "crawl_metadata"
     = Observe.live_rows Scenario.manager "crawl_metadata"
  /\ Observe.live_rows (snd r) "crawl_results"
     = Observe.live_rows Scenario.manager "crawl_results"
  /\ Observe.stored_column (snd r) "maintenance_log" "status"
     = [Some (PyStr "completed")]
  /\ Observe.journal_since (Observe.journal_length Scenario.manager) (snd r)
     = [(Sqlite.Begin, true);
        (Sqlite.InsertInto "maintenance_log"
           [("operation", PyStr "cleanup");
            ("details", PyStr "Removing records older than 30 days");
            ("started_at", PyTimestamp Scenario.today);
            ("status", PyStr "in_progress")], true);
        (Sqlite.UpdateWhereId "maintenance_log"
           [("status", PyStr "completed");
            ("completed_at", PyTimestamp Scenario.today)] 1, true)].
Proof. vm_compute. repeat split; reflexivity. Qed.

(** Even with the cache loaded by hand the records stay: the first DELETE
    goes to [crawl_results], which has no [crawl_date] column, the engine
    refuses it and the whole run is rolled back. *)
Lemma cleanup_with_cache_rolls_back :
  let r := @DatabaseManager.cleanup_old_records plain_engine 30 Scenario.today
             Scenario.manager_with_cache in
  fst r = Returned tt
  /\ Observe.stored_rows (snd r) "crawl_metadata"
     = Observe.live_rows Scenario.manager "crawl_metadata"
  /\ Observe.stored_rows (snd r) "crawl_results"
     = Observe.live_rows Scenario.manager "crawl_results"
  /\ List.filter (fun e => negb (snd e))
       (Observe.journal_since (Observe.journal_length Scenario.manager_with_cache) (snd r))
     = [(Sqlite.DeleteWhereCrawlDateBefore "crawl_results"
           (Scenario.today - DatabaseManager.days 30), false)].
Proof. vm_compute. repeat split; reflexivity. Qed.

(** Without the [maintenance_log] table, which only [_create_base_tables]
    creates, the run does not get as far as the DELETE loop: the log INSERT
    raises and the handler reads the local [log_id], which was never
    bound.  The records stay in this case too. *)
Lemma cleanup_without_log_table :
  let self := DatabaseManager.State "screaming_frog_results.db"
                (DatabaseManager.Open Scenario.ledger) ∅ in
  let r := @DatabaseManager.cleanup_old_records plain_engine 30 Scenario.today self in
  fst r = Raised (UnboundLocalError "log_id")
  /\ Observe.stored_rows (snd r) "crawl_metadata" = Observe.live_rows self "crawl_metadata".
Proof. vm_compute. split; reflexivity. Qed.

(** ** A failed optimization leaves no trace *)

Section OptimizeFails.

Context `{SqlEngine}.
Import Sqlite DatabaseManager.

Lemma row_id_below_next (rows : list row) (r : row) :
  In r rows -> row_id r < next_rowid rows.
Proof.
  unfold next_rowid. induction rows as [|x rows IH]; [intros []|].
  rewrite fmap_cons. cbn [fold_right].
  intros [->|Hin]; [lia|]. specialize (IH Hin). lia.
Qed.

(** An UPDATE by the id the next INSERT would take rewrites no row. *)
Lemma update_fresh_id (fields : list (string * pyval)) (rows : list row) :
  (fun r => if row_id r =? next_rowid rows then set_fields fields r else r) <$> rows = rows.
Proof.
  assert (Hall : forall r, In r rows -> (row_id r =? next_rowid rows) = false).
  { intros r Hin. apply Z.eqb_neq. pose proof (row_id_below_next rows r Hin). lia. }
  revert Hall. generalize (next_rowid rows). intros k.
  induction rows as [|x rows IH]; intros Hk; [reflexivity|].
  rewrite fmap_cons, (Hk x (or_introl eq_refl)). f_equal.
  apply IH. intros r Hr. apply Hk. now right.
Qed.

Lemma cursor_open {A} (m : M connection A) (p : string) (c : connection)
    (sch : gmap string string) :
  cursor m (State p (Open c) sch) = (fst (m c), State p (Open (snd (m c))) sch).
Proof. unfold cursor. simpl. now destruct (m c). Qed.

Lemma execute_returned (q : stmt) (c c' : connection) (u : unit) :
  execute q c = (Returned u, c') ->
  exists c0, effect q c = Returned c0 /\ c' = record q true c0.
Proof. unfold execute. destruct (effect q c) as [c0|e]; intros [= <-]; eauto. Qed.

Lemma execute_raised (q : stmt) (c c' : connection) (e : exn) :
  execute q c = (Raised e, c') -> c' = record q false c.
Proof. unfold execute. destruct (effect q c) as [c0|e0]; now intros [= <-]. Qed.

Lemma execute_begin_idle (c : connection) :
  in_txn c = false ->
  execute Begin c
  = (Returned tt,
     record Begin true (Connection (committed c) (pending c) true (lastrowid c) (rowcount c)
                                   (journal c))).
Proof. intros Hi. unfold execute. simpl. now rewrite Hi. Qed.

Lemma execute_vacuum_in_txn (c : connection) :
  in_txn c = true ->
  execute Vacuum c
  = (Raised (OperationalError "cannot VACUUM from within a transaction"),
     record Vacuum false c).
Proof. intros Hi. unfold execute. simpl. now rewrite Hi. Qed.

Lemma set_fields_other (fields : list (string * pyval)) (r : row) (k : string) :
  ~ In k (fields.*1) -> set_fields fields r !! k = r !! k.
Proof.
  unfold set_fields. revert r. induction fields as [|[k' v] fields IH]; intros r Hk.
  - reflexivity.
  - cbn [fold_left]. rewrite IH.
    + apply lookup_insert_ne. intros ->. apply Hk. now left.
    + intros Hin. apply Hk. now right.
Qed.

(** What a log INSERT that the engine accepts does. *)
Lemma log_insert_effect (fields : list (string * pyval)) (c c' : connection) :
  set_fields fields (∅ : row) !! "id" = None ->
  effect (InsertInto "maintenance_log" fields) c = Returned c' ->
  exists tb, pending c !! "maintenance_log" = Some tb
             /\ committed c' = committed c
             /\ in_txn c' = true
             /\ lastrowid c' = next_rowid (t_rows tb).
Proof.
  intros Hid. simpl. destruct (pending c !! "maintenance_log") as [tb|]; [|discriminate].
  destruct (unknown_column tb fields); [discriminate|].
  unfold rowid_for. rewrite Hid. intros [= <-]. now exists tb.
Qed.

(** What the closing UPDATE does on a connection that was just rolled
    back, when the id is the one the rolled-back INSERT had taken. *)
Lemma log_update_after_rollback (fields : list (string * pyval)) (c c' : connection)
    (tb : table) :
  pending c !! "maintenance_log" = Some tb ->
  effect (UpdateWhereId "maintenance_log" fields (next_rowid (t_rows tb))) c = Returned c' ->
  pending c' = pending c /\ committed c' = committed c.
Proof.
  intros Ht. simpl. rewrite Ht. destruct (unknown_column _ _); [discriminate|].
  intros [= <-]. simpl. rewrite update_fresh_id. destruct tb as [cols rows]. simpl.
  split; [now apply insert_id | reflexivity].
Qed.

(** [optimize_database] on an idle connection persists nothing, whatever
    the database holds: the committed store is the one it started from, log
    table included. *)
Lemma optimize_database_persists_nothing (p : string) (sch : gmap string string)
    (c : connection) (now : Z) :
  in_txn c = false -> pending c = committed c ->
  exists c', conn (snd (optimize_database now (State p (Open c) sch))) = Open c'
             /\ committed c' = committed c /\ pending c' = committed c.
Proof.
  intros Hidle Hclean.
  unfold optimize_database, try_bind, log_start, bind.
  rewrite cursor_open, (execute_begin_idle c Hidle). cbn [fst snd].
  set (cb := record Begin true _).
  rewrite cursor_open.
  set (ins := InsertInto "maintenance_log" _).
  destruct (execute ins cb) as [[[]|e] ci] eqn:Hi; cbn [fst snd].
  - (* the entry is inserted; VACUUM is refused inside the transaction *)
    destruct (execute_returned _ _ _ _ Hi) as (c0 & Hi0 & ->).
    assert (Hlog : exists tb, pending cb !! "maintenance_log" = Some tb
                              /\ committed c0 = committed cb /\ in_txn c0 = true
                              /\ lastrowid c0 = next_rowid (t_rows tb)).
    { unfold ins in Hi0. eapply log_insert_effect; [|exact Hi0].
      apply set_fields_other. simpl. intuition discriminate. }
    destruct Hlog as (tb & Htb & Hcom & Htxn & Hlast).
    rewrite cursor_open. cbn [gets fst snd].
    unfold try_except, bind.
    rewrite cursor_open, (execute_vacuum_in_txn (record ins true c0) Htxn). cbn [fst snd].
    unfold maintenance_failed, bind. rewrite cursor_open. cbn [rollback modify fst snd].
    set (cr := Connection _ _ false _ _ _).
    assert (Hcr : committed cr = committed c) by exact Hcom.
    assert (Hpr : pending cr = committed c) by exact Hcom.
    change (lastrowid (record ins true c0)) with (lastrowid c0). rewrite Hlast.
    destruct (next_rowid (t_rows tb) =? 0).
    + eexists. split; [reflexivity|]. split; assumption.
    + rewrite cursor_open.
      match goal with
      | |- context [execute ?q cr] =>
          destruct (execute q cr) as [[[]|e] cu] eqn:Hu; cbn [fst snd]
      end.
      * destruct (execute_returned _ _ _ _ Hu) as (cu0 & Hu0 & ->).
        rewrite cursor_open. cbn [commit modify fst snd].
        eexists. split; [reflexivity|]. cbn [committed pending record].
        assert (Hp : pending cu0 = pending cr).
        { eapply log_update_after_rollback; [|exact Hu0].
          rewrite Hpr, <- Hclean. exact Htb. }
        rewrite Hp, Hpr. split; reflexivity.
      * rewrite (execute_raised _ _ _ _ Hu).
        eexists. split; [reflexivity|]. split; assumption.
  - (* the INSERT is refused: the handler finds [log_id] unbound *)
    rewrite (execute_raised _ _ _ _ Hi).
    unfold maintenance_failed, bind. rewrite cursor_open. cbn [rollback modify fst snd].
    eexists. split; [reflexivity|]. split; reflexivity.
Qed.

End OptimizeFails.

(** ** Failing maintenance (C5) *)

(** C5, evaluated.  [optimize_database] inserts its log entry inside the
    transaction it opened, VACUUM is refused inside a transaction, and the
    handler rolls back before it marks the entry failed: the UPDATE finds
    no row, and the entry of the attempt is in neither the live nor the
    committed [maintenance_log]. *)
Theorem optimize_failure_loses_log_entry :
  let r := @DatabaseManager.optimize_database plain_engine Scenario.today
             Scenario.manager in
  Observe.live_columns Scenario.manager "maintenance_log"
  = Some ["id"; "operation"; "details"; "started_at"; "completed_at"; "status";
          "error_message"]
  /\ fst r = Returned tt
  /\ Observe.journal_since (Observe.journal_length Scenario.manager) (snd r)
     = [(Sqlite.Begin, true);
        (Sqlite.InsertInto "maintenance_log"
           [("operation", PyStr "optimize");
            ("details", PyStr "Regular database optimization");
            ("started_at", PyTimestamp Scenario.today);
            ("status", PyStr "in_progress")], true);
        (Sqlite.Vacuum, false);
        (Sqlite.UpdateWhereId "maintenance_log"
           [("status", PyStr "failed");
            ("error_message",
             PyStr "Database optimization failed: cannot VACUUM from within a transaction");
            ("completed_at", PyTimestamp Scenario.today)] 1, true)]
  /\ Observe.live_rows (snd r) "maintenance_log" = []
  /\ Observe.stored_rows (snd r) "maintenance_log" = [].
Proof. vm_compute. repeat split; reflexivity. Qed.

(** The same loss in [cleanup_old_records], when a DELETE is refused. *)
Lemma cleanup_failure_loses_log_entry :
  let r := @DatabaseManager.cleanup_old_records plain_engine 30 Scenario.today
             Scenario.manager_with_cache in
  fst r = Returned tt
  /\ Observe.live_rows (snd r) "maintenance_log" = []
  /\ Observe.stored_rows (snd r) "maintenance_log" = [].
Proof. vm_compute. repeat split; reflexivity. Qed.

(** Without the [maintenance_log] table, which only [_create_base_tables]
    creates, the log INSERT itself raises; the handler then reads the local
    [log_id], which was never bound. *)
Lemma optimize_without_log_table :
  fst (@DatabaseManager.optimize_database plain_engine Scenario.today
         Scenario.fresh_manager)
  = Raised (UnboundLocalError "log_id").
Proof. reflexivity. Qed.

(** ** Closing a crawl record (C3) *)

Section CrawlLedger.

Context `{SqlEngine}.
Import Sqlite ScreamingFrogWrapper.

Lemma unknown_column_none (tb : table) (fields : list (string * pyval)) :
  forallb (has_column tb) (fields.*1) = true -> unknown_column tb fields = None.
Proof.
  unfold unknown_column. induction (fields.*1) as [|n l IH]; simpl; [reflexivity|].
  intros [-> Hl]%andb_prop. simpl. now apply IH.
Qed.

(** An UPDATE by id that names known columns rewrites exactly the rows
    with that id. *)
Lemma update_rows (fields : list (string * pyval)) (id : Z) (tb : table) (c : connection) :
  pending c !! "crawl_metadata" = Some tb ->
  forallb (has_column tb) ("id" :: fields.*1) = true ->
  exists c',
    execute (UpdateWhereId "crawl_metadata" fields id) c = (Returned tt, c')
    /\ pending c' !! "crawl_metadata"
       = Some (Table (t_columns tb) (close_row fields id <$> t_rows tb))
    /\ committed c' = committed c.
Proof.
  intros Ht Hcols. unfold execute. simpl. rewrite Ht.
  rewrite (unknown_column_none tb (("id", PyInt id) :: fields) Hcols).
  eexists. split; [reflexivity|]. simpl. rewrite lookup_insert_eq. split; reflexivity.
Qed.

Lemma set_fields_cons (k : string) (v : pyval) (fields : list (string * pyval)) (r : row) :
  set_fields ((k, v) :: fields) r = set_fields fields (<[k := v]> r).
Proof. reflexivity. Qed.

End CrawlLedger.

(** C3, as amended.  A completion or a failure recorded for a crawl id
    rewrites every record with that id, in whatever state the record is:
    status and elapsed time take the values of the call (and the error
    detail, for a failure), every other field of the record keeps its
    value, and records with another id are untouched.  The statements test
    the id only, never the current status. *)
Theorem close_overwrites_record `{SqlEngine} (c : Sqlite.connection) (tb : table)
    (crawl_id elapsed : Z) (error_msg : string) :
  Sqlite.pending c !! "crawl_metadata" = Some tb ->
  ScreamingFrogWrapper.has_close_columns tb = true ->
  crawl_id <> 0 ->
  let completed := snd (ScreamingFrogWrapper.record_crawl_completed crawl_id elapsed c) in
  let failed := snd (ScreamingFrogWrapper._update_crawl_failure
                       (Some crawl_id) error_msg elapsed c) in
  Sqlite.pending completed !! "crawl_metadata"
  = Some (Table (t_columns tb)
            ((fun r => if Sqlite.row_id r =? crawl_id
                       then <["completion_time" := PyInt elapsed]>
                              (<["crawl_status" := PyStr "completed"]> r)
                       else r) <$> t_rows tb))
  /\ Sqlite.pending failed !! "crawl_metadata"
     = Some (Table (t_columns tb)
               ((fun r => if Sqlite.row_id r =? crawl_id
                          then <["error_message" := PyStr error_msg]>
                                 (<["completion_time" := PyInt elapsed]>
                                    (<["crawl_status" := PyStr "failed"]> r))
                          else r) <$> t_rows tb)).
Proof.
  intros Ht Hcols Hid completed failed.
  unfold ScreamingFrogWrapper.has_close_columns in Hcols. simpl in Hcols.
  apply andb_prop in Hcols as [Hc1 Hcols]. apply andb_prop in Hcols as [Hc2 Hcols].
  apply andb_prop in Hcols as [Hc3 Hcols]. apply andb_prop in Hcols as [Hc4 _].
  split.
  - unfold completed, ScreamingFrogWrapper.record_crawl_completed, bind.
    destruct (update_rows [("crawl_status", PyStr "completed");
                           ("completion_time", PyInt elapsed)] crawl_id tb c Ht)
      as (c' & -> & Hp & _).
    { simpl. now rewrite Hc1, Hc2, Hc3. }
    simpl. exact Hp.
  - unfold failed, ScreamingFrogWrapper._update_crawl_failure.
    destruct (Z.eqb_spec crawl_id 0) as [|_]; [contradiction|].
    unfold try_except, bind.
    destruct (update_rows [("crawl_status", PyStr "failed");
                           ("completion_time", PyInt elapsed);
                           ("error_message", PyStr error_msg)] crawl_id tb c Ht)
      as (c' & -> & Hp & _).
    { simpl. now rewrite Hc1, Hc2, Hc3, Hc4. }
    simpl. exact Hp.
Qed.

Lemma close_overwrites_record_witness :
  let tb := ScreamingFrogWrapper.one_completed_record in
  let c := Sqlite.fresh_connection (<["crawl_metadata" := tb]> ∅) in
  Sqlite.pending c !! "crawl_metadata" = Some tb
  /\ ScreamingFrogWrapper.has_close_columns tb = true
  /\ 1 <> 0
  /\ Sqlite.pending (snd (@ScreamingFrogWrapper.record_crawl_completed plain_engine 1 7 c))
       !! "crawl_metadata"
     = Some (Table (t_columns tb)
               ((fun r => if Sqlite.row_id r =? 1
                          then <["completion_time" := PyInt 7]>
                                 (<["crawl_status" := PyStr "completed"]> r)
                          else r) <$> t_rows tb))
  /\ Sqlite.pending (snd (@ScreamingFrogWrapper._update_crawl_failure plain_engine
                            (Some 1) "boom" 7 c))
       !! "crawl_metadata"
     = Some (Table (t_columns tb)
               ((fun r => if Sqlite.row_id r =? 1
                          then <["error_message" := PyStr "boom"]>
                                 (<["completion_time" := PyInt 7]>
                                    (<["crawl_status" := PyStr "failed"]> r))
                          else r) <$> t_rows tb)).
Proof.
  intros tb c.
  assert (Ht : Sqlite.pending c !! "crawl_metadata" = Some tb) by apply lookup_insert_eq.
  assert (Hc : ScreamingFrogWrapper.has_close_columns tb = true) by reflexivity.
  assert (Hn : 1 <> 0) by discriminate.
  split; [exact Ht|]. split; [exact Hc|]. split; [exact Hn|].
  exact (@close_overwrites_record plain_engine c tb 1 7 "boom" Ht Hc Hn).
Defined.

(** C3 as stated fails: a failure recorded for a crawl that is already
    completed changes its record, and so does a second completion with
    another elapsed time. *)
Lemma second_close_changes_record :
  forallb ScreamingFrogWrapper.terminal
    (ScreamingFrogWrapper.crawl_records ScreamingFrogWrapper.closed_ledger 1) = true
  /\ Observe.field "crawl_status"
       <$> ScreamingFrogWrapper.crawl_records ScreamingFrogWrapper.closed_ledger 1
     = [Some (PyStr "completed")]
  /\ Observe.field "crawl_status"
       <$> ScreamingFrogWrapper.crawl_records
             (snd (@ScreamingFrogWrapper._update_crawl_failure plain_engine (Some 1) "boom" 9
                     ScreamingFrogWrapper.closed_ledger)) 1
     = [Some (PyStr "failed")]
  /\ Observe.field "completion_time"
       <$> ScreamingFrogWrapper.crawl_records
             (snd (@ScreamingFrogWrapper.record_crawl_completed plain_engine 1 7
                     ScreamingFrogWrapper.closed_ledger)) 1
     = [Some (PyInt 7)]
  /\ ~ (forall (c : Sqlite.connection) (crawl_id elapsed : Z) (error_msg : string),
          forallb ScreamingFrogWrapper.terminal
            (ScreamingFrogWrapper.crawl_records c crawl_id) = true ->
          ScreamingFrogWrapper.crawl_records
            (snd (@ScreamingFrogWrapper._update_crawl_failure plain_engine
                    (Some crawl_id) error_msg elapsed c)) crawl_id
          = ScreamingFrogWrapper.crawl_records c crawl_id).
Proof.
  do 4 (split; [vm_compute; reflexivity|]).
  intros Hall.
  specialize (Hall ScreamingFrogWrapper.closed_ledger 1 9 "boom" ltac:(vm_compute; reflexivity)).
  apply (f_equal (fmap (Observe.field "crawl_status"))) in Hall.
  vm_compute in Hall. discriminate Hall.
Qed.

(** * The engine raises only sqlite3 errors *)

Section EngineErrors.

Context `{SqlEngine}.
Import Sqlite.

Lemma add_column_error (def : string) (tb : table) (e : exn) :
  add_column def tb = Raised e -> is_operational_error e = true.
Proof.
  unfold add_column. destruct (sql_rejects def); [now intros [= <-]|].
  destruct (PyStr.first_word def) as [n|]; [|now intros [= <-]].
  destruct (has_column tb n); [now intros [= <-]|discriminate].
Qed.

Lemma add_columns_error (defs : list string) (tb : table) (e : exn) :
  add_columns defs tb = Raised e -> is_operational_error e = true.
Proof.
  revert tb. induction defs as [|d defs IH]; intros tb; simpl; [discriminate|].
  destruct (add_column d tb) as [tb'|e'] eqn:Hd.
  - apply IH.
  - intros [= <-]. exact (add_column_error _ _ _ Hd).
Qed.

Lemma operational_is_sqlite (e : exn) : is_operational_error e = true -> is_sqlite_error e = true.
Proof. now destruct e. Qed.

Lemma effect_error_is_sqlite (q : stmt) (c : connection) (e : exn) :
  effect q c = Raised e -> is_sqlite_error e = true.
Proof.
  destruct q as [| t | | ine t defs | t def | t fields | t fields id | t cutoff | | | ]; simpl;
    try discriminate.
  - destruct (in_txn c); [now intros [= <-]|discriminate].
  - destruct (pending c !! t).
    + destruct ine; [discriminate|now intros [= <-]].
    + destruct (add_columns defs (Table [] [])) eqn:Hd; [discriminate|].
      intros [= <-]. apply operational_is_sqlite. exact (add_columns_error _ _ _ Hd).
  - destruct (pending c !! t) as [tb|]; [|now intros [= <-]].
    destruct (add_column def tb) eqn:Hd; [discriminate|].
    intros [= <-]. apply operational_is_sqlite. exact (add_column_error _ _ _ Hd).
  - destruct (pending c !! t) as [tb|]; [|now intros [= <-]].
    destruct (unknown_column tb fields); [now intros [= <-]|].
    unfold rowid_for. destruct (set_fields fields ∅ !! "id") as [[]|]; try discriminate.
    destruct (existsb _ _); [now intros [= <-]|discriminate].
  - destruct (pending c !! t) as [tb|]; [|now intros [= <-]].
    destruct (unknown_column tb _); [now intros [= <-]|discriminate].
  - destruct (pending c !! t) as [tb|]; [|now intros [= <-]].
    destruct (has_column tb "crawl_date"); [discriminate|now intros [= <-]].
  - destruct (in_txn c); [now intros [= <-]|discriminate].
Qed.

Lemma execute_error_is_sqlite (q : stmt) (c : connection) (e : exn) :
  fst (execute q c) = Raised e -> is_sqlite_error e = true.
Proof.
  unfold execute. destruct (effect q c) eqn:Hq; simpl; [discriminate|].
  intros [= <-]. exact (effect_error_is_sqlite _ _ _ Hq).
Qed.

End EngineErrors.

(** * Recording the end of a failed crawl *)

Section CrawlFailure.

Context `{SqlEngine}.
Import Sqlite ScreamingFrogWrapper.

Lemma update_crawl_failure_returns (crawl_id : option Z) (error_msg : string)
    (completion_time : Z) (c : connection) :
  fst (_update_crawl_failure crawl_id error_msg completion_time c) = Returned tt.
Proof.
  unfold _update_crawl_failure.
  destruct crawl_id as [id|]; [|reflexivity].
  destruct (id =? 0); [reflexivity|].
  unfold try_except, bind.
  match goal with |- context [execute ?q c] =>
    pose proof (execute_error_is_sqlite q c) as He; destruct (execute q c) as [[[]|e] c']
  end; simpl in *; [reflexivity|].
  now rewrite (He e eq_refl).
Qed.

Lemma crawl_failed_raises (env : CrawlRun.crawl_env) (crawl_id : option Z)
    (e : CrawlRun.crawl_exn) (c : connection) :
  CrawlRun.crawl_failed env crawl_id e c
  = (CrawlRun.Failed e,
     snd (_update_crawl_failure crawl_id (CrawlRun.failure_message env e)
            (CrawlRun.failed_after env) c)).
Proof.
  unfold CrawlRun.crawl_failed.
  pose proof (update_crawl_failure_returns crawl_id (CrawlRun.failure_message env e)
                (CrawlRun.failed_after env) c) as Hr.
  destruct (_update_crawl_failure _ _ _ c) as [[[]|e'] c']; simpl in *;
    [reflexivity|discriminate].
Qed.

End CrawlFailure.


(** * Recording the start of a crawl *)

Section CrawlStart.

Context `{SqlEngine}.
Import Sqlite ScreamingFrogWrapper.

Lemma not_in_keys (k : string) (keys : list string) :
  forallb (fun k' => negb (String.eqb k k')) keys = true -> ~ In k keys.
Proof.
  induction keys as [|k' keys IH]; simpl; [tauto|].
  intros [Hk Hr]%andb_prop [->|Hin]; [|now apply IH].
  now rewrite String.eqb_refl in Hk.
Qed.

Lemma row_id_set_fields (fields : list (string * pyval)) (r : row) :
  forallb (fun k' => negb (String.eqb "id" k')) (fields.*1) = true ->
  row_id (set_fields fields r) = row_id r.
Proof.
  intros Hk. unfold row_id. now rewrite set_fields_other; [|apply not_in_keys].
Qed.

Lemma row_id_close_row (fields : list (string * pyval)) (id : Z) (r : row) :
  forallb (fun k' => negb (String.eqb "id" k')) (fields.*1) = true ->
  row_id (close_row fields id r) = row_id r.
Proof.
  intros Hk. unfold close_row. destruct (row_id r =? id); [|reflexivity].
  now apply row_id_set_fields.
Qed.

Lemma record_crawl_start_spec (url : string) (config_file : option string)
    (cmd_str : string) (now : Z) (c : connection) (tb : table) :
  pending c !! "crawl_metadata" = Some tb ->
  CrawlRun.has_start_columns tb = true ->
  let id := next_rowid (t_rows tb) in
  exists c1,
    record_crawl_start url config_file cmd_str now c = (Returned id, c1)
    /\ pending c1
       = <["crawl_metadata" :=
             Table (t_columns tb)
                   (t_rows tb ++ [CrawlRun.started_row url config_file cmd_str now id])]> (pending c)
    /\ committed c1 = pending c1
    /\ in_txn c1 = false.
Proof.
  intros Ht Hcols id. unfold record_crawl_start, bind, execute. simpl effect. rewrite Ht.
  rewrite unknown_column_none by exact Hcols.
  unfold rowid_for. rewrite set_fields_other by (apply not_in_keys; reflexivity).
  rewrite lookup_empty. eexists. split; [reflexivity|]. simpl. auto.
Qed.

End CrawlStart.

(** X3.  Recording the start of a crawl, on a ledger table that has the
    columns the INSERT names: the call returns an id no earlier record
    carries, appends one record with that id, the URL, the requested
    configuration (or default) and status started after the records that
    were there, leaves every other table as it was, and commits. *)
Theorem record_crawl_start_appends `{SqlEngine} (url : string) (config_file : option string)
    (cmd_str : string) (now : Z) (c : Sqlite.connection) (tb : table) :
  Sqlite.pending c !! "crawl_metadata" = Some tb ->
  CrawlRun.has_start_columns tb = true ->
  let r := ScreamingFrogWrapper.record_crawl_start url config_file cmd_str now c in
  exists id new_row,
    fst r = Returned id
    /\ Forall (fun old => Sqlite.row_id old <> id) (t_rows tb)
    /\ Sqlite.pending (snd r) !! "crawl_metadata"
       = Some (Table (t_columns tb) (t_rows tb ++ [new_row]))
    /\ Sqlite.row_id new_row = id
    /\ Observe.field "url" new_row = Some (PyStr url)
    /\ Observe.field "config_used" new_row = Some (PyStr (default "default" config_file))
    /\ Observe.field "crawl_status" new_row = Some (PyStr "started")
    /\ (forall t, t <> "crawl_metadata" ->
                  Sqlite.pending (snd r) !! t = Sqlite.pending c !! t)
    /\ Sqlite.committed (snd r) = Sqlite.pending (snd r).
Proof.
  intros Ht Hcols r.
  destruct (record_crawl_start_spec url config_file cmd_str now c tb Ht Hcols)
    as (c1 & Hr & Hp & Hc & _).
  unfold r. rewrite Hr. simpl.
  exists (Sqlite.next_rowid (t_rows tb)),
         (CrawlRun.started_row url config_file cmd_str now (Sqlite.next_rowid (t_rows tb))).
  split; [reflexivity|]. split.
  { apply Forall_forall. intros old Hin%list_elem_of_In.
    pose proof (row_id_below_next _ _ Hin). lia. }
  rewrite Hp, lookup_insert_eq. split; [reflexivity|].
  split; [unfold Sqlite.row_id, CrawlRun.started_row; now rewrite lookup_insert_eq|].
  split; [reflexivity|]. split; [reflexivity|]. split; [reflexivity|].
  split; [|rewrite Hc, Hp; reflexivity].
  intros t Hne. now rewrite lookup_insert_ne.
Qed.

Lemma record_crawl_start_appends_witness :
  let tb := ScreamingFrogWrapper.one_completed_record in
  let c := Sqlite.fresh_connection (<["crawl_metadata" := tb]> ∅) in
  Sqlite.pending c !! "crawl_metadata" = Some tb
  /\ CrawlRun.has_start_columns tb = true
  /\ exists id new_row,
       fst (@ScreamingFrogWrapper.record_crawl_start plain_engine "http://b.example" None
              "cli" 2000 c) = Returned id
       /\ Forall (fun old => Sqlite.row_id old <> id) (t_rows tb)
       /\ Sqlite.pending (snd (@ScreamingFrogWrapper.record_crawl_start plain_engine
                                 "http://b.example" None "cli" 2000 c)) !! "crawl_metadata"
          = Some (Table (t_columns tb) (t_rows tb ++ [new_row]))
       /\ Sqlite.row_id new_row = id
       /\ Observe.field "url" new_row = Some (PyStr "http://b.example")
       /\ Observe.field "config_used" new_row = Some (PyStr (default "default" None))
       /\ Observe.field "crawl_status" new_row = Some (PyStr "started")
       /\ (forall t, t <> "crawl_metadata" ->
                     Sqlite.pending (snd (@ScreamingFrogWrapper.record_crawl_start plain_engine
                                            "http://b.example" None "cli" 2000 c)) !! t
                     = Sqlite.pending c !! t)
       /\ Sqlite.committed (snd (@ScreamingFrogWrapper.record_crawl_start plain_engine
                                   "http://b.example" None "cli" 2000 c))
          = Sqlite.pending (snd (@ScreamingFrogWrapper.record_crawl_start plain_engine
                                   "http://b.example" None "cli" 2000 c)).
Proof.
  intros tb c.
  assert (Ht : Sqlite.pending c !! "crawl_metadata" = Some tb) by apply lookup_insert_eq.
  assert (Hc : CrawlRun.has_start_columns tb = true) by reflexivity.
  split; [exact Ht|]. split; [exact Hc|].
  exact (@record_crawl_start_appends plain_engine "http://b.example" None "cli" 2000 c tb
           Ht Hc).
Defined.

(** * A crawl from start to end *)

Section CrawlRunFacts.

Context `{SqlEngine}.
Import Sqlite.

Lemma process_path_raises (crawl_id : Z) (p : string) (read : outcome DataFrame)
    (rest : list (CrawlRun.pyfile * outcome DataFrame)) (c : connection) :
  CrawlRun.process_crawl_results crawl_id ((CrawlRun.FilePath p, read) :: rest) c
  = (Raised (AttributeError "Path object has no attribute 'endswith'"), c).
Proof. reflexivity. Qed.

Lemma run_crawl_raises (env : CrawlRun.crawl_env) (url : string)
    (config_file : option string) (c : connection) :
  exists e, fst (CrawlRun.run_crawl env url config_file c) = CrawlRun.Failed e.
Proof.
  unfold CrawlRun.run_crawl.
  destruct (CrawlRun.build_crawl_command env url config_file c) as [cmd|e];
    [|rewrite crawl_failed_raises; eauto].
  destruct (ScreamingFrogWrapper.record_crawl_start _ _ _ _ c) as [[crawl_id|e] c1];
    [|rewrite crawl_failed_raises; eauto].
  destruct (CrawlRun.process_raises env) as [e|]; [rewrite crawl_failed_raises; eauto|].
  destruct (CrawlRun.found_files env) as [|[p read] files];
    [rewrite crawl_failed_raises; eauto|].
  rewrite fmap_cons, process_path_raises, crawl_failed_raises. eauto.
Qed.

Lemma build_crawl_command_done (env : CrawlRun.crawl_env) (url : string)
    (config_file : option string) (c : connection) (cli : string) :
  CrawlRun.truthy (CrawlRun.which_cli env) = Some cli ->
  exists rest, CrawlRun.build_crawl_command env url config_file c = CrawlRun.Done (cli :: rest).
Proof.
  intros Hcli. unfold CrawlRun.build_crawl_command. rewrite Hcli.
  destruct (CrawlRun.truthy config_file); [destruct (CrawlRun.config_exists env)|];
    unfold CrawlRun.config_command, CrawlRun.default_command; eauto.
Qed.

Lemma run_crawl_started (env : CrawlRun.crawl_env) (url : string)
    (config_file : option string) (c c1 : connection) (cmd : list string) (crawl_id : Z) :
  CrawlRun.build_crawl_command env url config_file c = CrawlRun.Done cmd ->
  ScreamingFrogWrapper.record_crawl_start url (CrawlRun.truthy config_file)
    (PyStr.join " " cmd) (CrawlRun.started_at env) c = (Returned crawl_id, c1) ->
  CrawlRun.run_crawl env url config_file c
  = CrawlRun.crawl_failed env (Some crawl_id) (CrawlRun.crawl_error env) c1.
Proof.
  intros Hcmd Hstart. unfold CrawlRun.run_crawl, CrawlRun.crawl_error.
  rewrite Hcmd, Hstart.
  destruct (CrawlRun.process_raises env) as [e|]; [reflexivity|].
  destruct (CrawlRun.found_files env) as [|[p read] files]; [reflexivity|].
  now rewrite fmap_cons, process_path_raises, !crawl_failed_raises.
Qed.

Lemma next_rowid_pos (rows : list row) : 0 < next_rowid rows.
Proof.
  unfold next_rowid. generalize (row_id <$> rows). intros l.
  assert (0 <= fold_right Z.max 0 l) by (induction l; simpl; lia). lia.
Qed.

Lemma filter_fresh_id (rows : list row) :
  List.filter (fun r => row_id r =? next_rowid rows) rows = [].
Proof.
  assert (Hall : forall r, In r rows -> (row_id r =? next_rowid rows) = false).
  { intros r Hin. apply Z.eqb_neq. pose proof (row_id_below_next rows r Hin). lia. }
  revert Hall. generalize (next_rowid rows). intros k.
  induction rows as [|x rows IH]; intros Hk; [reflexivity|].
  simpl. rewrite (Hk x (or_introl eq_refl)). apply IH. intros r Hr. apply Hk. now right.
Qed.

(** A crawl whose start gets recorded: what is raised and what the ledger
    holds afterwards. *)
Lemma run_crawl_closes_failed (env : CrawlRun.crawl_env) (url : string)
    (config_file : option string) (c : connection) (tb : table) (cli : string) :
  pending c !! "crawl_metadata" = Some tb ->
  CrawlRun.ledger_ready tb = true ->
  CrawlRun.truthy (CrawlRun.which_cli env) = Some cli ->
  exists cmd c',
    CrawlRun.build_crawl_command env url config_file c = CrawlRun.Done cmd
    /\ CrawlRun.run_crawl env url config_file c
       = (CrawlRun.Failed (CrawlRun.crawl_error env), c')
    /\ pending c' !! "crawl_metadata"
       = Some (Table (t_columns tb)
                 (t_rows tb ++
                  [set_fields
                     [("crawl_status", PyStr "failed");
                      ("completion_time", PyInt (CrawlRun.failed_after env));
                      ("error_message",
                       PyStr (CrawlRun.failure_message env (CrawlRun.crawl_error env)))]
                     (CrawlRun.started_row url (CrawlRun.truthy config_file)
                        (PyStr.join " " cmd) (CrawlRun.started_at env)
                        (next_rowid (t_rows tb)))]))
    /\ committed c' = pending c'.
Proof.
  intros Ht [Hs Hc]%andb_prop Hcli.
  destruct (build_crawl_command_done env url config_file c cli Hcli) as (rest & Hcmd).
  destruct (record_crawl_start_spec url (CrawlRun.truthy config_file)
              (PyStr.join " " (cli :: rest)) (CrawlRun.started_at env) c tb Ht Hs)
    as (c1 & Hstart & Hp1 & Hc1 & _).
  exists (cli :: rest).
  rewrite (run_crawl_started env url config_file c c1 _ _ Hcmd Hstart), crawl_failed_raises.
  unfold ScreamingFrogWrapper._update_crawl_failure.
  destruct (Z.eqb_spec (next_rowid (t_rows tb)) 0) as [H0|_];
    [pose proof (next_rowid_pos (t_rows tb)); lia|].
  set (row1 := CrawlRun.started_row _ _ _ _ _) in *.
  assert (Ht1 : pending c1 !! "crawl_metadata"
                = Some (Table (t_columns tb) (t_rows tb ++ [row1]))).
  { rewrite Hp1. apply lookup_insert_eq. }
  unfold try_except, bind.
  match goal with |- context [execute (UpdateWhereId _ ?fields ?id) c1] =>
    destruct (update_rows fields id _ c1 Ht1) as (c2 & -> & Hp2 & _)
  end.
  { exact Hc. }
  eexists. split; [exact Hcmd|]. split; [reflexivity|]. simpl.
  split; [|reflexivity].
  rewrite Hp2. simpl. rewrite fmap_app. unfold ScreamingFrogWrapper.close_row at 1.
  rewrite update_fresh_id. simpl. unfold ScreamingFrogWrapper.close_row.
  assert (Hid : row_id row1 = next_rowid (t_rows tb)).
  { unfold row_id, row1, CrawlRun.started_row. now rewrite lookup_insert_eq. }
  now rewrite Hid, Z.eqb_refl.
Qed.

End CrawlRunFacts.

(** X2.  [run_crawl] never returns normally: whatever the installation,
    the database, the crawler process and the output folder give, the call
    ends by raising.  When the crawler exits with status 0 and has written
    CSV files, what is raised is the AttributeError of [file.endswith] on
    the first [Path] of the glob. *)
Theorem run_crawl_never_returns `{SqlEngine} (env : CrawlRun.crawl_env) (url : string)
    (config_file : option string) (c : Sqlite.connection) :
  (exists e, fst (CrawlRun.run_crawl env url config_file c) = CrawlRun.Failed e)
  /\ forall cmd crawl_id c1,
       CrawlRun.build_crawl_command env url config_file c = CrawlRun.Done cmd ->
       ScreamingFrogWrapper.record_crawl_start url (CrawlRun.truthy config_file)
         (PyStr.join " " cmd) (CrawlRun.started_at env) c = (Returned crawl_id, c1) ->
       CrawlRun.process_raises env = None ->
       CrawlRun.found_files env <> [] ->
       fst (CrawlRun.run_crawl env url config_file c)
       = CrawlRun.Failed
           (CrawlRun.Inner (AttributeError "Path object has no attribute 'endswith'")).
Proof.
  split; [apply run_crawl_raises|].
  intros cmd crawl_id c1 Hcmd Hstart Hproc Hfiles.
  unfold CrawlRun.run_crawl. rewrite Hcmd, Hstart, Hproc.
  destruct (CrawlRun.found_files env) as [|[p read] files]; [contradiction|].
  now rewrite fmap_cons, process_path_raises, crawl_failed_raises.
Qed.

(** X4.  A crawl that finds the command-line tool installed and a ledger
    table with its columns always ends with a failed record: the start is
    recorded under a fresh id after the records that were there, the call
    raises (the error of the crawler process, the missing-output error, or
    the AttributeError of [file.endswith] on a [Path]), and the record with
    that id is left, committed, with status failed, the elapsed time and
    the message built from the error; no record is ever marked completed. *)
Theorem run_crawl_leaves_failed_record `{SqlEngine} (env : CrawlRun.crawl_env)
    (url : string) (config_file : option string) (c : Sqlite.connection) (tb : table)
    (cli : string) :
  Sqlite.pending c !! "crawl_metadata" = Some tb ->
  CrawlRun.ledger_ready tb = true ->
  CrawlRun.truthy (CrawlRun.which_cli env) = Some cli ->
  let r := CrawlRun.run_crawl env url config_file c in
  fst r = CrawlRun.Failed (CrawlRun.crawl_error env)
  /\ Sqlite.committed (snd r) = Sqlite.pending (snd r)
  /\ exists rec,
       Sqlite.pending (snd r) !! "crawl_metadata"
       = Some (Table (t_columns tb) (t_rows tb ++ [rec]))
       /\ ScreamingFrogWrapper.crawl_records (snd r) (Sqlite.next_rowid (t_rows tb)) = [rec]
       /\ Observe.field "url" rec = Some (PyStr url)
       /\ Observe.field "crawl_status" rec = Some (PyStr "failed")
       /\ Observe.field "completion_time" rec = Some (PyInt (CrawlRun.failed_after env))
       /\ Observe.field "error_message" rec
          = Some (PyStr (CrawlRun.failure_message env (CrawlRun.crawl_error env))).
Proof.
  intros Ht Hready Hcli r.
  destruct (run_crawl_closes_failed env url config_file c tb cli Ht Hready Hcli)
    as (cmd & c' & _ & Hr & Hp & Hc).
  unfold r. rewrite Hr. simpl. split; [reflexivity|]. split; [exact Hc|].
  eexists. split; [exact Hp|].
  split.
  { unfold ScreamingFrogWrapper.crawl_records. rewrite Hp. cbn [t_rows].
    rewrite List.filter_app, filter_fresh_id. cbn [List.filter app].
    rewrite row_id_set_fields by reflexivity.
    unfold Sqlite.row_id at 1, CrawlRun.started_row. rewrite lookup_insert_eq.
    now rewrite Z.eqb_refl. }
  unfold Observe.field. rewrite !set_fields_cons. unfold Sqlite.set_fields. simpl.
  split.
  { rewrite !lookup_insert_ne by discriminate. unfold CrawlRun.started_row.
    rewrite lookup_insert_ne by discriminate. reflexivity. }
  split; [now rewrite !lookup_insert_ne, lookup_insert_eq by discriminate|].
  split; [now rewrite lookup_insert_ne, lookup_insert_eq by discriminate|].
  now rewrite lookup_insert_eq.
Qed.

Lemma run_crawl_leaves_failed_record_witness :
  let tb := ScreamingFrogWrapper.one_completed_record in
  let c := Sqlite.fresh_connection (<["crawl_metadata" := tb]> ∅) in
  let env := CrawlRun.good_crawl in
  let r := @CrawlRun.run_crawl plain_engine env "http://b.example" None c in
  Sqlite.pending c !! "crawl_metadata" = Some tb
  /\ CrawlRun.ledger_ready tb = true
  /\ CrawlRun.truthy (CrawlRun.which_cli env) = Some "ScreamingFrogSEOSpiderCli.exe"
  /\ fst r = CrawlRun.Failed (CrawlRun.crawl_error env)
  /\ Sqlite.committed (snd r) = Sqlite.pending (snd r)
  /\ exists rec,
       Sqlite.pending (snd r) !! "crawl_metadata"
       = Some (Table (t_columns tb) (t_rows tb ++ [rec]))
       /\ ScreamingFrogWrapper.crawl_records (snd r) (Sqlite.next_rowid (t_rows tb)) = [rec]
       /\ Observe.field "url" rec = Some (PyStr "http://b.example")
       /\ Observe.field "crawl_status" rec = Some (PyStr "failed")
       /\ Observe.field "completion_time" rec = Some (PyInt (CrawlRun.failed_after env))
       /\ Observe.field "error_message" rec
          = Some (PyStr (CrawlRun.failure_message env (CrawlRun.crawl_error env))).
Proof.
  intros tb c env r.
  assert (Ht : Sqlite.pending c !! "crawl_metadata" = Some tb) by apply lookup_insert_eq.
  assert (Hready : CrawlRun.ledger_ready tb = true) by reflexivity.
  assert (Hcli : CrawlRun.truthy (CrawlRun.which_cli env)
                 = Some "ScreamingFrogSEOSpiderCli.exe") by reflexivity.
  split; [exact Ht|]. split; [exact Hready|]. split; [exact Hcli|].
  exact (@run_crawl_leaves_failed_record plain_engine env "http://b.example" None c tb
           "ScreamingFrogSEOSpiderCli.exe" Ht Hready Hcli).
Defined.

(** * The command line of a crawl *)

(** X5.  [build_crawl_command] raises FileNotFoundError exactly when the
    command-line tool is not found; otherwise the command starts with the
    located tool and, whichever configuration is used, contains the URL
    right after [--crawl] and the output folder right after
    [--output-folder]. *)
Theorem build_crawl_command_shape (env : CrawlRun.crawl_env) (url : string)
    (config_file : option string) (c : Sqlite.connection) :
  match CrawlRun.truthy (CrawlRun.which_cli env) with
  | None =>
      exists msg,
        CrawlRun.build_crawl_command env url config_file c
        = CrawlRun.Failed (CrawlRun.FileNotFoundError msg)
  | Some cli =>
      exists rest,
        CrawlRun.build_crawl_command env url config_file c = CrawlRun.Done (cli :: rest)
        /\ CrawlRun.adjacent "--crawl" url rest
        /\ CrawlRun.adjacent "--output-folder" "output" rest
  end.
Proof.
  unfold CrawlRun.build_crawl_command.
  destruct (CrawlRun.truthy (CrawlRun.which_cli env)) as [cli|]; [|eauto].
  assert (Hdefault : forall tabs,
             exists rest, CrawlRun.default_command cli url tabs = cli :: rest
                          /\ CrawlRun.adjacent "--crawl" url rest
                          /\ CrawlRun.adjacent "--output-folder" "output" rest).
  { intros tabs. eexists. split; [reflexivity|]. split.
    - exists [], ["--headless"; "--save-crawl"; "--create-sitemap"; "--create-images-sitemap";
                  "--use-pagespeed"; "--timestamped-output"; "--output-folder";
                  CrawlRun.output_dir; "--export-tabs"; tabs; "--bulk-export";
                  "All Inlinks,All Outlinks,Response Codes:All"]. reflexivity.
    - exists ["--crawl"; url; "--headless"; "--save-crawl"; "--create-sitemap";
              "--create-images-sitemap"; "--use-pagespeed"; "--timestamped-output"],
             ["--export-tabs"; tabs; "--bulk-export";
              "All Inlinks,All Outlinks,Response Codes:All"]. reflexivity. }
  destruct (CrawlRun.truthy config_file) as [config|]; [|destruct (Hdefault
    (CrawlRun.export_tabs (CrawlRun.get_column_names env c))) as (rest & -> & ?); eauto].
  destruct (CrawlRun.config_exists env);
    [|destruct (Hdefault (CrawlRun.export_tabs (CrawlRun.get_column_names env c)))
        as (rest & -> & ?); eauto].
  eexists. split; [reflexivity|]. split.
  - exists ["--config"; CrawlRun.path_str config], ["--output-folder"; CrawlRun.output_dir].
    reflexivity.
  - exists ["--config"; CrawlRun.path_str config; "--crawl"; url], []. reflexivity.
Qed.

(** X6.  A configuration file that does not exist is ignored: the command
    is the one built when no configuration is asked for. *)
Theorem build_crawl_command_falls_back (env : CrawlRun.crawl_env) (url config : string)
    (c : Sqlite.connection) :
  CrawlRun.config_exists env = false ->
  CrawlRun.build_crawl_command env url (Some config) c
  = CrawlRun.build_crawl_command env url None c.
Proof.
  intros Hmissing. unfold CrawlRun.build_crawl_command.
  destruct (CrawlRun.truthy (CrawlRun.which_cli env)); [|reflexivity].
  destruct (CrawlRun.truthy (Some config)); [|reflexivity].
  now rewrite Hmissing.
Qed.

Lemma build_crawl_command_falls_back_witness :
  CrawlRun.config_exists CrawlRun.good_crawl = false
  /\ CrawlRun.build_crawl_command CrawlRun.good_crawl "http://b.example" (Some "missing.seospiderconfig")
       (Sqlite.fresh_connection ∅)
     = CrawlRun.build_crawl_command CrawlRun.good_crawl "http://b.example" None
         (Sqlite.fresh_connection ∅).
Proof.
  split; [reflexivity|].
  apply (build_crawl_command_falls_back CrawlRun.good_crawl "http://b.example"
           "missing.seospiderconfig" (Sqlite.fresh_connection ∅)).
  reflexivity.
Defined.

(** * Storing the output of a crawl *)

Section CrawlResults.

Context `{SqlEngine}.
Import Sqlite.

Lemma process_str_returns (s : string) (read : outcome DataFrame) (c : connection) :
  fst (CrawlRun.process_one_file (CrawlRun.FileStr s) read c) = Returned tt.
Proof.
  unfold CrawlRun.process_one_file. destruct (PyStr.endswith s ".csv"); [|reflexivity].
  unfold try_except.
  match goal with |- context [match ?m c with _ => _ end] => destruct (m c) as [[[]|e] c'] end;
    reflexivity.
Qed.

Lemma process_crawl_results_outcome (crawl_id : Z)
    (files : list (CrawlRun.pyfile * outcome DataFrame)) (c : connection) :
  fst (CrawlRun.process_crawl_results crawl_id files c)
  = if forallb CrawlRun.is_str files then Returned tt
    else Raised (AttributeError "Path object has no attribute 'endswith'").
Proof.
  revert c. induction files as [|[[s|p] read] files IH]; intros c; [reflexivity| |reflexivity].
  unfold CrawlRun.process_crawl_results. cbn [for_each forallb CrawlRun.is_str andb].
  unfold bind. pose proof (process_str_returns s read c) as Hs.
  destruct (CrawlRun.process_one_file (CrawlRun.FileStr s) read c) as [[[]|e] c'];
    simpl in Hs; [|discriminate].
  apply IH.
Qed.

Lemma find_existsb {A} (f : A -> bool) (l : list A) :
  existsb f l = true -> exists x, List.find f l = Some x.
Proof.
  induction l as [|x l IH]; simpl; [discriminate|].
  destruct (f x); [eauto|exact IH].
Qed.

Lemma unknown_column_foreign (tb : table) (cols : list string) (r : list pyval) :
  length r = length cols ->
  existsb (fun col => negb (has_column tb col)) cols = true ->
  exists n, unknown_column tb (zip cols r) = Some n.
Proof.
  intros Hlen Hf. unfold unknown_column. rewrite fst_zip by lia. now apply find_existsb.
Qed.

(** Appending a frame with a label the table lacks stores nothing. *)
Lemma to_sql_foreign (t : string) (df : DataFrame) (c : connection) (tb : table) :
  pending c !! t = Some tb ->
  pending c = committed c ->
  CrawlRun.rectangular df = true ->
  CrawlRun.foreign tb df = true ->
  pending (snd (Pandas.to_sql t df c)) = pending c
  /\ committed (snd (Pandas.to_sql t df c)) = committed c.
Proof.
  intros Ht Hidle Hrect Hforeign. unfold Pandas.to_sql, bind, gets. rewrite Ht.
  unfold ret, try_except. unfold CrawlRun.rectangular in Hrect.
  destruct (df_rows df) as [|r rows]; [simpl; now rewrite Hidle|].
  simpl in Hrect. apply andb_prop in Hrect as [Hr%Nat.eqb_eq _].
  destruct (unknown_column_foreign tb (df_columns df) r Hr Hforeign) as (n & Hn).
  assert (He : exists e, execute (InsertInto t (zip (df_columns df) r)) c
                         = (Raised e, record (InsertInto t (zip (df_columns df) r)) false c)).
  { unfold execute. cbn [effect]. rewrite Ht, Hn. eauto. }
  destruct He as (e & He). cbn [for_each]. unfold bind. rewrite He. simpl.
  now rewrite Hidle.
Qed.

Lemma process_unstorable (crawl_id : Z) (files : list (CrawlRun.pyfile * outcome DataFrame))
    (c : connection) (tb : table) :
  pending c !! "crawl_results" = Some tb ->
  pending c = committed c ->
  forallb (CrawlRun.unstorable tb) files = true ->
  pending (snd (CrawlRun.process_crawl_results crawl_id files c)) = pending c
  /\ committed (snd (CrawlRun.process_crawl_results crawl_id files c)) = committed c.
Proof.
  revert c. induction files as [|[[s|p] read] files IH]; intros c Ht Hidle Hall;
    [now split| |discriminate].
  simpl in Hall. apply andb_prop in Hall as [Hone Hall].
  unfold CrawlRun.process_crawl_results. cbn [for_each]. unfold bind.
  pose proof (process_str_returns s read c) as Hs.
  assert (Hc : pending (snd (CrawlRun.process_one_file (CrawlRun.FileStr s) read c))
               = pending c
               /\ committed (snd (CrawlRun.process_one_file (CrawlRun.FileStr s) read c))
                  = committed c).
  { unfold CrawlRun.process_one_file. destruct (PyStr.endswith s ".csv"); [|now split].
    destruct read as [df|e]; [|now split].
    apply andb_prop in Hone as [Hrect Hforeign].
    pose proof (to_sql_foreign "crawl_results" df c tb Ht Hidle Hrect Hforeign) as Hto.
    unfold try_except. destruct (Pandas.to_sql "crawl_results" df c) as [[[]|e] c'];
      exact Hto. }
  destruct (CrawlRun.process_one_file (CrawlRun.FileStr s) read c) as [[[]|e] c'];
    simpl in Hs, Hc; [|discriminate].
  destruct Hc as [Hp Hc].
  destruct (IH c') as [Hp' Hc'];
    [now rewrite Hp | now rewrite Hp, Hc | exact Hall |].
  fold (CrawlRun.process_crawl_results crawl_id files c').
  now rewrite Hp', Hc', Hp, Hc.
Qed.

End CrawlResults.

(** X7.  [process_crawl_results] raises exactly when an entry of
    [output_files] is a [Path]: on [str] entries it returns whatever
    [read_csv], pandas and the engine do, and on a list with a [Path] it
    ends with the AttributeError of [file.endswith]. *)
Theorem process_crawl_results_raises_on_path `{SqlEngine} (crawl_id : Z)
    (files : list (CrawlRun.pyfile * outcome DataFrame)) (c : Sqlite.connection) :
  (fst (CrawlRun.process_crawl_results crawl_id files c) = Returned tt
   <-> forallb CrawlRun.is_str files = true)
  /\ (forallb CrawlRun.is_str files = false ->
      fst (CrawlRun.process_crawl_results crawl_id files c)
      = Raised (AttributeError "Path object has no attribute 'endswith'")).
Proof.
  rewrite process_crawl_results_outcome.
  destruct (forallb CrawlRun.is_str files); split; try tauto; try easy.
Qed.

(** X8.  An export whose header has a label that is no column of
    [crawl_results] is not stored: on an idle connection,
    [process_crawl_results] over [str] entries that are unreadable or carry
    such a label returns normally and leaves the database, live and
    committed, exactly as it was. *)
Theorem process_crawl_results_stores_nothing `{SqlEngine} (crawl_id : Z)
    (files : list (CrawlRun.pyfile * outcome DataFrame)) (c : Sqlite.connection)
    (tb : table) :
  Sqlite.pending c !! "crawl_results" = Some tb ->
  Sqlite.pending c = Sqlite.committed c ->
  forallb (CrawlRun.unstorable tb) files = true ->
  let r := CrawlRun.process_crawl_results crawl_id files c in
  fst r = Returned tt
  /\ Sqlite.pending (snd r) = Sqlite.pending c
  /\ Sqlite.committed (snd r) = Sqlite.committed c.
Proof.
  intros Ht Hidle Hall r. split; [|now apply (process_unstorable crawl_id files c tb)].
  unfold r. rewrite process_crawl_results_outcome.
  assert (Hstr : forallb CrawlRun.is_str files = true).
  { clear -Hall. induction files as [|[[s|p] read] files IH]; simpl in *;
      [reflexivity| |discriminate].
    apply andb_prop in Hall as [_ Hall]. now apply IH. }
  now rewrite Hstr.
Qed.

Lemma process_crawl_results_stores_nothing_witness :
  let c := Sqlite.fresh_connection (<["crawl_results" := CrawlRun.small_results]> ∅) in
  let r := @CrawlRun.process_crawl_results plain_engine 1 CrawlRun.one_export c in
  Sqlite.pending c !! "crawl_results" = Some CrawlRun.small_results
  /\ Sqlite.pending c = Sqlite.committed c
  /\ forallb (CrawlRun.unstorable CrawlRun.small_results) CrawlRun.one_export = true
  /\ fst r = Returned tt
  /\ Sqlite.pending (snd r) = Sqlite.pending c
  /\ Sqlite.committed (snd r) = Sqlite.committed c.
Proof.
  intros c r.
  assert (Ht : Sqlite.pending c !! "crawl_results" = Some CrawlRun.small_results)
    by apply lookup_insert_eq.
  assert (Hall : forallb (CrawlRun.unstorable CrawlRun.small_results) CrawlRun.one_export
                 = true) by reflexivity.
  split; [exact Ht|]. split; [reflexivity|]. split; [exact Hall|].
  exact (@process_crawl_results_stores_nothing plain_engine 1 CrawlRun.one_export c
           CrawlRun.small_results Ht eq_refl Hall).
Defined.

(** * The program *)

Section Main.

Context `{SqlEngine}.
Import Sqlite.

Lemma crawl_schedule_done (env_at : nat -> CrawlRun.crawl_env) (config_file : option string)
    (lines : list string) (i : nat) (c : connection) :
  fst (CrawlRun.crawl_schedule env_at i config_file lines c) = CrawlRun.Done tt ->
  snd (CrawlRun.crawl_schedule env_at i config_file lines c) = c.
Proof.
  revert i c. induction lines as [|line lines IH]; intros i c; [reflexivity|].
  cbn [CrawlRun.crawl_schedule].
  destruct (CrawlRun.crawlable line); [|apply IH].
  destruct (run_crawl_raises (env_at i)
              (PyStr.strip (CrawlRun.first_field (PyStr.strip line))) config_file c)
    as (e & He).
  destruct (CrawlRun.run_crawl _ _ _ c) as [[[]|e'] c']; simpl in He; discriminate.
Qed.

Lemma main_body_done (init_env : CrawlRun.crawl_env) (env_at : nat -> CrawlRun.crawl_env)
    (a : CrawlRun.args) (opened : outcome connection)
    (schedule_file : CrawlRun.result (list string)) :
  fst (CrawlRun.main_body init_env env_at a opened schedule_file) = CrawlRun.Done tt ->
  exists c0,
    CrawlRun.__init__ init_env opened = CrawlRun.Done c0
    /\ snd (CrawlRun.main_body init_env env_at a opened schedule_file) = Some c0
    /\ CrawlRun.truthy (CrawlRun.arg_url a) = None
    /\ (CrawlRun.truthy (CrawlRun.arg_schedule a) <> None -> CrawlRun.arg_run_now a = true).
Proof.
  unfold CrawlRun.main_body.
  destruct (CrawlRun.__init__ init_env opened) as [c0|e]; [|discriminate].
  destruct (CrawlRun.truthy (CrawlRun.arg_url a)) as [url|].
  { destruct (run_crawl_raises (env_at O) url (CrawlRun.arg_config a) c0) as (e & He).
    destruct (CrawlRun.run_crawl _ _ _ c0) as [[[]|e'] c']; simpl in *; discriminate. }
  destruct (CrawlRun.truthy (CrawlRun.arg_schedule a)) as [sched|];
    [|intros _; exists c0; repeat split; congruence].
  destruct (CrawlRun.arg_run_now a); [|discriminate].
  destruct schedule_file as [lines|e]; [|discriminate].
  pose proof (crawl_schedule_done env_at (CrawlRun.arg_config a) lines O c0) as Hdone.
  destruct (CrawlRun.crawl_schedule _ _ _ _ c0) as [[[]|e] c']; [|discriminate].
  intros _. exists c0. simpl in *. rewrite Hdone by reflexivity. repeat split.
Qed.

End Main.

(** X9.  Asked to crawl a URL, the program always ends through
    [sys.exit(1)]: neither the constructor nor the crawl can let [main]
    reach its last line. *)
Theorem main_with_url_exits_1 `{SqlEngine} (init_env : CrawlRun.crawl_env)
    (env_at : nat -> CrawlRun.crawl_env) (a : CrawlRun.args)
    (opened : outcome Sqlite.connection) (schedule_file : CrawlRun.result (list string))
    (url : string) :
  CrawlRun.truthy (CrawlRun.arg_url a) = Some url ->
  fst (CrawlRun.main init_env env_at a opened schedule_file) = CrawlRun.SysExit 1.
Proof.
  intros Hurl. unfold CrawlRun.main.
  pose proof (main_body_done init_env env_at a opened schedule_file) as Hdone.
  destruct (CrawlRun.main_body init_env env_at a opened schedule_file) as [[[]|e] c];
    [|reflexivity].
  destruct (Hdone eq_refl) as (c0 & _ & _ & Hnone & _). congruence.
Qed.

Lemma main_with_url_exits_1_witness :
  CrawlRun.truthy (CrawlRun.arg_url CrawlRun.crawl_one) = Some "http://b.example"
  /\ fst (@CrawlRun.main plain_engine CrawlRun.good_crawl (fun _ => CrawlRun.good_crawl)
            CrawlRun.crawl_one (Returned (Sqlite.fresh_connection ∅)) (CrawlRun.Done []))
     = CrawlRun.SysExit 1.
Proof.
  split; [reflexivity|].
  apply (@main_with_url_exits_1 plain_engine CrawlRun.good_crawl
           (fun _ => CrawlRun.good_crawl) CrawlRun.crawl_one
           (Returned (Sqlite.fresh_connection ∅)) (CrawlRun.Done []) "http://b.example").
  reflexivity.
Defined.



(** * Tables created when missing *)

Section CreateIfMissing.

Context `{SqlEngine}.
Import Sqlite BaseTables.

Lemma add_column_lenient (def : string) (tb : table) :
  lenient -> add_column def tb = @add_column plain_engine def tb.
Proof. intros Hl. unfold add_column. now rewrite Hl. Qed.

Lemma add_columns_lenient (defs : list string) (tb : table) :
  lenient -> add_columns defs tb = @add_columns plain_engine defs tb.
Proof.
  intros Hl. revert tb. induction defs as [|d defs IH]; intros tb; [reflexivity|].
  simpl. rewrite add_column_lenient by exact Hl.
  destruct (@add_column plain_engine d tb); [apply IH|reflexivity].
Qed.

(** One CREATE TABLE IF NOT EXISTS whose definitions are well formed. *)
Lemma create_if_missing (t : string) (defs : list string) (tb0 : table) (c : connection) :
  lenient ->
  @add_columns plain_engine defs (Table [] []) = Returned tb0 ->
  exists c',
    execute (CreateTable true t defs) c = (Returned tt, c')
    /\ made_sure [t] (pending c) (pending c')
    /\ (in_txn c = false -> pending c = committed c ->
        in_txn c' = false /\ pending c' = committed c').
Proof.
  intros Hl Hdefs. unfold execute. cbn [effect].
  destruct (pending c !! t) as [tb|] eqn:Ht.
  - eexists. split; [reflexivity|]. split; [|now simpl].
    split; [now simpl|]. split; [|now simpl].
    apply Forall_cons_2; [|apply Forall_nil_2]. simpl. rewrite Ht. eauto.
  - rewrite add_columns_lenient, Hdefs by exact Hl.
    eexists. split; [reflexivity|]. simpl. split.
    + split; [|split].
      * intros t' tb Ht'. rewrite lookup_insert_ne; [exact Ht'|]. intros <-. congruence.
      * apply Forall_cons_2; [|apply Forall_nil_2]. rewrite lookup_insert_eq. eauto.
      * intros t' Hnot. apply lookup_insert_ne. intros <-. apply Hnot. now left.
    + intros -> Hidle. now rewrite Hidle.
Qed.

Lemma made_sure_trans (l1 l2 : list string) (s1 s2 s3 : store) :
  made_sure l1 s1 s2 -> made_sure l2 s2 s3 -> made_sure (l1 ++ l2) s1 s3.
Proof.
  intros (Hk1 & Hm1 & Ho1) (Hk2 & Hm2 & Ho2). split; [|split].
  - intros t tb Ht. apply Hk2, Hk1, Ht.
  - apply Forall_app. split; [|exact Hm2].
    eapply Forall_impl; [exact Hm1|]. intros t [tb Ht]. exists tb. now apply Hk2.
  - intros t Hnot. rewrite Ho2, Ho1; [reflexivity| |];
      intros Hin; apply Hnot, in_or_app; tauto.
Qed.

Lemma setup_database_makes_sure (c : connection) :
  lenient ->
  exists c',
    ScreamingFrogWrapper.setup_database c = (Returned tt, c')
    /\ made_sure CrawlRun.ledger_tables (pending c) (pending c')
    /\ committed c' = pending c'.
Proof.
  intros Hl. unfold ScreamingFrogWrapper.setup_database, bind.
  match goal with |- context [execute (CreateTable true ?t ?defs) c] =>
    destruct (create_if_missing t defs _ c Hl ltac:(vm_compute; reflexivity))
      as (c1 & -> & H1 & _)
  end.
  match goal with |- context [execute (CreateTable true ?t ?defs) c1] =>
    destruct (create_if_missing t defs _ c1 Hl ltac:(vm_compute; reflexivity))
      as (c2 & -> & H2 & _)
  end.
  simpl. eexists. split; [reflexivity|]. simpl. split; [|reflexivity].
  exact (made_sure_trans [_] [_] _ _ _ H1 H2).
Qed.

End CreateIfMissing.





(** * Storing a CSV file through the manager *)

Section ProcessCsv.

Context `{SqlEngine}.
Import Sqlite DatabaseManager.

Lemma add_column_has (def : string) (tb tb' : table) :
  add_column def tb = Returned tb' ->
  (exists n, PyStr.first_word def = Some n /\ has_column tb' n = true)
  /\ (forall m, has_column tb m = true -> has_column tb' m = true).
Proof.
  unfold add_column. destruct (sql_rejects def); [discriminate|].
  destruct (PyStr.first_word def) as [n|]; [|discriminate].
  destruct (has_column tb n) eqn:Hn; [discriminate|]. intros [= <-]. split.
  - exists n. split; [reflexivity|]. rewrite has_column_app. simpl.
    rewrite lower_eqb_refl. apply orb_true_r.
  - intros m Hm. rewrite has_column_app, Hm. reflexivity.
Qed.

Lemma add_columns_present (defs : list string) (tb : table) (d n : string) :
  has_column tb n = true -> In d defs -> PyStr.first_word d = Some n ->
  exists e, add_columns defs tb = Raised e.
Proof.
  revert tb. induction defs as [|d' defs IH]; intros tb Hn Hin Hd; [destruct Hin|].
  simpl. destruct (add_column d' tb) as [tb'|e] eqn:Hadd; [|eauto].
  destruct Hin as [->|Hin].
  - unfold add_column in Hadd. destruct (sql_rejects d); [discriminate|].
    rewrite Hd, Hn in Hadd. discriminate.
  - apply (IH tb'); [|exact Hin|exact Hd].
    now apply (proj2 (add_column_has _ _ _ Hadd)).
Qed.

(** Two definitions of one column name make CREATE TABLE fail. *)
Lemma add_columns_duplicate (l1 l2 : list string) (d1 d2 n : string) (tb : table) :
  PyStr.first_word d1 = Some n -> In d2 l2 -> PyStr.first_word d2 = Some n ->
  exists e, add_columns (l1 ++ d1 :: l2) tb = Raised e.
Proof.
  intros H1 Hin H2. revert tb. induction l1 as [|d l1 IH]; intros tb.
  - simpl. destruct (add_column d1 tb) as [tb'|e] eqn:Hadd; [|eauto].
    destruct (add_column_has _ _ _ Hadd) as [(n' & Hn' & Hhas) _].
    rewrite H1 in Hn'. injection Hn' as <-.
    exact (add_columns_present l2 tb' d2 n Hhas Hin H2).
  - simpl. destruct (add_column d tb) as [tb'|e]; [apply IH|eauto].
Qed.

Lemma index_of_in (l : list string) (x : string) (i : nat) :
  Pandas.index_of l x = Some i -> In x l.
Proof.
  revert i. induction l as [|y l IH]; intros i; simpl; [discriminate|].
  destruct (String.eqb_spec y x) as [->|_]; [now left|].
  destruct (Pandas.index_of l x) as [j|]; [|discriminate]. intros _. right. now apply (IH j).
Qed.

Lemma assign_has_label (label : string) (v : pyval) (df : DataFrame) :
  In label (df_columns (Pandas.assign label v df)).
Proof.
  unfold Pandas.assign. destruct (Pandas.index_of (df_columns df) label) as [i|] eqn:Hi.
  - simpl. exact (index_of_in _ _ _ Hi).
  - simpl. apply in_or_app. right. now left.
Qed.

Lemma assign_keeps_label (label l : string) (v : pyval) (df : DataFrame) :
  In l (df_columns df) -> In l (df_columns (Pandas.assign label v df)).
Proof.
  intros Hl. unfold Pandas.assign. destruct (Pandas.index_of (df_columns df) label);
    simpl; [exact Hl|]. apply in_or_app. now left.
Qed.

Lemma tagged_has_crawl_id (csv_file : string) (df0 : DataFrame) (crawl_id now : Z) :
  In "crawl_id" (df_columns (tagged csv_file df0 crawl_id now)).
Proof. unfold tagged. do 2 apply assign_keeps_label. apply assign_has_label. Qed.

Lemma crawl_id_definition (v : pyval) :
  PyStr.first_word (clean "crawl_id" +:+ " " +:+ get_column_type "crawl_id" v)
  = Some "crawl_id".
Proof.
  destruct (get_column_type_cases "crawl_id" v) as [->|[->| ->]]; vm_compute; reflexivity.
Qed.

(** The definitions built for a frame that carries [crawl_id] cannot make
    a table: the metadata columns name [crawl_id] again. *)
Lemma tagged_definitions_clash (df : DataFrame) (tb : table) :
  In "crawl_id" (df_columns df) ->
  exists e, add_columns ("id INTEGER PRIMARY KEY" :: column_definitions df) tb = Raised e.
Proof.
  intros Hin. unfold column_definitions.
  set (f := fun col => clean col +:+ " " +:+ get_column_type col (Pandas.sample df col)).
  assert (Hf : In (f "crawl_id") (f <$> df_columns df)).
  { apply list_elem_of_In, list_elem_of_fmap. exists "crawl_id".
    split; [reflexivity|now apply list_elem_of_In]. }
  apply in_split in Hf as (l1 & l2 & Heq). rewrite Heq, <- app_assoc. cbn [app].
  apply (add_columns_duplicate ("id INTEGER PRIMARY KEY" :: l1) (l2 ++ metadata_columns)
           (f "crawl_id") "crawl_id INTEGER" "crawl_id").
  - apply crawl_id_definition.
  - apply in_or_app. right. now left.
  - vm_compute; reflexivity.
Qed.

Lemma operational_error_inv (e : exn) :
  is_operational_error e = true -> exists msg, e = OperationalError msg.
Proof. destruct e; try discriminate. eauto. Qed.

Lemma process_csv_unregistered (p : string) (c : connection) (sch : gmap string string)
    (csv_file : string) (df0 : DataFrame) (crawl_id now : Z) :
  let df := tagged csv_file df0 crawl_id now in
  let t := _determine_table_name csv_file df in
  sch !! t = None ->
  exists msg,
    process_screaming_frog_csv csv_file (Returned df0) crawl_id now (State p (Open c) sch)
    = (Raised (OperationalError msg),
       State p (Open (record (CreateTable false t
                                ("id INTEGER PRIMARY KEY" :: column_definitions df))
                             false c)) sch).
Proof.
  intros df t Hsch. rewrite process_csv_unfold. fold df. fold t. cbv zeta.
  unfold bind at 1. rewrite ensure_table_unregistered by exact Hsch.
  unfold Lifetime.create_only, bind. rewrite cursor_open. fold t.
  assert (He : exists msg,
             effect (CreateTable false t ("id INTEGER PRIMARY KEY" :: column_definitions df)) c
             = Raised (OperationalError msg)).
  { cbn [effect]. destruct (pending c !! t); [eauto|].
    destruct (tagged_definitions_clash df (Table [] [])
                (tagged_has_crawl_id csv_file df0 crawl_id now)) as (e & He).
    rewrite He. destruct (operational_error_inv e (add_columns_error _ _ _ He)) as (msg & ->).
    eauto. }
  destruct He as (msg & He). exists msg. unfold execute. now rewrite He.
Qed.

End ProcessCsv.



(** * Loading the schema cache *)

Section LoadSchemas.

Context `{SqlEngine}.
Import Sqlite DatabaseManager.

Lemma table_sql_not_empty (t : string) (tb : table) : String.eqb (table_sql t tb) "" = false.
Proof. unfold table_sql. now rewrite !append_cons. Qed.

Lemma load_loop (l : list (string * string)) (p : string) (h : handle)
    (sch : gmap string string) :
  Forall (fun entry => String.eqb entry.2 "" = false) l ->
  for_each l
    (fun '(table_name, sql) =>
       if String.eqb sql "" then ret tt
       else modify (fun self =>
              State (db_path self) (conn self) (<[table_name := sql]> (table_schemas self))))
    (State p h sch)
  = (Returned tt, State p h (fold_left Registered.register l sch)).
Proof.
  revert sch. induction l as [|[n q] l IH]; intros sch Hall; [reflexivity|].
  apply Forall_cons in Hall as [Hq Hall]. simpl in Hq.
  cbn [for_each fold_left]. unfold bind. rewrite Hq. simpl. now rewrite IH.
Qed.

Lemma register_other (l : list (string * string)) (m : gmap string string) (k : string) :
  ~ In k (l.*1) -> fold_left Registered.register l m !! k = m !! k.
Proof.
  revert m. induction l as [|[n q] l IH]; intros m Hk; [reflexivity|].
  cbn [fold_left]. rewrite IH.
  - unfold Registered.register. simpl. apply lookup_insert_ne. intros ->. apply Hk. now left.
  - intros Hin. apply Hk. now right.
Qed.

Lemma register_entry (l : list (string * string)) (m : gmap string string) (k v : string) :
  NoDup (l.*1) -> In (k, v) l -> fold_left Registered.register l m !! k = Some v.
Proof.
  revert m. induction l as [|[n q] l IH]; intros m Hnd Hin; [destruct Hin|].
  rewrite fmap_cons in Hnd. apply NoDup_cons in Hnd as [Hn Hnd]. cbn [fold_left].
  destruct Hin as [[= -> ->]|Hin].
  - rewrite register_other; [apply lookup_insert_eq|].
    intros Hk. apply Hn. now apply list_elem_of_In.
  - now apply IH.
Qed.

Lemma master_rows_keys (s : store) : (Registered.master_rows s).*1 = (map_to_list s).*1.
Proof.
  unfold Registered.master_rows. induction (map_to_list s) as [|[t tb] l IH]; [reflexivity|].
  rewrite !fmap_cons, IH. reflexivity.
Qed.

Lemma load_existing_schemas_open (p : string) (c : connection) (sch : gmap string string) :
  _load_existing_schemas (State p (Open c) sch)
  = (Returned tt,
     State p (Open (record SelectSqliteMaster true c))
           (fold_left Registered.register (Registered.master_rows (pending c)) sch)).
Proof.
  unfold _load_existing_schemas, bind. rewrite cursor_open. cbn [fst snd].
  change (fst (sqlite_master c)) with (Returned (Registered.master_rows (pending c))).
  change (snd (sqlite_master c)) with (record SelectSqliteMaster true c).
  cbv beta iota. apply load_loop.
  unfold Registered.master_rows. apply Forall_forall. intros [t q] Hin.
  apply list_elem_of_fmap in Hin as ([t' tb] & [= -> ->] & _). apply table_sql_not_empty.
Qed.

Lemma loaded_cache (s : store) (sch : gmap string string) (t : string) :
  fold_left Registered.register (Registered.master_rows s) sch !! t
  = match s !! t with
    | Some tb => Some (table_sql t tb)
    | None => sch !! t
    end.
Proof.
  destruct (s !! t) as [tb|] eqn:Ht.
  - apply register_entry.
    + rewrite master_rows_keys. apply NoDup_fst_map_to_list.
    + apply list_elem_of_In, list_elem_of_fmap. exists (t, tb). split; [reflexivity|].
      now apply elem_of_map_to_list.
  - apply register_other. rewrite master_rows_keys. intros Hin.
    apply list_elem_of_In, list_elem_of_fmap in Hin as ([t' tb] & -> & Hin).
    apply elem_of_map_to_list in Hin. simpl in Ht. congruence.
Qed.

End LoadSchemas.




(** * Reconciling a registered table *)



(** * What [optimize_database] sends *)

Section OptimizeTrace.

Context `{SqlEngine}.
Import Sqlite DatabaseManager.

Lemma effect_journal (q : stmt) (c c' : connection) :
  effect q c = Returned c' -> journal c' = journal c.
Proof.
  destruct q; simpl;
    repeat match goal with
           | |- context [match ?x with _ => _ end] => destruct x
           end;
    try discriminate; now intros [= <-].
Qed.

Lemma effect_begin (c c' : connection) :
  effect Begin c = Returned c' -> in_txn c' = true.
Proof. simpl. destruct (in_txn c); [discriminate|]. now intros [= <-]. Qed.

Lemma effect_insert_txn (t : string) (fields : list (string * pyval)) (c c' : connection) :
  effect (InsertInto t fields) c = Returned c' -> in_txn c' = true.
Proof.
  simpl. destruct (pending c !! t); [|discriminate].
  destruct (unknown_column _ _); [discriminate|].
  destruct (rowid_for _ _); [|discriminate]. now intros [= <-].
Qed.

Lemma optimize_database_journal (p : string) (sch : gmap string string) (c : connection)
    (now : Z) :
  exists c' J,
    conn (snd (optimize_database now (State p (Open c) sch))) = Open c'
    /\ journal c' = (journal c ++ J)%list
    /\ Maintenance.optimize_trace now J.
Proof.
  unfold optimize_database, try_bind, log_start, bind. rewrite cursor_open.
  destruct (execute Begin c) as [[[]|e] cb] eqn:Hb; cbn [fst snd].
  2:{ rewrite (execute_raised _ _ _ _ Hb).
      unfold maintenance_failed, bind. rewrite cursor_open. cbn [rollback modify fst snd].
      eexists. exists [(Begin, false)]. split; [reflexivity|]. split; [reflexivity|].
      now left. }
  destruct (execute_returned _ _ _ _ Hb) as (c0 & Hb0 & ->).
  pose proof (effect_journal _ _ _ Hb0) as Hj0. pose proof (effect_begin _ _ Hb0) as Ht0.
  rewrite cursor_open.
  fold (Maintenance.log_insert "optimize" "Regular database optimization" now).
  set (ins := Maintenance.log_insert _ _ _).
  destruct (execute ins (record Begin true c0)) as [[[]|e] ci] eqn:Hi; cbn [fst snd].
  2:{ rewrite (execute_raised _ _ _ _ Hi).
      unfold maintenance_failed, bind. rewrite cursor_open. cbn [rollback modify fst snd].
      eexists. exists [(Begin, true); (ins, false)]. split; [reflexivity|].
      split; [|right; now left]. simpl. rewrite Hj0. now rewrite <- app_assoc. }
  destruct (execute_returned _ _ _ _ Hi) as (c1 & Hi1 & ->).
  pose proof (effect_journal _ _ _ Hi1) as Hj1. simpl in Hj1.
  pose proof (effect_insert_txn _ _ _ _ Hi1) as Ht1.
  rewrite cursor_open. cbn [gets fst snd]. unfold try_except, bind.
  rewrite cursor_open, (execute_vacuum_in_txn (record ins true c1) Ht1). cbn [fst snd].
  unfold maintenance_failed, bind. rewrite cursor_open. cbn [rollback modify fst snd].
  change (lastrowid (record ins true c1)) with (lastrowid c1).
  assert (Hj : journal (record Vacuum false (record ins true c1))
               = (journal c ++ [(Begin, true); (ins, true); (Vacuum, false)])%list).
  { simpl. rewrite Hj1, Hj0. now rewrite <- !app_assoc. }
  destruct (lastrowid c1 =? 0).
  { eexists. exists [(Begin, true); (ins, true); (Vacuum, false)].
    split; [reflexivity|]. split; [exact Hj|]. right. right. now left. }
  rewrite cursor_open.
  change (exn_str (OperationalError "cannot VACUUM from within a transaction"))
    with "cannot VACUUM from within a transaction".
  change ("Database optimization failed: " +:+ "cannot VACUUM from within a transaction")
    with Maintenance.vacuum_refused.
  fold (Maintenance.log_failed Maintenance.vacuum_refused now (lastrowid c1)).
  set (upd := Maintenance.log_failed _ _ _).
  match goal with |- context [execute upd ?cr] => set (c2 := cr) in * end.
  assert (Hj2 : journal c2 = journal (record Vacuum false (record ins true c1)))
    by reflexivity.
  destruct (execute upd c2) as [[[]|e] cu] eqn:Hu; cbn [fst snd].
  - destruct (execute_returned _ _ _ _ Hu) as (c3 & Hu3 & ->).
    pose proof (effect_journal _ _ _ Hu3) as Hj3.
    rewrite cursor_open. cbn [commit modify fst snd].
    eexists. exists [(Begin, true); (ins, true); (Vacuum, false); (upd, true)].
    split; [reflexivity|]. split.
    + cbn [journal record]. rewrite Hj3, Hj2, Hj. now rewrite <- app_assoc.
    + right. right. right. now exists (lastrowid c1), true.
  - rewrite (execute_raised _ _ _ _ Hu).
    eexists. exists [(Begin, true); (ins, true); (Vacuum, false); (upd, false)].
    split; [reflexivity|]. split.
    + cbn [journal record]. rewrite Hj2, Hj. now rewrite <- app_assoc.
    + right. right. right. now exists (lastrowid c1), false.
Qed.

End OptimizeTrace.

(** X17.  [optimize_database] never optimizes: on every open connection
    the statements it sends are BEGIN, the log INSERT, a VACUUM that the
    engine refuses inside the transaction, and the UPDATE of the handler;
    ANALYZE and PRAGMA optimize are never sent and no entry is marked
    completed.  On an idle connection nothing it did is kept: the live and
    the committed store are the committed store it started from. *)
Theorem optimize_database_never_optimizes `{SqlEngine} (p : string)
    (sch : gmap string string) (c : Sqlite.connection) (now : Z) :
  let r := DatabaseManager.optimize_database now
             (DatabaseManager.State p (DatabaseManager.Open c) sch) in
  exists c' J,
    DatabaseManager.conn (snd r) = DatabaseManager.Open c'
    /\ Sqlite.journal c' = (Sqlite.journal c ++ J)%list
    /\ Maintenance.optimize_trace now J
    /\ (Sqlite.in_txn c = false -> Sqlite.pending c = Sqlite.committed c ->
        Sqlite.committed c' = Sqlite.committed c /\ Sqlite.pending c' = Sqlite.committed c).
Proof.
  intros r. destruct (optimize_database_journal p sch c now) as (c' & J & Hc & Hj & HJ).
  exists c', J. split; [exact Hc|]. split; [exact Hj|]. split; [exact HJ|].
  intros Hidle Hclean.
  destruct (optimize_database_persists_nothing p sch c now Hidle Hclean)
    as (c'' & Hc'' & Hcom & Hpen).
  unfold r in *. rewrite Hc in Hc''. injection Hc'' as <-. now split.
Qed.

(** * What [cleanup_old_records] can delete *)

Section CleanupSafety.

Context `{SqlEngine}.
Import Sqlite DatabaseManager Maintenance.

Lemma kept_idempotent (cutoff : Z) (rows : list row) :
  kept cutoff (kept cutoff rows) = kept cutoff rows.
Proof.
  unfold kept. induction rows as [|r rows IH]; [reflexivity|].
  simpl. destruct (negb (older_than cutoff r)) eqn:Hr; [|exact IH].
  simpl. now rewrite Hr, IH.
Qed.

Lemma trimmed_trans (cutoff : Z) (t : string) (o1 o2 o3 : option table) :
  trimmed cutoff t o1 o2 -> trimmed cutoff t o2 o3 -> trimmed cutoff t o1 o3.
Proof.
  intros [->|(Hin & tb & -> & ->)] [->|(Hin' & tb' & Heq & ->)].
  - now left.
  - right. eauto.
  - right. eauto.
  - injection Heq as <-. right. split; [exact Hin|]. exists tb. split; [reflexivity|].
    simpl. now rewrite kept_idempotent.
Qed.

#[local] Instance cleaned_preorder (cutoff : Z) : PreOrder (cleaned cutoff).
Proof.
  split.
  - intros c t _. split; [left|right]; now left.
  - intros c1 c2 c3 H12 H23 t Ht.
    destruct (H12 t Ht) as [Hc2 Hp2]. destruct (H23 t Ht) as [Hc3 Hp3]. split.
    + destruct Hc3 as [Hc3|Hc3]; [destruct Hc2 as [Hc2|Hc2]|destruct Hp2 as [Hp2|Hp2]];
        [left|right|left|right]; eapply trimmed_trans; eassumption.
    + destruct Hp3 as [Hp3|Hp3]; [destruct Hc2 as [Hc2|Hc2]|destruct Hp2 as [Hp2|Hp2]];
        [left|right|left|right]; eapply trimmed_trans; eassumption.
Qed.

#[local] Instance manager_cleaned_preorder (cutoff : Z) : PreOrder (manager_cleaned cutoff).
Proof.
  split.
  - intros s c Hc. exists c. split; [exact Hc|reflexivity].
  - intros s1 s2 s3 H12 H23 c Hc.
    destruct (H12 c Hc) as (c2 & Hc2 & R12). destruct (H23 c2 Hc2) as (c3 & Hc3 & R23).
    exists c3. split; [exact Hc3|]. etransitivity; eassumption.
Qed.

Lemma cursor_cleaned {A} (cutoff : Z) (m : M connection A) :
  (forall c, cleaned cutoff c (snd (m c))) -> stable (manager_cleaned cutoff) (cursor m).
Proof.
  intros Hm s c Hc. unfold cursor. rewrite Hc.
  specialize (Hm c). destruct (m c) as [r c']. simpl in *. eauto.
Qed.

(** A change of the live store alone, table by table. *)
Lemma cleaned_pending (cutoff : Z) (c c' : connection) :
  committed c' = committed c ->
  (forall t, t <> "maintenance_log" -> trimmed cutoff t (pending c !! t) (pending c' !! t)) ->
  cleaned cutoff c c'.
Proof.
  intros Hc Hp t Ht. rewrite Hc. split; [left; now left|right; now apply Hp].
Qed.

Lemma record_cleaned (cutoff : Z) (q : stmt) (ok : bool) (c c' : connection) :
  cleaned cutoff c c' -> cleaned cutoff c (record q ok c').
Proof. intros Hc. exact Hc. Qed.

Lemma execute_cleaned (cutoff : Z) (q : stmt) (c : connection) :
  Maintenance.cleanup_statement cutoff q -> cleaned cutoff c (snd (execute q c)).
Proof.
  intros Hq. unfold execute.
  destruct (effect q c) as [c'|e] eqn:He; [|apply record_cleaned; reflexivity].
  cbn [snd]. apply record_cleaned.
  destruct q; simpl in Hq; try contradiction; simpl in He.
  - destruct (in_txn c); [discriminate|]. injection He as <-.
    apply cleaned_pending; [reflexivity|]. intros; now left.
  - subst t. destruct (pending c !! "maintenance_log"); [|discriminate].
    destruct (unknown_column _ _); [discriminate|].
    destruct (rowid_for _ _); [|discriminate]. injection He as <-.
    apply cleaned_pending; [reflexivity|]. intros t' Ht'. left. simpl.
    now apply lookup_insert_ne.
  - subst t. destruct (pending c !! "maintenance_log"); [|discriminate].
    destruct (unknown_column _ _); [discriminate|]. injection He as <-.
    apply cleaned_pending; [reflexivity|]. intros t' Ht'. left. simpl.
    now apply lookup_insert_ne.
  - destruct Hq as [Hin ->]. destruct (pending c !! t) as [tb|] eqn:Htb; [|discriminate].
    destruct (has_column tb "crawl_date"); [|discriminate]. injection He as <-.
    apply cleaned_pending; [reflexivity|]. intros t' Ht'. simpl.
    destruct (String.eqb_spec t t') as [<-|Hne].
    + right. split; [exact Hin|]. exists tb. now rewrite lookup_insert_eq.
    + left. now apply lookup_insert_ne.
Qed.

Lemma commit_cleaned (cutoff : Z) (c : connection) : cleaned cutoff c (snd (commit c)).
Proof. intros t _. simpl. split; right; now left. Qed.

Lemma rollback_cleaned (cutoff : Z) (c : connection) : cleaned cutoff c (snd (rollback c)).
Proof. intros t _. simpl. split; left; now left. Qed.

Lemma gets_cleaned {A} (cutoff : Z) (f : connection -> A) (c : connection) :
  cleaned cutoff c (snd (gets f c)).
Proof. reflexivity. Qed.

Lemma cleanup_old_records_cleaned (days_to_keep now : Z) :
  stable (manager_cleaned (now - days days_to_keep)) (cleanup_old_records days_to_keep now).
Proof.
  assert (Hexec : forall q, Maintenance.cleanup_statement (now - days days_to_keep) q ->
                            stable (manager_cleaned (now - days days_to_keep))
                                   (cursor (execute q))).
  { intros q Hq. apply cursor_cleaned. intros c. now apply execute_cleaned. }
  assert (Hcommit : stable (manager_cleaned (now - days days_to_keep)) (cursor commit)).
  { apply cursor_cleaned. intros c. apply commit_cleaned. }
  assert (Hfailed : forall prefix log_id e,
             stable (manager_cleaned (now - days days_to_keep))
                    (maintenance_failed prefix now log_id e)).
  { intros prefix log_id e. unfold maintenance_failed.
    apply stable_bind; [apply _| |intros _].
    - apply cursor_cleaned. intros c. apply rollback_cleaned.
    - cbv zeta. destruct log_id as [id|]; [|apply stable_raise; apply _].
      destruct (id =? 0); [apply stable_ret; apply _|].
      apply stable_bind; [apply _| |intros _; exact Hcommit].
      apply Hexec. reflexivity. }
  unfold cleanup_old_records.
  apply stable_try_bind; [apply _| |intros log_id|intros e; apply Hfailed].
  - unfold log_start.
    apply stable_bind; [apply _|apply Hexec; exact I|intros _].
    apply stable_bind; [apply _|apply Hexec; reflexivity|intros _].
    apply cursor_cleaned. intros c. apply gets_cleaned.
  - apply stable_try_except; [apply _| |intros e; apply Hfailed].
    cbv zeta. apply stable_bind; [apply _| |intros _].
    + apply stable_for_each_in; [apply _|]. intros table Hin.
      apply stable_bind; [apply _|apply stable_gets; apply _|intros schemas].
      destruct (schemas !! table); [|apply stable_ret; apply _].
      apply Hexec. now split.
    + unfold log_completed.
      apply stable_bind; [apply _| |intros _; exact Hcommit].
      apply Hexec. reflexivity.
Qed.

End CleanupSafety.



(** * Cleanup with the wrapper's result table in the cache *)

Section CleanupRollsBack.

Context `{SqlEngine}.
Import Sqlite DatabaseManager.

Lemma insert_effect_other (t : string) (fields : list (string * pyval)) (c c' : connection)
    (t' : string) :
  effect (InsertInto t fields) c = Returned c' -> t' <> t ->
  pending c' !! t' = pending c !! t'.
Proof.
  simpl. destruct (pending c !! t); [|discriminate].
  destruct (unknown_column _ _); [discriminate|].
  destruct (rowid_for _ _); [|discriminate]. intros [= <-] Hne. simpl.
  now apply lookup_insert_ne.
Qed.

(** The handler of the maintenance methods, run after the log INSERT of a
    transaction that started on an idle connection: what it leaves is the
    committed store the transaction started from. *)
Lemma maintenance_failed_restores (prefix : string) (now : Z) (e : exn) (p : string)
    (sch : gmap string string) (c cx : connection) (tb : table) :
  pending c = committed c ->
  pending c !! "maintenance_log" = Some tb ->
  committed cx = committed c ->
  exists c',
    conn (snd (maintenance_failed prefix now (Some (next_rowid (t_rows tb))) e
                 (State p (Open cx) sch))) = Open c'
    /\ committed c' = committed c /\ pending c' = committed c.
Proof.
  intros Hclean Htb Hcx.
  unfold maintenance_failed, bind. rewrite cursor_open. cbn [rollback modify fst snd].
  set (cr := Connection _ _ false _ _ _).
  assert (Hcr : committed cr = committed c) by exact Hcx.
  assert (Hpr : pending cr = committed c) by exact Hcx.
  destruct (next_rowid (t_rows tb) =? 0).
  { eexists. split; [reflexivity|]. split; assumption. }
  rewrite cursor_open.
  match goal with
  | |- context [execute ?q cr] =>
      destruct (execute q cr) as [[[]|e'] cu] eqn:Hu; cbn [fst snd]
  end.
  - destruct (execute_returned _ _ _ _ Hu) as (cu0 & Hu0 & ->).
    rewrite cursor_open. cbn [commit modify fst snd].
    eexists. split; [reflexivity|]. cbn [committed pending record].
    assert (Hp : pending cu0 = pending cr).
    { eapply log_update_after_rollback; [|exact Hu0]. rewrite Hpr, <- Hclean. exact Htb. }
    rewrite Hp, Hpr. split; reflexivity.
  - rewrite (execute_raised _ _ _ _ Hu).
    eexists. split; [reflexivity|]. split; assumption.
Qed.

Lemma cleanup_registered_results (p : string) (sch : gmap string string) (c : connection)
    (tb : table) (days_to_keep now : Z) :
  in_txn c = false -> pending c = committed c ->
  is_Some (sch !! "crawl_results") ->
  pending c !! "crawl_results" = Some tb ->
  has_column tb "crawl_date" = false ->
  exists c',
    conn (snd (cleanup_old_records days_to_keep now (State p (Open c) sch))) = Open c'
    /\ committed c' = committed c /\ pending c' = committed c.
Proof.
  intros Hidle Hclean [sql Hsch] Hres Hnodate.
  unfold cleanup_old_records, try_bind, log_start, bind.
  rewrite cursor_open, (execute_begin_idle c Hidle). cbn [fst snd].
  set (cb := record Begin true _).
  rewrite cursor_open.
  set (ins := InsertInto "maintenance_log" _).
  destruct (execute ins cb) as [[[]|e] ci] eqn:Hi; cbn [fst snd].
  - destruct (execute_returned _ _ _ _ Hi) as (c0 & Hi0 & ->).
    assert (Hlog : exists tbl, pending cb !! "maintenance_log" = Some tbl
                               /\ committed c0 = committed cb /\ in_txn c0 = true
                               /\ lastrowid c0 = next_rowid (t_rows tbl)).
    { unfold ins in Hi0. eapply log_insert_effect; [|exact Hi0].
      apply set_fields_other. simpl. intuition discriminate. }
    destruct Hlog as (tbl & Htbl & Hcom & _ & Hlast).
    assert (Hres0 : pending c0 !! "crawl_results" = Some tb).
    { unfold ins in Hi0. rewrite (insert_effect_other _ _ _ _ "crawl_results" Hi0)
        by discriminate. exact Hres. }
    rewrite cursor_open. cbn [gets fst snd].
    change (lastrowid (record ins true c0)) with (lastrowid c0). rewrite Hlast.
    unfold try_except, tables_to_clean. cbn [for_each]. unfold bind. cbn [table_schemas].
    rewrite Hsch, cursor_open.
    assert (Hdel : forall cutoff,
               execute (DeleteWhereCrawlDateBefore "crawl_results" cutoff)
                       (record ins true c0)
               = (Raised (OperationalError "no such column: crawl_date"),
                  record (DeleteWhereCrawlDateBefore "crawl_results" cutoff) false
                         (record ins true c0))).
    { intros cutoff. unfold execute. cbn [effect].
      change (pending (record ins true c0)) with (pending c0).
      now rewrite Hres0, Hnodate. }
    rewrite Hdel. cbn [fst snd].
    apply (maintenance_failed_restores _ now _ p sch c _ tbl Hclean Htbl).
    exact Hcom.
  - rewrite (execute_raised _ _ _ _ Hi).
    unfold maintenance_failed, bind. rewrite cursor_open. cbn [rollback modify fst snd].
    eexists. split; [reflexivity|]. split; reflexivity.
Qed.

End CleanupRollsBack.



(** * Column types and table names *)

Section Names.

Import PyStr PyPath.

Lemma lower_char_idempotent (c : ascii) : lower_char (lower_char c) = lower_char c.
Proof. destruct c as [[] [] [] [] [] [] [] []]; reflexivity. Qed.

Lemma lower_idempotent (s : string) : lower (lower s) = lower s.
Proof.
  induction s as [|c s IH]; [reflexivity|]. simpl. now rewrite lower_char_idempotent, IH.
Qed.

Lemma startswith_app (a b : string) : startswith (a +:+ b) a = true.
Proof.
  induction a as [|c a IH]; [reflexivity|].
  rewrite append_cons. simpl. now rewrite Ascii.eqb_refl, IH.
Qed.

Lemma contains_app (a b c : string) : contains (a +:+ b +:+ c) b = true.
Proof.
  induction a as [|x a IH].
  - change ("" +:+ b +:+ c) with (b +:+ c).
    destruct (b +:+ c) eqn:Hbc; simpl; rewrite <- Hbc, startswith_app; reflexivity.
  - rewrite append_cons. simpl. rewrite IH. now destruct (startswith _ b).
Qed.

Lemma existsb_in {A} (f : A -> bool) (l : list A) (x : A) :
  In x l -> f x = true -> existsb f l = true.
Proof. intros Hin Hf. apply existsb_exists. eauto. Qed.

Lemma split_slash_app (cur a b : string) :
  split_slash cur (a +:+ String "/" b) = (split_slash cur a ++ split_slash "" b)%list.
Proof.
  revert cur. induction a as [|c a IH]; intros cur; [reflexivity|].
  rewrite append_cons. simpl. destruct (Ascii.eqb c "/"); [|apply IH].
  now rewrite IH.
Qed.

Lemma name_of_file_in_dir (dir file : string) :
  all_chars not_slash file = true -> file <> "" -> file <> "." ->
  name (dir +:+ "/" +:+ file) = file.
Proof.
  intros Hflat Hne Hdot. unfold name, parts.
  change ("/" +:+ file) with (String "/" file).
  rewrite split_slash_app, filter_app, (split_slash_flat "" file Hflat).
  change ("" +:+ file) with file.
  rewrite (filter_cons_True (fun c => c ≠ "" ∧ c ≠ ".")) by now split.
  rewrite filter_nil. apply List.last_last.
Qed.

End Names.

(** X20.  A column whose name contains a timestamp indicator, in any
    letter case, is never typed from its sample value: it is TIMESTAMP,
    unless the name also ends with a numeric indicator, which makes it
    REAL. *)
Theorem get_column_type_timestamp_name (pre ind post : string) (sample_value : pyval) :
  In (PyStr.lower ind) timestamp_indicators ->
  get_column_type (pre +:+ ind +:+ post) sample_value
  = if existsb (fun suf => PyStr.endswith (PyStr.lower (pre +:+ ind +:+ post)) suf)
         numeric_indicators
    then "REAL" else "TIMESTAMP".
Proof.
  intros Hin. unfold get_column_type.
  destruct (existsb _ numeric_indicators); [reflexivity|].
  rewrite (existsb_in _ timestamp_indicators (PyStr.lower ind) Hin); [reflexivity|].
  rewrite !lower_app. apply contains_app.
Qed.

Lemma get_column_type_timestamp_name_witness :
  In (PyStr.lower "_Date") timestamp_indicators
  /\ get_column_type ("Crawl" +:+ "_Date" +:+ " (UTC)") (PyInt 5)
     = if existsb (fun suf => PyStr.endswith
                                (PyStr.lower ("Crawl" +:+ "_Date" +:+ " (UTC)")) suf)
            numeric_indicators
       then "REAL" else "TIMESTAMP".
Proof.
  assert (Hin : In (PyStr.lower "_Date") timestamp_indicators) by (left; reflexivity).
  split; [exact Hin|].
  exact (get_column_type_timestamp_name "Crawl" "_Date" " (UTC)" (PyInt 5) Hin).
Defined.

(** X21.  The type of a column depends on its name only up to letter
    case: lower-casing the name changes nothing, for every sample value. *)
Theorem get_column_type_ignores_case (column_name : string) (sample_value : pyval) :
  get_column_type (PyStr.lower column_name) sample_value
  = get_column_type column_name sample_value.
Proof. unfold get_column_type. now rewrite lower_idempotent. Qed.

(** X22.  The table name of a CSV file depends on the file name only, not
    on the folder it lies in, and it is made of no capital letter, blank,
    hyphen or slash. *)
Theorem determine_table_name_ignores_folder (dir file : string) (df df' : DataFrame) :
  PyStr.all_chars PyStr.not_slash file = true -> file <> "" -> file <> "." ->
  DatabaseManager._determine_table_name (dir +:+ "/" +:+ file) df
  = DatabaseManager._determine_table_name file df'
  /\ PyStr.all_chars PyStr.tidy (DatabaseManager._determine_table_name (dir +:+ "/" +:+ file) df)
     = true.
Proof.
  intros Hflat Hne Hdot. split; [|apply determine_table_name_tidy].
  rewrite !determine_table_name_unfold. unfold DatabaseManager.cleaned_stem, PyPath.stem.
  now rewrite (name_of_file_in_dir dir file Hflat Hne Hdot), (name_flat file Hflat Hne Hdot).
Qed.

Lemma determine_table_name_ignores_folder_witness :
  PyStr.all_chars PyStr.not_slash "Internal-All.csv" = true
  /\ "Internal-All.csv" <> ""
  /\ "Internal-All.csv" <> "."
  /\ DatabaseManager._determine_table_name ("output/2024" +:+ "/" +:+ "Internal-All.csv")
       Scenario.pages
     = DatabaseManager._determine_table_name "Internal-All.csv" Scenario.empty_batch
  /\ PyStr.all_chars PyStr.tidy
       (DatabaseManager._determine_table_name ("output/2024" +:+ "/" +:+ "Internal-All.csv")
          Scenario.pages) = true.
Proof.
  assert (Hflat : PyStr.all_chars PyStr.not_slash "Internal-All.csv" = true) by reflexivity.
  assert (Hne : "Internal-All.csv" <> "") by discriminate.
  assert (Hdot : "Internal-All.csv" <> ".") by discriminate.
  split; [exact Hflat|]. split; [exact Hne|]. split; [exact Hdot|].
  exact (determine_table_name_ignores_folder "output/2024" "Internal-All.csv" Scenario.pages
           Scenario.empty_batch Hflat Hne Hdot).
Defined.

(** * A closed manager *)


(** * Creating the table of a frame *)

Section CreateTable.

Context `{SqlEngine}.
Import Sqlite DatabaseManager CreatePath.

Lemma distinct_middle (a : list string) (n : string) (rest : list string) :
  distinct (a ++ n :: rest) = true -> existsb (fun c => String.eqb c n) a = false.
Proof.
  induction a as [|x a IH]; [reflexivity|]. simpl.
  intros [Hx Ha]%andb_prop. rewrite (IH Ha), orb_false_r.
  apply negb_true_iff in Hx. rewrite existsb_app in Hx. simpl in Hx.
  apply orb_false_elim in Hx as [_ Hx]. now apply orb_false_elim in Hx as [Hx _].
Qed.

Lemma has_column_lowered (tb : table) (n : string) :
  has_column tb n
  = existsb (fun c => String.eqb c (PyStr.lower n)) (PyStr.lower <$> column_names tb).
Proof.
  unfold has_column. induction (column_names tb) as [|x l IH]; [reflexivity|].
  rewrite fmap_cons. simpl. now rewrite IH.
Qed.

(** Definitions of fresh, pairwise distinct names are all added, in
    order. *)
Lemma add_columns_fresh (defs : list string) (cols : list (string * string)) (tb : table) :
  BaseTables.lenient ->
  Forall2 (fun d nd => PyStr.first_word d = Some nd.1 /\ col_decl d = nd.2) defs cols ->
  distinct (PyStr.lower <$> (column_names tb ++ cols.*1)%list) = true ->
  add_columns defs tb = Returned (Table (t_columns tb ++ cols) (t_rows tb)).
Proof.
  intros Hl Hdefs. revert tb.
  induction Hdefs as [|d [n decl] defs cols [Hn Hd] _ IH]; intros tb Hdist.
  - simpl. rewrite app_nil_r. now destruct tb.
  - simpl in Hn, Hd. cbn [add_columns]. unfold add_column. rewrite Hl, Hn.
    rewrite has_column_lowered.
    rewrite fmap_cons, fmap_app, fmap_cons in Hdist. cbn [fst] in Hdist.
    rewrite (distinct_middle _ _ _ Hdist), Hd.
    rewrite (IH (Table (t_columns tb ++ [(n, decl)]) (t_rows tb))).
    + cbn [t_columns t_rows]. now rewrite <- app_assoc.
    + unfold column_names in *. cbn [t_columns]. rewrite !fmap_app, <- app_assoc.
      exact Hdist.
Qed.

Lemma clean_cons (c : ascii) (s : string) :
  clean (String c s)
  = String (PyStr.lower_char
              (if Ascii.eqb (if Ascii.eqb c " " then "_"%char else c) "-" then "_"%char
               else if Ascii.eqb c " " then "_"%char else c)) (clean s).
Proof. reflexivity. Qed.

Lemma clean_char_no_space (c : ascii) :
  plain_char c = true ->
  PyStr.is_space
    (PyStr.lower_char
       (if Ascii.eqb (if Ascii.eqb c " " then "_"%char else c) "-" then "_"%char
        else if Ascii.eqb c " " then "_"%char else c)) = false.
Proof. destruct c as [[] [] [] [] [] [] [] []]; try discriminate; reflexivity. Qed.

Lemma clean_no_space (col : string) :
  PyStr.all_chars plain_char col = true ->
  PyStr.all_chars (fun c => negb (PyStr.is_space c)) (clean col) = true.
Proof.
  induction col as [|c col IH]; [reflexivity|].
  simpl PyStr.all_chars at 1. intros [Hc Hcol]%andb_prop.
  rewrite clean_cons. cbn [PyStr.all_chars].
  now rewrite (clean_char_no_space c Hc), (IH Hcol).
Qed.

Lemma lower_clean (col : string) : PyStr.lower (clean col) = clean col.
Proof. unfold clean. apply lower_idempotent. Qed.

(** A word followed by a blank and a rest. *)
Lemma word_then_rest (w r : string) :
  PyStr.all_chars (fun c => negb (PyStr.is_space c)) w = true -> w <> "" ->
  PyStr.first_word (w +:+ String " " r) = Some w
  /\ col_decl (w +:+ String " " r) = PyStr.lstrip r.
Proof.
  intros Hw Hne.
  assert (Hword : PyStr.take_word (w +:+ String " " r) = w
                  /\ drop_word (w +:+ String " " r) = String " " r).
  { clear Hne. induction w as [|c w IH]; [now split|].
    simpl in Hw. apply andb_prop in Hw as [Hc%negb_true_iff Hw].
    rewrite append_cons. simpl. rewrite Hc. destruct (IH Hw) as [-> Hdrop].
    split; [reflexivity|]. destruct w; exact Hdrop. }
  destruct w as [|c w]; [contradiction|].
  simpl in Hw. apply andb_prop in Hw as [Hc%negb_true_iff Hw'].
  assert (Hstrip : PyStr.lstrip (String c w +:+ String " " r) = String c w +:+ String " " r).
  { rewrite append_cons. simpl. now rewrite Hc. }
  unfold PyStr.first_word, col_decl. rewrite Hstrip. destruct Hword as [Htake Hdrop].
  rewrite Hdrop. split; [|reflexivity].
  rewrite append_cons in Htake |- *. cbv iota beta. now rewrite Htake.
Qed.

Lemma column_definition_parts (df : DataFrame) (col : string) :
  plain_label col = true ->
  let def := clean col +:+ " " +:+ get_column_type col (Pandas.sample df col) in
  PyStr.first_word def = Some (clean col)
  /\ col_decl def = get_column_type col (Pandas.sample df col).
Proof.
  intros [Hne Hplain]%andb_prop def. unfold def.
  change (" " +:+ get_column_type col (Pandas.sample df col))
    with (String " " (get_column_type col (Pandas.sample df col))).
  destruct (word_then_rest (clean col) (get_column_type col (Pandas.sample df col)))
    as [Hw Hd].
  - now apply clean_no_space.
  - destruct col; [discriminate|]. rewrite clean_cons. discriminate.
  - split; [exact Hw|]. rewrite Hd.
    destruct (get_column_type_cases col (Pandas.sample df col)) as [->|[->| ->]];
      reflexivity.
Qed.

Lemma created_columns_match (df : DataFrame) :
  forallb plain_label (df_columns df) = true ->
  Forall2 (fun d nd => PyStr.first_word d = Some nd.1 /\ col_decl d = nd.2)
    ("id INTEGER PRIMARY KEY" :: column_definitions df) (created_columns df).
Proof.
  intros Hplain. unfold column_definitions, created_columns.
  constructor; [split; reflexivity|].
  apply Forall2_app; [|unfold metadata_columns; repeat constructor].
  induction (df_columns df) as [|col cols IH]; [constructor|].
  simpl in Hplain. apply andb_prop in Hplain as [Hcol Hcols].
  rewrite !fmap_cons. constructor; [|now apply IH].
  exact (column_definition_parts df col Hcol).
Qed.

Lemma created_columns_lowered (df : DataFrame) :
  PyStr.lower <$> (created_columns df).*1 = (created_columns df).*1.
Proof.
  unfold created_columns. rewrite !fmap_cons, !fmap_app. f_equal. f_equal.
  induction (df_columns df) as [|col cols IH]; [reflexivity|].
  rewrite !fmap_cons, IH. cbn [fst]. now rewrite lower_clean.
Qed.

End CreateTable.



(** * The first crawl on a new database *)

Section FirstCrawl.

Context `{SqlEngine}.
Import Sqlite.

Lemma create_missing_table (t : string) (defs : list string) (tb0 : table) (c : connection) :
  BaseTables.lenient ->
  pending c !! t = None ->
  @add_columns plain_engine defs (Table [] []) = Returned tb0 ->
  exists c', execute (CreateTable true t defs) c = (Returned tt, c')
             /\ pending c' !! t = Some tb0.
Proof.
  intros Hl Ht Hdefs. unfold execute. cbn [effect].
  rewrite Ht, add_columns_lenient, Hdefs by exact Hl.
  eexists. split; [reflexivity|]. simpl. apply lookup_insert_eq.
Qed.

Lemma setup_database_fresh_ledger (c : connection) :
  BaseTables.lenient ->
  pending c !! "crawl_metadata" = None ->
  exists c', ScreamingFrogWrapper.setup_database c = (Returned tt, c')
             /\ pending c' !! "crawl_metadata" = Some CrawlRun.fresh_ledger.
Proof.
  intros Hl Hnone. unfold ScreamingFrogWrapper.setup_database, bind.
  destruct (create_missing_table "crawl_metadata" ScreamingFrogWrapper.crawl_metadata_columns
              CrawlRun.fresh_ledger c Hl Hnone ltac:(vm_compute; reflexivity))
    as (c1 & -> & H1).
  match goal with |- context [execute (CreateTable true ?t ?defs) c1] =>
    destruct (create_if_missing t defs _ c1 Hl ltac:(vm_compute; reflexivity))
      as (c2 & -> & (Hkeep & _) & _)
  end.
  eexists. split; [reflexivity|]. simpl. now apply Hkeep.
Qed.

End FirstCrawl.



(** * Cleanup when every registered table has a crawl date *)

Section CleanupDeletes.

Context `{SqlEngine}.
Import Sqlite DatabaseManager Maintenance.

Lemma has_column_rows (tb : table) (rows : list row) (n : string) :
  has_column (Table (t_columns tb) rows) n = has_column tb n.
Proof. reflexivity. Qed.

(** One turn of the DELETE loop. *)
Lemma delete_turn (p : string) (sch : gmap string string) (cutoff : Z) (t : string)
    (cx : connection) :
  deletable sch (pending cx) t ->
  exists cx',
    bind (gets table_schemas)
         (fun schemas =>
            match schemas !! t with
            | Some _ => cursor (execute (DeleteWhereCrawlDateBefore t cutoff))
            | None => ret tt
            end) (State p (Open cx) sch)
    = (Returned tt, State p (Open cx') sch)
    /\ (forall t', pending cx' !! t'
                   = if String.eqb t t'
                     then match sch !! t with
                          | Some _ =>
                              (fun tb => Table (t_columns tb) (kept cutoff (t_rows tb)))
                                <$> pending cx !! t
                          | None => pending cx !! t
                          end
                     else pending cx !! t')
    /\ committed cx' = committed cx.
Proof.
  intros Hdel. unfold bind, gets. cbn [table_schemas].
  destruct (sch !! t) as [sql|] eqn:Hsch.
  - destruct (Hdel ltac:(eauto)) as (tb & Htb & Hdate).
    rewrite cursor_open. unfold execute. cbn [effect]. rewrite Htb, Hdate. cbn [fst snd].
    eexists. split; [reflexivity|]. split; [|reflexivity].
    intros t'. simpl. destruct (String.eqb_spec t t') as [<-|Hne].
    + now rewrite lookup_insert_eq.
    + now rewrite lookup_insert_ne.
  - exists cx. split; [reflexivity|]. split; [|reflexivity].
    intros t'. now destruct (String.eqb_spec t t') as [<-|Hne].
Qed.

Lemma cleanup_completes (p : string) (sch : gmap string string) (c : connection)
    (tbl : table) (days_to_keep now : Z) :
  in_txn c = false ->
  pending c !! "maintenance_log" = Some tbl ->
  has_log_columns tbl = true ->
  Forall (deletable sch (pending c)) tables_to_clean ->
  exists c',
    cleanup_old_records days_to_keep now (State p (Open c) sch)
    = (Returned tt, State p (Open c') sch)
    /\ committed c' = pending c'
    /\ pending c' !! "maintenance_log"
       = Some (Table (t_columns tbl)
                 (t_rows tbl ++
                  [completed_entry "cleanup"
                     ("Removing records older than " +:+ pretty days_to_keep +:+ " days")
                     now (next_rowid (t_rows tbl))]))
    /\ forall t, t <> "maintenance_log" ->
         pending c' !! t = after_loop sch (now - days days_to_keep) t (pending c !! t).
Proof.
  intros Hidle Hlog Hcols Hdel.
  unfold has_log_columns in Hcols. simpl in Hcols.
  apply andb_prop in Hcols as [Hc1 Hcols]. apply andb_prop in Hcols as [Hc2 Hcols].
  apply andb_prop in Hcols as [Hc3 Hcols]. apply andb_prop in Hcols as [Hc4 Hcols].
  apply andb_prop in Hcols as [Hc5 Hcols]. apply andb_prop in Hcols as [Hc6 _].
  apply Forall_cons in Hdel as [Hres Hdel]. apply Forall_cons in Hdel as [Hmeta _].
  unfold cleanup_old_records, try_bind, log_start.
  unfold bind at 1. unfold bind at 1.
  rewrite cursor_open, (execute_begin_idle c Hidle). cbn [fst snd].
  set (cb := record Begin true _).
  rewrite cursor_open.
  set (details := "Removing records older than " +:+ pretty days_to_keep +:+ " days").
  set (ins := InsertInto "maintenance_log" _).
  set (entry0 := <["id" := PyInt (next_rowid (t_rows tbl))]>
                   (set_fields [("operation", PyStr "cleanup"); ("details", PyStr details);
                                ("started_at", PyTimestamp now);
                                ("status", PyStr "in_progress")] ∅)).
  assert (Hins : execute ins cb
                 = (Returned tt,
                    record ins true
                      (dml (fun s => <["maintenance_log" :=
                                         Table (t_columns tbl) (t_rows tbl ++ [entry0])]> s)
                           (next_rowid (t_rows tbl)) 1 cb))).
  { unfold execute, ins. cbn [effect]. change (pending cb) with (pending c). rewrite Hlog.
    rewrite unknown_column_none by (simpl; now rewrite Hc1, Hc2, Hc3, Hc4).
    unfold rowid_for. rewrite set_fields_other by (apply not_in_keys; reflexivity).
    rewrite lookup_empty. reflexivity. }
  rewrite Hins. cbn [fst snd]. rewrite cursor_open. cbn [gets fst snd].
  set (c1 := record ins true _).
  change (lastrowid c1) with (next_rowid (t_rows tbl)).
  assert (Hp1 : forall t, t <> "maintenance_log" -> pending c1 !! t = pending c !! t).
  { intros t Ht. simpl. now apply lookup_insert_ne. }
  unfold try_except. cbv zeta. unfold bind at 1. unfold tables_to_clean. cbn [for_each].
  unfold bind at 1.
  destruct (delete_turn p sch (now - days days_to_keep) "crawl_results" c1)
    as (c2 & -> & Hp2 & Hcom2).
  { intros Hs. destruct (Hres Hs) as (tb & Htb & Hd). exists tb.
    now rewrite Hp1 by discriminate. }
  unfold bind at 1.
  destruct (delete_turn p sch (now - days days_to_keep) "crawl_metadata" c2)
    as (c3 & -> & Hp3 & Hcom3).
  { intros Hs. destruct (Hmeta Hs) as (tb & Htb & Hd). exists tb.
    rewrite Hp2. simpl. now rewrite Hp1 by discriminate. }
  cbn [ret fst snd]. unfold log_completed, bind. rewrite cursor_open.
  assert (Hlog3 : pending c3 !! "maintenance_log"
                  = Some (Table (t_columns tbl) (t_rows tbl ++ [entry0]))).
  { rewrite Hp3. simpl. rewrite Hp2. simpl. apply lookup_insert_eq. }
  set (upd := UpdateWhereId "maintenance_log" _ _).
  assert (Hupd : exists c4,
             execute upd c3 = (Returned tt, c4)
             /\ pending c4
                = <["maintenance_log" :=
                      Table (t_columns tbl)
                        (t_rows tbl ++
                         [completed_entry "cleanup" details now (next_rowid (t_rows tbl))])]>
                    (pending c3)).
  { unfold execute, upd. cbn [effect]. rewrite Hlog3.
    rewrite unknown_column_none
      by (simpl; now rewrite !has_column_rows, Hc5, Hc4, Hc6).
    eexists. split; [reflexivity|]. cbn [pending record dml t_rows t_columns].
    rewrite fmap_app, update_fresh_id. cbn [fmap list_fmap].
    assert (Hid : row_id entry0 = next_rowid (t_rows tbl)).
    { unfold row_id, entry0. now rewrite lookup_insert_eq. }
    rewrite Hid, Z.eqb_refl. reflexivity. }
  destruct Hupd as (c4 & -> & Hp4). cbn [fst snd]. rewrite cursor_open.
  eexists. split; [reflexivity|]. simpl. split; [reflexivity|].
  rewrite Hp4. split; [apply lookup_insert_eq|].
  intros t Ht. rewrite lookup_insert_ne by congruence.
  rewrite Hp3. unfold after_loop, tables_to_clean. cbn [existsb].
  destruct (String.eqb_spec "crawl_metadata" t) as [<-|Hne1].
  - rewrite Hp2. simpl. rewrite Hp1 by discriminate.
    now destruct (sch !! "crawl_metadata").
  - rewrite Hp2. destruct (String.eqb_spec "crawl_results" t) as [<-|Hne2].
    + simpl. rewrite Hp1 by discriminate. now destruct (sch !! "crawl_results").
    + rewrite Hp1 by exact Ht.
      destruct (String.eqb_spec t "crawl_results") as [->|_]; [contradiction|].
      destruct (String.eqb_spec t "crawl_metadata") as [->|_]; [contradiction|].
      simpl. now destruct (sch !! t).
Qed.

End CleanupDeletes.



(** * Storing a frame in a registered table *)

Section StoreRows.

Context `{SqlEngine}.
Import Sqlite DatabaseManager.

Lemma in_existsb_eqb (k : string) (l : list string) :
  existsb (String.eqb k) l = false -> ~ In k l.
Proof.
  induction l as [|x l IH]; simpl; [tauto|].
  intros [Hx Hl]%orb_false_elim [->|Hin]; [|now apply IH].
  now rewrite String.eqb_refl in Hx.
Qed.

(** The INSERT loop of [to_sql] on a table that has every label. *)
Lemma insert_loop (t : string) (labels : list string) (cells : list (list pyval))
    (c : connection) (tb : table) :
  pending c !! t = Some tb ->
  forallb (has_column tb) labels = true ->
  existsb (String.eqb "id") labels = false ->
  Forall (fun r => length r = length labels) cells ->
  exists c',
    for_each cells (fun r => execute (InsertInto t (zip labels r))) c = (Returned tt, c')
    /\ pending c'
       = <[t := Table (t_columns tb) (Registered.append_rows labels (t_rows tb) cells)]>
           (pending c)
    /\ committed c' = committed c.
Proof.
  intros Ht Hcols Hid Hrect. revert c tb Ht Hcols.
  induction Hrect as [|r cells Hr _ IH]; intros c tb Ht Hcols.
  - exists c. split; [reflexivity|]. split; [|reflexivity].
    simpl. destruct tb. symmetry. now apply insert_id.
  - cbn [for_each Registered.append_rows]. unfold bind.
    assert (Hkeys : (zip labels r).*1 = labels) by (apply fst_zip; lia).
    set (new := <["id" := PyInt (next_rowid (t_rows tb))]> (set_fields (zip labels r) ∅)).
    assert (Hins : execute (InsertInto t (zip labels r)) c
                   = (Returned tt,
                      record (InsertInto t (zip labels r)) true
                        (dml (fun s => <[t := Table (t_columns tb) (t_rows tb ++ [new])]> s)
                             (next_rowid (t_rows tb)) 1 c))).
    { unfold execute. cbn [effect]. rewrite Ht.
      rewrite unknown_column_none by now rewrite Hkeys.
      unfold rowid_for.
      rewrite set_fields_other by (rewrite Hkeys; now apply in_existsb_eqb).
      now rewrite lookup_empty. }
    rewrite Hins.
    match goal with |- context [for_each cells _ ?c1] =>
      destruct (IH c1 (Table (t_columns tb) (t_rows tb ++ [new]))) as (c' & -> & Hp & Hc)
    end.
    + simpl. apply lookup_insert_eq.
    + exact Hcols.
    + exists c'. split; [reflexivity|]. split; [|exact Hc].
      rewrite Hp. simpl. now rewrite insert_insert_eq.
Qed.

Lemma clean_char_idempotent (c : ascii) :
  let f x := PyStr.lower_char
               (if Ascii.eqb (if Ascii.eqb x " " then "_"%char else x) "-" then "_"%char
                else if Ascii.eqb x " " then "_"%char else x) in
  f (f c) = f c.
Proof. destruct c as [[] [] [] [] [] [] [] []]; reflexivity. Qed.

Lemma clean_idempotent (col : string) : clean (clean col) = clean col.
Proof.
  induction col as [|c col IH]; [reflexivity|].
  rewrite !clean_cons, IH. f_equal. apply clean_char_idempotent.
Qed.

Lemma assign_labels (label l : string) (v : pyval) (df : DataFrame) :
  In l (df_columns (Pandas.assign label v df)) -> In l (df_columns df) \/ l = label.
Proof.
  unfold Pandas.assign. destruct (Pandas.index_of (df_columns df) label); simpl; [tauto|].
  intros [Hin|[<-|[]]]%in_app_or; tauto.
Qed.

Lemma tagged_labels_clean (csv_file : string) (df0 : DataFrame) (crawl_id now : Z)
    (l : string) :
  In l (df_columns (tagged csv_file df0 crawl_id now)) -> clean l = l.
Proof.
  unfold tagged. intros Hin.
  apply assign_labels in Hin as [Hin| ->]; [|reflexivity].
  apply assign_labels in Hin as [Hin| ->]; [|reflexivity].
  apply assign_labels in Hin as [Hin| ->]; [|reflexivity].
  simpl in Hin. apply list_elem_of_In, list_elem_of_fmap in Hin as (col & -> & _).
  apply clean_idempotent.
Qed.

Lemma assign_rectangular (label : string) (v : pyval) (df : DataFrame) :
  CrawlRun.rectangular df = true -> CrawlRun.rectangular (Pandas.assign label v df) = true.
Proof.
  unfold CrawlRun.rectangular, Pandas.assign. intros Hrect.
  destruct (Pandas.index_of (df_columns df) label) as [i|]; cbn [df_columns df_rows].
  - induction (df_rows df) as [|r rows IH]; [reflexivity|].
    simpl in Hrect. apply andb_prop in Hrect as [Hr Hrows].
    rewrite fmap_cons. simpl. rewrite length_insert, Hr. now apply IH.
  - induction (df_rows df) as [|r rows IH]; [reflexivity|].
    simpl in Hrect. apply andb_prop in Hrect as [Hr%Nat.eqb_eq Hrows].
    assert (Hlen : Nat.eqb (length (r ++ [v])) (length (df_columns df ++ [label])) = true)
      by (rewrite !length_app, Hr; apply Nat.eqb_refl).
    rewrite fmap_cons. cbn [forallb]. rewrite Hlen. now apply IH.
Qed.

Lemma assign_row_count (label : string) (v : pyval) (df : DataFrame) :
  length (df_rows (Pandas.assign label v df)) = length (df_rows df).
Proof.
  unfold Pandas.assign. destruct (Pandas.index_of (df_columns df) label);
    simpl; apply length_fmap.
Qed.

Lemma append_rows_length (labels : list string) (cells : list (list pyval))
    (rows : list row) :
  length (Registered.append_rows labels rows cells) = (length rows + length cells)%nat.
Proof.
  revert rows. induction cells as [|r cells IH]; intros rows; simpl; [lia|].
  rewrite IH, length_app. simpl. lia.
Qed.

Lemma settled_labels (df : DataFrame) (tb : table) :
  BaseTables.lenient ->
  forallb CreatePath.plain_label (df_columns df) = true ->
  (forall l, In l (df_columns df) -> clean l = l) ->
  Forall (Schema.settled tb) (column_definitions df) ->
  forallb (has_column tb) (df_columns df) = true.
Proof.
  intros Hl Hplain Hclean Hset. apply forallb_forall. intros l Hin.
  assert (Hdef : In (clean l +:+ " " +:+ get_column_type l (Pandas.sample df l))
                    (column_definitions df)).
  { unfold column_definitions. apply in_or_app. left.
    apply list_elem_of_In, list_elem_of_fmap. exists l.
    split; [reflexivity|now apply list_elem_of_In]. }
  rewrite Forall_forall in Hset. specialize (Hset _ (proj2 (list_elem_of_In _ _) Hdef)).
  destruct Hset as [Hrej|(n & Hn & Hhas)]; [rewrite Hl in Hrej; discriminate|].
  rewrite forallb_forall in Hplain.
  destruct (column_definition_parts df l (Hplain l Hin)) as [Hword _].
  rewrite Hword in Hn. injection Hn as <-. now rewrite (Hclean l Hin) in Hhas.
Qed.

Lemma process_csv_registered (p : string) (c : connection) (sch : gmap string string)
    (csv_file : string) (df0 : DataFrame) (crawl_id now : Z) (tb : table) :
  let df := tagged csv_file df0 crawl_id now in
  let t := _determine_table_name csv_file df in
  BaseTables.lenient ->
  is_Some (sch !! t) ->
  pending c !! t = Some tb ->
  Registered.storable df = true ->
  exists c' extra,
    process_screaming_frog_csv csv_file (Returned df0) crawl_id now (State p (Open c) sch)
    = (Returned (Z.of_nat (length (df_rows df0))), State p (Open c') sch)
    /\ pending c' !! t
       = Some (Table (t_columns tb ++ extra)
                 (Registered.append_rows (df_columns df) (t_rows tb) (df_rows df)))
    /\ committed c' = pending c'.
Proof.
  intros df t Hl Hs Ht Hstore.
  apply andb_prop in Hstore as [Hstore Hrect]. apply andb_prop in Hstore as [Hplain Hid].
  apply negb_true_iff in Hid.
  rewrite process_csv_unfold. fold df. cbv zeta. fold t. unfold bind at 1.
  pose proof (ensure_table_registered p c sch t df Hs) as E1. rewrite Ht in E1.
  rewrite E1. clear E1.
  destruct (reconcile_loop_settles t (column_names tb) (column_definitions df)
              (record (PragmaTableInfo t) true c) tb Ht (has_column_of_name tb))
    as (extra & Hp & Hset).
  { apply Forall_forall. intros def Hin. apply list_elem_of_In in Hin.
    eapply column_definitions_first_word, Hin. }
  set (c0 := Schema.reconcile_loop _ _ _ _) in *.
  set (tb1 := Table (t_columns tb ++ extra) (t_rows tb)) in *.
  assert (Hcols : forallb (has_column tb1) (df_columns df) = true).
  { apply settled_labels; [exact Hl|exact Hplain| |exact Hset].
    intros l. apply tagged_labels_clean. }
  assert (Hlen : Forall (fun r => length r = length (df_columns df)) (df_rows df)).
  { apply Forall_forall. intros r Hin. unfold CrawlRun.rectangular in Hrect.
    rewrite forallb_forall in Hrect. apply Nat.eqb_eq, Hrect. now apply list_elem_of_In. }
  unfold bind. rewrite cursor_open.
  assert (Hp1 : pending (snd (commit c0)) !! t = Some tb1) by exact Hp.
  destruct (insert_loop t (df_columns df) (df_rows df) (snd (commit c0)) tb1 Hp1 Hcols Hid
              Hlen) as (c2 & Hloop & Hp2 & _).
  assert (Hsql : Pandas.to_sql t df (snd (commit c0)) = (Returned tt, snd (commit c2))).
  { unfold Pandas.to_sql, bind at 1, gets. rewrite Hp1.
    unfold bind at 1, ret, try_except, bind. now rewrite Hloop. }
  rewrite Hsql. cbn [fst snd ret].
  exists (snd (commit c2)), extra. split.
  - unfold Pandas.len, df, tagged. now rewrite !assign_row_count.
  - simpl. rewrite Hp2. split; [apply lookup_insert_eq|reflexivity].
Qed.

End StoreRows.



(** * Crawls that leave no record *)

Section Unrecorded.

Context `{SqlEngine}.
Import Sqlite.

Lemma crawl_schedule_outcome (env_at : nat -> CrawlRun.crawl_env)
    (config_file : option string) (lines : list string) (i : nat) (c : connection) :
  fst (CrawlRun.crawl_schedule env_at i config_file lines c) = CrawlRun.Done tt
  <-> existsb CrawlRun.crawlable lines = false.
Proof.
  revert i c. induction lines as [|line lines IH]; intros i c; [now split|].
  cbn [CrawlRun.crawl_schedule existsb].
  destruct (CrawlRun.crawlable line); [|apply IH].
  destruct (run_crawl_raises (env_at i)
              (PyStr.strip (CrawlRun.first_field (PyStr.strip line))) config_file c)
    as (e & He).
  destruct (CrawlRun.run_crawl _ _ _ c) as [[[]|e'] c']; simpl in He; [discriminate|].
  simpl. split; discriminate.
Qed.

Lemma start_refused (url : string) (config_file : option string) (cmd_str : string)
    (now : Z) (c : connection) (tb : table) :
  pending c !! "crawl_metadata" = Some tb ->
  has_column tb "command_executed" = false ->
  exists msg q,
    ScreamingFrogWrapper.record_crawl_start url config_file cmd_str now c
    = (Raised (OperationalError msg), record q false c).
Proof.
  intros Ht Hcol. unfold ScreamingFrogWrapper.record_crawl_start, bind, execute.
  cbn [effect]. rewrite Ht.
  match goal with |- context [unknown_column tb ?fields] =>
    destruct (find_existsb (fun n => negb (has_column tb n)) (fields.*1)) as (n & Hn)
  end.
  { apply existsb_exists. exists "command_executed". split; [|now rewrite Hcol].
    simpl. tauto. }
  unfold unknown_column. rewrite Hn. eauto.
Qed.

End Unrecorded.



(** X29.  Without the command-line tool [run_crawl] raises
    FileNotFoundError and does not touch the database: no record of the
    attempt is written. *)
Theorem run_crawl_without_cli_writes_nothing `{SqlEngine} (env : CrawlRun.crawl_env)
    (url : string) (config_file : option string) (c : Sqlite.connection) :
  CrawlRun.truthy (CrawlRun.which_cli env) = None ->
  exists msg,
    CrawlRun.run_crawl env url config_file c
    = (CrawlRun.Failed (CrawlRun.FileNotFoundError msg), c).
Proof.
  intros Hcli. unfold CrawlRun.run_crawl, CrawlRun.build_crawl_command. rewrite Hcli.
  rewrite crawl_failed_raises. eauto.
Qed.

Lemma run_crawl_without_cli_writes_nothing_witness :
  let env := CrawlRun.CrawlEnv None None false true 2000 None [] 7 8 "Traceback" in
  CrawlRun.truthy (CrawlRun.which_cli env) = None
  /\ exists msg,
       @CrawlRun.run_crawl plain_engine env "http://b.example" None
         (Sqlite.fresh_connection ∅)
       = (CrawlRun.Failed (CrawlRun.FileNotFoundError msg), Sqlite.fresh_connection ∅).
Proof.
  intros env. split; [reflexivity|].
  exact (@run_crawl_without_cli_writes_nothing plain_engine env "http://b.example" None
           (Sqlite.fresh_connection ∅) eq_refl).
Defined.

(** X30.  On a ledger table without the [command_executed] column, as the
    constructor of [DatabaseManager] leaves it on a new database, no crawl
    is ever recorded: [run_crawl] raises the sqlite3.OperationalError of
    the refused INSERT, no failure is written since no id was obtained, and
    the live and the committed store are unchanged. *)
Theorem run_crawl_on_manager_ledger_records_nothing `{SqlEngine} (env : CrawlRun.crawl_env)
    (url : string) (config_file : option string) (c : Sqlite.connection) (tb : table)
    (cli : string) :
  CrawlRun.truthy (CrawlRun.which_cli env) = Some cli ->
  Sqlite.pending c !! "crawl_metadata" = Some tb ->
  Sqlite.has_column tb "command_executed" = false ->
  exists msg c',
    CrawlRun.run_crawl env url config_file c
    = (CrawlRun.Failed (CrawlRun.Inner (OperationalError msg)), c')
    /\ Sqlite.pending c' = Sqlite.pending c
    /\ Sqlite.committed c' = Sqlite.committed c.
Proof.
  intros Hcli Ht Hcol.
  destruct (build_crawl_command_done env url config_file c cli Hcli) as (rest & Hcmd).
  destruct (start_refused url (CrawlRun.truthy config_file) (PyStr.join " " (cli :: rest))
              (CrawlRun.started_at env) c tb Ht Hcol) as (msg & q & Hstart).
  unfold CrawlRun.run_crawl. rewrite Hcmd, Hstart, crawl_failed_raises.
  exists msg. eexists. split; [reflexivity|]. split; reflexivity.
Qed.

Lemma run_crawl_on_manager_ledger_records_nothing_witness :
  let c := Sqlite.fresh_connection (<["crawl_metadata" := CrawlRun.manager_ledger]> ∅) in
  CrawlRun.truthy (CrawlRun.which_cli CrawlRun.good_crawl)
  = Some "ScreamingFrogSEOSpiderCli.exe"
  /\ Sqlite.pending c !! "crawl_metadata" = Some CrawlRun.manager_ledger
  /\ Sqlite.has_column CrawlRun.manager_ledger "command_executed" = false
  /\ exists msg c',
       @CrawlRun.run_crawl plain_engine CrawlRun.good_crawl "http://b.example" None c
       = (CrawlRun.Failed (CrawlRun.Inner (OperationalError msg)), c')
       /\ Sqlite.pending c' = Sqlite.pending c
       /\ Sqlite.committed c' = Sqlite.committed c.
Proof.
  intros c.
  assert (Ht : Sqlite.pending c !! "crawl_metadata" = Some CrawlRun.manager_ledger)
    by apply lookup_insert_eq.
  split; [reflexivity|]. split; [exact Ht|]. split; [reflexivity|].
  exact (@run_crawl_on_manager_ledger_records_nothing plain_engine CrawlRun.good_crawl
           "http://b.example" None c CrawlRun.manager_ledger _ eq_refl Ht eq_refl).
Defined.
